(** * chatbot-ortopedic: customs summary automation

    A shallow embedding of the customs-pending detection, summary
    formatting, paginated fetch, retry wrapper and notification code of

      - src/automations/daily-summary/customs_summary.py  (module [CustomsSummary])
      - python/tracking_service.py                        (module [TrackingService])
      - python/whatsapp_service.py                        (module [WhatsAppService])
      - python/customs_summary.py                         (module [LegacySummary])

    Python values decoded from JSON are a small inductive type, Python
    exceptions are a result type, and the HTTP library, [time.sleep] and
    [os.getenv] are an explicit world that is threaded through the code. *)

From Stdlib Require Import List ZArith NArith Lia Bool String Ascii.
From Stdlib Require DecimalString.
Import ListNotations.

(* ================================================================== *)
(** * Python values, strings and exceptions *)
(* ================================================================== *)

Module Py.

(** A Python [str] is a sequence of Unicode code points. *)
Definition str := list N.

(** Literals are written as UTF-8 text and decoded to code points. *)
Fixpoint utf8_decode (bs : list N) (acc : N) (need : nat) : str :=
  match bs with
  | [] => []
  | b :: rest =>
      match need with
      | S n =>
          let acc' := (acc * 64 + b mod 64)%N in
          match n with
          | O => acc' :: utf8_decode rest 0%N O
          | S _ => utf8_decode rest acc' n
          end
      | O =>
          if (b <? 128)%N then b :: utf8_decode rest 0%N O
          else if (b <? 224)%N then utf8_decode rest (b mod 32)%N 1
          else if (b <? 240)%N then utf8_decode rest (b mod 16)%N 2
          else utf8_decode rest (b mod 8)%N 3
      end
  end.

Definition u (s : string) : str :=
  utf8_decode (map N_of_ascii (list_ascii_of_string s)) 0%N O.
Arguments u s%_string.

(** The line feed, written [\n] in the source. *)
Definition nl : str := [10%N].

Fixpoint str_eqb (a b : str) : bool :=
  match a, b with
  | [], [] => true
  | x :: a', y :: b' => (x =? y)%N && str_eqb a' b'
  | _, _ => false
  end.

(** [s.startswith(p)] *)
Fixpoint startswith (p s : str) : bool :=
  match p, s with
  | [], _ => true
  | _ :: _, [] => false
  | x :: p', y :: s' => (x =? y)%N && startswith p' s'
  end.

(** [needle in hay] on two strings. *)
Fixpoint contains (needle hay : str) : bool :=
  startswith needle hay ||
  match hay with
  | [] => false
  | _ :: hay' => contains needle hay'
  end.

(** [s.replace(old, new)]: occurrences are replaced from left to right and
    do not overlap.  [skip] counts the characters of an occurrence that was
    just replaced and are still to be dropped. *)
Fixpoint replace_from (old new s : str) (skip : nat) : str :=
  match s with
  | [] => []
  | c :: rest =>
      match skip with
      | S k => replace_from old new rest k
      | O =>
          if startswith old s
          then new ++ replace_from old new rest (List.length old - 1)
          else c :: replace_from old new rest O
      end
  end.

Definition replace (old new s : str) : str :=
  match old with
  | [] => new ++ flat_map (fun c => c :: new) s
  | _ :: _ => replace_from old new s O
  end.

(** [sep.join(parts)] *)
Fixpoint join (sep : str) (parts : list str) : str :=
  match parts with
  | [] => []
  | [p] => p
  | p :: rest => p ++ sep ++ join sep rest
  end.

(** [s.rstrip(chars)]: the trailing characters that are in [chars] are
    dropped. *)
Definition rstrip (chars s : str) : str :=
  fold_right
    (fun c kept =>
       match kept with
       | [] => if existsb (N.eqb c) chars then [] else [c]
       | _ :: _ => c :: kept
       end)
    [] s.

(** Values as [response.json()] produces them (numbers are integers). *)
#[warnings="-register-all"]
Inductive value : Type :=
| VNone
| VBool (b : bool)
| VInt (z : Z)
| VStr (s : str)
| VList (l : list value)
| VDict (d : list (str * value)).

(** A dict is an association list; the first binding of a key is the
    dict's entry for it. *)
Fixpoint assoc (k : str) (d : list (str * value)) : option value :=
  match d with
  | [] => None
  | (k', v) :: d' => if str_eqb k k' then Some v else assoc k d'
  end.

(** Truth value of an object: [None], [False], [0] and empty containers
    are false. *)
Definition truthy (v : value) : bool :=
  match v with
  | VNone => false
  | VBool b => b
  | VInt z => negb (z =? 0)%Z
  | VStr s => match s with [] => false | _ => true end
  | VList l => match l with [] => false | _ => true end
  | VDict d => match d with [] => false | _ => true end
  end.

(** [a or b] *)
Definition or_else (a b : value) : value := if truthy a then a else b.

(** Exceptions.  The text of a message is kept as the literal part of the
    source's f-string together with the value that is interpolated. *)
Inductive exn : Type :=
| AttributeError
| TypeError
| KeyError (k : string)
| ZeroDivisionError
| ValueError (msg : string) (detail : value)
| PlainException (msg : string)
| RequestException (tag : nat)   (* raised by the HTTP library: no connection, timeout, ... *)
| HTTPError (status : Z)         (* raised by [raise_for_status] *)
| JSONDecodeError.               (* raised by [response.json()] *)

(** The result of running a piece of code: it returns, it raises, or the
    model's loop budget ran out before it did either. *)
Inductive result (A : Type) : Type :=
| Ok (a : A)
| Raise (e : exn)
| OutOfFuel.

Arguments KeyError k%_string.
Arguments ValueError msg%_string detail.
Arguments PlainException msg%_string.
Arguments Ok {A} a.
Arguments Raise {A} e.
Arguments OutOfFuel {A}.

Definition bind {A B} (r : result A) (k : A -> result B) : result B :=
  match r with
  | Ok a => k a
  | Raise e => Raise e
  | OutOfFuel => OutOfFuel
  end.

(** [try: body except Exception: handler] *)
Definition try_except {A} (body : result A) (handler : exn -> result A) : result A :=
  match body with
  | Raise e => handler e
  | r => r
  end.

(** [d.get(k, default)]: only a dict has the method. *)
Definition get (d : value) (k : string) (default : value) : result value :=
  match d with
  | VDict kv => Ok (match assoc (u k) kv with Some v => v | None => default end)
  | _ => Raise AttributeError
  end.
Arguments get d k%_string default.

(** [d[k]] with a string key. *)
Definition subscript (d : value) (k : string) : result value :=
  match d with
  | VDict kv => match assoc (u k) kv with Some v => Ok v | None => Raise (KeyError k) end
  | _ => Raise TypeError
  end.
Arguments subscript d k%_string.

(** [x == y] where [y] is an integer or boolean constant of the source
    ([True == 1] and [False == 0] hold in Python). *)
Definition eq_int (v : value) (z : Z) : bool :=
  match v with
  | VInt n => (n =? z)%Z
  | VBool b => ((if b then 1 else 0) =? z)%Z
  | _ => false
  end.

(** [x == y] where [y] is a string constant of the source. *)
Definition eq_str (v : value) (s : str) : bool :=
  match v with
  | VStr t => str_eqb t s
  | _ => false
  end.

(** [k in c] for a string constant [k]: key of a dict, element of a list,
    substring of a string; other objects are not containers. *)
Definition has (c : value) (k : string) : result bool :=
  match c with
  | VDict kv => Ok (match assoc (u k) kv with Some _ => true | None => false end)
  | VList l => Ok (existsb (fun v => eq_str v (u k)) l)
  | VStr s => Ok (contains (u k) s)
  | _ => Raise TypeError
  end.
Arguments has c k%_string.

(** The items a [for] loop or [list.extend] draws from an object. *)
Definition iter (v : value) : result (list value) :=
  match v with
  | VList l => Ok l
  | VStr s => Ok (map (fun c => VStr [c]) s)
  | VDict kv => Ok (map (fun kv => VStr (fst kv)) kv)
  | _ => Raise TypeError
  end.

(** [len(v)] *)
Definition len (v : value) : result Z :=
  match v with
  | VList l => Ok (Z.of_nat (List.length l))
  | VStr s => Ok (Z.of_nat (List.length s))
  | VDict kv => Ok (Z.of_nat (List.length kv))
  | _ => Raise TypeError
  end.

(** Lower-casing of one code point of Basic Latin or Latin-1 Supplement:
    [A-Z], [À-Ö] and [Ø-Þ] move 32 places up. *)
Definition lower_cp (c : N) : N :=
  if ((65 <=? c) && (c <=? 90) || (192 <=? c) && (c <=? 222) && negb (c =? 215))%N
  then (c + 32)%N else c.

Definition is_ascii_digit (c : N) : bool := ((48 <=? c) && (c <=? 57))%N.

(** The built-ins of the interpreter that the program calls and that depend
    on the Unicode database or on [repr]: they are taken as given, with what
    is used of them. *)
Class Builtins : Type := {
  (** [s.lower()] *)
  lower : str -> str;
  (** [c.isdigit()] for a one-character string *)
  isdigit : N -> bool;
  (** [str(v)], which an f-string applies to what it interpolates *)
  to_str : value -> str;
  lower_latin1 :
    forall s, forallb (fun c => c <? 256)%N s = true -> lower s = map lower_cp s;
  isdigit_ascii :
    forall c, (c < 128)%N -> isdigit c = is_ascii_digit c;
  to_str_str : forall s, to_str (VStr s) = s
}.

(** The text of a field that may be absent or null: [(v or '')] when that
    is a string. *)
Definition text_of (v : value) : result str :=
  match or_else v (VStr []) with
  | VStr s => Ok s
  | _ => Raise AttributeError
  end.

(** [v.lower()]: only a string has the method. *)
Definition lower_of `{Builtins} (v : value) : result str :=
  match v with
  | VStr s => Ok (lower s)
  | _ => Raise AttributeError
  end.

End Py.

Import Py.

Declare Scope py_scope.
Delimit Scope py_scope with py.
Notation "x <- e ;; k" := (bind e (fun x => k))
  (at level 61, e at next level, right associativity) : py_scope.
Local Open Scope py_scope.

(** An instance of the built-ins that computes, for running the code on
    concrete inputs: exact on Basic Latin and Latin-1 text, whose digits are
    0 to 9 and the superscripts two, three and one, and on [str] of strings,
    [None], booleans and integers. *)
Definition decimal (z : Z) : str :=
  u (DecimalString.NilZero.string_of_int (Z.to_int z)).

Definition is_latin1_digit (c : N) : bool :=
  (is_ascii_digit c || (c =? 178) || (c =? 179) || (c =? 185))%N.

#[refine] Instance Latin1 : Builtins := {|
  lower := map lower_cp;
  isdigit := is_latin1_digit;
  to_str := fun v =>
    match v with
    | VStr s => s
    | VNone => u "None"
    | VBool true => u "True"
    | VBool false => u "False"
    | VInt z => decimal z
    | VList _ => u "[...]"
    | VDict _ => u "{...}"
    end
|}.
Proof.
  - reflexivity.
  - intros c H. unfold is_latin1_digit.
    destruct (N.eqb_spec c 178) as [-> | _]; [discriminate H|].
    destruct (N.eqb_spec c 179) as [-> | _]; [discriminate H|].
    destruct (N.eqb_spec c 185) as [-> | _]; [discriminate H|].
    now rewrite !orb_false_r.
  - reflexivity.
Defined.

(* ================================================================== *)
(** * The world outside: HTTP, sleeping, environment variables *)
(* ================================================================== *)

Module IO.

Record request : Type := {
  method : string;
  url : str;
  json : value;                     (* the [json=] argument *)
  headers : list (str * str)
}.

Record response : Type := {
  status_code : Z;
  content_type : option str;        (* the content-type header, when there is one *)
  body : option value;              (* what [response.json()] returns; [None]: it raises *)
  text : str
}.

(** What a call of the HTTP library comes to: a response, or an exception
    (no connection, timeout). *)
Inductive reply : Type :=
| Responds (r : response)
| Fails (e : exn).

(** [server n rq] is the reply to request [rq] when [n] requests were made
    before it; [sent] and [slept] record, oldest first, the requests made
    and the delays slept; [environ] holds the environment variables. *)
Record world : Type := {
  server : nat -> request -> reply;
  environ : string -> option str;
  sent : list request;
  slept : list Z
}.

(** Code with effects: a result and the world after it.  An exception
    leaves the world as it was when it was raised. *)
Definition M (A : Type) : Type := world -> result A * world.

Definition ret {A} (a : A) : M A := fun w => (Ok a, w).
Definition raise {A} (e : exn) : M A := fun w => (Raise e, w).
Definition out_of_fuel {A} : M A := fun w => (OutOfFuel, w).
Definition lift {A} (r : result A) : M A := fun w => (r, w).

Definition bindM {A B} (m : M A) (k : A -> M B) : M B :=
  fun w =>
    match m w with
    | (Ok a, w') => k a w'
    | (Raise e, w') => (Raise e, w')
    | (OutOfFuel, w') => (OutOfFuel, w')
    end.

(** [try: body except Exception as e: handler] *)
Definition try_exceptM {A} (body : M A) (handler : exn -> M A) : M A :=
  fun w =>
    match body w with
    | (Raise e, w') => handler e w'
    | r => r
    end.

(** The world after more requests and more delays. *)
Definition after (w : world) (requests : list request) (delays : list Z) : world :=
  {| server := server w; environ := environ w;
     sent := sent w ++ requests; slept := slept w ++ delays |}.

(** [requests.request(method, url, json=..., headers=...)] *)
Definition http (rq : request) : M response :=
  fun w =>
    match server w (List.length (sent w)) rq with
    | Responds r => (Ok r, after w [rq] [])
    | Fails e => (Raise e, after w [rq] [])
    end.

(** [time.sleep(seconds)] *)
Definition sleep (seconds : Z) : M unit :=
  fun w => (Ok tt, after w [] [seconds]).

(** [os.getenv(name)] *)
Definition getenv (name : string) : M value :=
  fun w => (Ok (match environ w name with Some s => VStr s | None => VNone end), w).
Arguments getenv name%_string.

(** [os.environ[name] = value] *)
Definition setenv (name : string) (value : str) : M unit :=
  fun w => (Ok tt,
            {| server := server w;
               environ := fun n => if String.eqb n name then Some value else environ w n;
               sent := sent w; slept := slept w |}).
Arguments setenv name%_string value.

(** [response.json()] *)
Definition json_of (r : response) : result value :=
  match body r with
  | Some v => Ok v
  | None => Raise JSONDecodeError
  end.

(** [response.raise_for_status()] *)
Definition raise_for_status (r : response) : result unit :=
  if ((400 <=? status_code r) && (status_code r <? 600))%Z
  then Raise (HTTPError (status_code r)) else Ok tt.

End IO.

Import IO.

Notation "x <~ e ;; k" := (bindM e (fun x => k))
  (at level 61, e at next level, right associativity) : py_scope.

(** [range(n)] and [range(start, stop, step)] for a positive step. *)
Definition range (n : Z) : list Z := map Z.of_nat (seq 0 (Z.to_nat n)).

Definition range_step (start stop step : Z) : list Z :=
  map (fun i => start + Z.of_nat i * step)%Z
      (seq 0 (Z.to_nat ((stop - start + step - 1) / step))).

(* ================================================================== *)
(** * src/automations/daily-summary/customs_summary.py *)
(* ================================================================== *)

Module CustomsSummary.

(** The fields of [self] that [__init__] takes from the configuration;
    [max_retries], [retry_delay] and [customs_keywords] are set to
    constants there. *)
Record t : Type := {
  endpoint : str;
  api_key : str
}.

Definition max_retries : Z := 3.
Definition retry_delay : Z := 1.

Definition customs_keywords : list str :=
  [ u "customs";
    u "taxa";
    u "imposto";
    u "tributação";
    u "alfândega";
    u "fiscalização";
    u "autoridade competente" ].

(** [validate_config]: the required keys that are not in the
    configuration, in the order [endpoint], [api_key]. *)
Fixpoint missing_of (config : value) (required : list string) : result (list str) :=
  match required with
  | [] => Ok []
  | key :: rest =>
      present <- has config key ;;
      tl <- missing_of config rest ;;
      Ok (if present then tl else u key :: tl)
  end.

Definition validate_config (config : value) : result unit :=
  missing <- missing_of config ["endpoint"; "api_key"]%string ;;
  match missing with
  | [] => Ok tt
  | _ :: _ => Raise (ValueError "Configurações faltando: " (VStr (join (u ", ") missing)))
  end.

(** [__init__]: what it stores of the configuration, the endpoint without
    its trailing slashes and the key as it is given. *)
Definition init (config : value) : result (str * value) :=
  _ <- validate_config config ;;
  e <- subscript config "endpoint" ;;
  endpoint <- (match e with
               | VStr s => Ok (rstrip (u "/") s)
               | _ => Raise AttributeError
               end) ;;
  api_key <- subscript config "api_key" ;;
  Ok (endpoint, api_key).

(** The three lists and the remembered message that
    [format_summary_message] builds. *)
Record groups : Type := {
  taxas_pendentes : list str;
  em_alerta : list str;
  com_problemas : list str;
  mensagem_taxa : option str
}.

Definition no_groups : groups :=
  {| taxas_pendentes := []; em_alerta := []; com_problemas := [];
     mensagem_taxa := None |}.

Definition translations : list (str * str) :=
  [ (u "Import customs clearance delay", u "Atraso no desembaraço aduaneiro");
    (u "Customs duties payment requested", u "Pagamento de taxas alfandegárias solicitado");
    (u "Package returning to sender", u "Pacote retornando ao remetente");
    (u "Carrier note", u "Nota da transportadora");
    (u "Awaiting payment", u "Aguardando pagamento");
    (u "Devolução determinada pela autoridade competente",
     u "Devolução determinada pela autoridade competente");
    (u "Import customs retained", u "Retido na alfândega");
    (u "Import customs clearance complete", u "Desembaraço aduaneiro concluído");
    (u "Pending customs inspection", u "Aguardando inspeção aduaneira");
    (u "Customs charges due", u "Taxas alfandegárias pendentes") ].

(** ** What the code reads of a package

    The latest status and the latest event description of a package, as
    [check_taxation] reaches them: [track_info.latest_status.status] and
    [track_info.latest_event.description], an absent or null field reading
    as the empty string. *)
Definition status_of (package : value) : result str :=
  track_info <- get package "track_info" (VDict []) ;;
  ls <- get track_info "latest_status" (VDict []) ;;
  st <- get (or_else ls (VDict [])) "status" VNone ;;
  text_of st.

Definition description_of (package : value) : result str :=
  track_info <- get package "track_info" (VDict []) ;;
  le <- get track_info "latest_event" (VDict []) ;;
  de <- get (or_else le (VDict [])) "description" VNone ;;
  text_of de.

Section WithBuiltins.
Context {B : Builtins}.

(** ** make_request *)

(** The body of the [try] of one attempt: the request, then what is made
    of the response. *)
Definition payload (response : response) : result value :=
  if contains (u "application/json")
       (match content_type response with Some c => c | None => [] end)
  then
    data <- json_of response ;;
    err <- get data "error" VNone ;;
    if truthy err then
      message <- get data "message" VNone ;;
      Raise (ValueError "Erro na API: " message)
    else Ok data
  else
    _ <- raise_for_status response ;;
    Ok (VStr (text response)).

Definition attempt (rq : request) : M value :=
  response <~ http rq ;;
  lift (payload response).

(** What an attempt comes to, by the reply to its request. *)
Definition outcome (r : reply) : result value :=
  match r with
  | Responds response => payload response
  | Fails e => Raise e
  end.

(** [for attempt in range(self.max_retries)], from the attempts that are
    left. *)
Fixpoint make_request_from (attempts : list Z) (rq : request) : M value :=
  match attempts with
  | [] => ret VNone
  | attempt_no :: rest =>
      try_exceptM (attempt rq)
        (fun e =>
           if (attempt_no <? max_retries - 1)%Z
           then _ <~ sleep retry_delay ;; make_request_from rest rq
           else raise e)
  end.

Definition make_request (rq : request) : M value :=
  make_request_from (range max_retries) rq.

(** ** get_all_packages *)

Definition list_request (url : str) (hdrs : list (str * str)) (current_page : Z) : request :=
  {| method := "POST"; url := url;
     json := VDict [ (u "tracking_status", VStr (u "Tracking"));
                     (u "page_no", VInt current_page);
                     (u "order_by", VStr (u "RegisterTimeDesc")) ];
     headers := hdrs |}.

(** The body of the loop after the request: the packages gathered so far
    with those of the page, and whether the page was the last one
    ([break]). *)
Definition take_page (response : value) (all_packages : list value)
    : result (list value * bool) :=
  code <- get response "code" VNone ;;
  if negb (eq_int code 0) then
    message <- get response "message" VNone ;;
    Raise (ValueError "Erro ao buscar lista: " message)
  else
    data <- get response "data" (VDict []) ;;
    packages <- get data "accepted" (VList []) ;;
    n <- len packages ;;
    items <- iter packages ;;
    Ok (all_packages ++ items, (n <? 40)%Z).

(** [while True:], with a budget of iterations. *)
Fixpoint get_all_packages_from (fuel : nat) (url : str) (hdrs : list (str * str))
    (current_page : Z) (all_packages : list value) : M (list value) :=
  match fuel with
  | O => out_of_fuel
  | S fuel' =>
      response <~ make_request (list_request url hdrs current_page) ;;
      taken <~ lift (take_page response all_packages) ;;
      let (all_packages, last) := taken in
      if last then ret all_packages
      else get_all_packages_from fuel' url hdrs (current_page + 1)%Z all_packages
  end.

Definition get_all_packages (fuel : nat) (url : str) (hdrs : list (str * str))
    : M (list value) :=
  get_all_packages_from fuel url hdrs 1%Z [].

(** ** get_detailed_packages *)

Definition batch_size : nat := 40.

Fixpoint track_data (batch : list value) : result (list value) :=
  match batch with
  | [] => Ok []
  | pkg :: rest =>
      number <- subscript pkg "number" ;;
      carrier <- subscript pkg "carrier" ;;
      tl <- track_data rest ;;
      Ok (VDict [ (u "number", number); (u "carrier", carrier) ] :: tl)
  end.

Fixpoint get_detailed_batches (starts : list Z) (packages : list value) (url : str)
    (hdrs : list (str * str)) (detailed_packages : list value) : M (list value) :=
  match starts with
  | [] => ret detailed_packages
  | i :: rest =>
      let batch := firstn batch_size (skipn (Z.to_nat i) packages) in
      td <~ lift (track_data batch) ;;
      response <~ make_request
        {| method := "POST"; url := url; json := VList td; headers := hdrs |} ;;
      code <~ lift (get response "code" VNone) ;;
      if negb (eq_int code 0) then
        message <~ lift (get response "message" VNone) ;;
        raise (ValueError "Erro ao buscar detalhes: " message)
      else
        data <~ lift (get response "data" (VDict [])) ;;
        batch_details <~ lift (get data "accepted" (VList [])) ;;
        items <~ lift (iter batch_details) ;;
        get_detailed_batches rest packages url hdrs (detailed_packages ++ items)
  end.

Definition get_detailed_packages (packages : list value) (url : str)
    (hdrs : list (str * str)) : M (list value) :=
  match packages with
  | [] => ret []
  | _ :: _ =>
      get_detailed_batches
        (range_step 0 (Z.of_nat (List.length packages)) (Z.of_nat batch_size))
        packages url hdrs []
  end.

(** ** check_taxation *)

Definition problem_status : list str := [ u "alert"; u "expired"; u "undelivered" ].

(** The body of the [try]. *)
Definition check_taxation_body (package : value) : result bool :=
  track_info <- get package "track_info" (VDict []) ;;
  if negb (truthy track_info) then Ok false
  else
    le <- get track_info "latest_event" (VDict []) ;;
    let latest_event := or_else le (VDict []) in
    ls <- get track_info "latest_status" (VDict []) ;;
    let latest_status := or_else ls (VDict []) in
    st <- get latest_status "status" VNone ;;
    status <- lower_of (or_else st (VStr [])) ;;
    de <- get latest_event "description" VNone ;;
    event_description <- lower_of (or_else de (VStr [])) ;;
    _ <- get package "number" (VStr (u "N/A")) ;;
    if existsb (str_eqb status) problem_status then Ok true
    else if existsb (fun keyword => contains keyword event_description) customs_keywords
    then Ok true
    else Ok false.

(** The handler logs the package's number, read with [package.get], and
    answers [False]. *)
Definition check_taxation (package : value) : result bool :=
  try_except (check_taxation_body package)
    (fun _ => _ <- get package "number" (VStr (u "N/A")) ;; Ok false).

(** ** translate_event *)

Definition translate_event (event : value) : result str :=
  match event with
  | VStr s => Ok (fold_left (fun translated p => replace (fst p) (snd p) translated)
                            translations s)
  | _ => Raise AttributeError
  end.

(** The event text of a package as [format_summary_message] shows it: the
    description, translated. *)
Definition event_of (pkg : value) : result str :=
  track_info <- get pkg "track_info" VNone ;;
  le <- get track_info "latest_event" (VDict []) ;;
  description <- get (or_else le (VDict [])) "description" (VStr []) ;;
  translate_event description.

(** ** format_summary_message *)

(** [if not mensagem_taxa] *)
Definition no_message (m : option str) : bool :=
  match m with
  | None => true
  | Some [] => true
  | Some (_ :: _) => false
  end.

(** The body of [for pkg in packages]: what one package adds to the
    lists. *)
Definition add_package (g : groups) (pkg : value) : result groups :=
  if negb (truthy pkg) then Ok g
  else
    ti <- get pkg "track_info" VNone ;;
    if negb (truthy ti) then Ok g
    else
      track_info <- subscript pkg "track_info" ;;
      le <- get track_info "latest_event" (VDict []) ;;
      let latest_event := or_else le (VDict []) in
      ls <- get track_info "latest_status" (VDict []) ;;
      let latest_status := or_else ls (VDict []) in
      tracking_number <- get pkg "number" (VStr (u "N/A")) ;;
      st <- get latest_status "status" VNone ;;
      status <- lower_of (or_else st (VStr [])) ;;
      description <- get latest_event "description" (VStr []) ;;
      event <- translate_event description ;;
      if contains (u "retornando ao remetente") (lower event) then
        Ok {| taxas_pendentes := taxas_pendentes g;
              em_alerta := em_alerta g;
              com_problemas := com_problemas g ++
                [u "*" ++ to_str tracking_number ++ u "*: " ++ event];
              mensagem_taxa := mensagem_taxa g |}
      else if existsb (fun keyword => contains keyword (lower event)) customs_keywords then
        Ok {| taxas_pendentes := taxas_pendentes g ++
                [u "*" ++ to_str tracking_number ++ u "*"];
              em_alerta := em_alerta g;
              com_problemas := com_problemas g;
              mensagem_taxa := if no_message (mensagem_taxa g) then Some event
                               else mensagem_taxa g |}
      else if str_eqb status (u "alert") then
        Ok {| taxas_pendentes := taxas_pendentes g;
              em_alerta := em_alerta g ++
                [u "*" ++ to_str tracking_number ++ u "*: " ++ event];
              com_problemas := com_problemas g;
              mensagem_taxa := mensagem_taxa g |}
      else if existsb (str_eqb status) [u "expired"; u "undelivered"] then
        Ok {| taxas_pendentes := taxas_pendentes g;
              em_alerta := em_alerta g;
              com_problemas := com_problemas g ++
                [u "*" ++ to_str tracking_number ++ u "*: " ++ event];
              mensagem_taxa := mensagem_taxa g |}
      else Ok g.

Fixpoint add_packages (g : groups) (packages : list value) : result groups :=
  match packages with
  | [] => Ok g
  | pkg :: rest => g' <- add_package g pkg ;; add_packages g' rest
  end.

Definition header : str := u "📦 *Resumo de Pacotes*" ++ nl.

(** The message composed from the lists, after the loop. *)
Definition compose (g : groups) : str :=
  let message := header in
  let message :=
    match taxas_pendentes g with
    | [] => message
    | _ :: _ =>
        let message := message ++ nl ++ u "💰 *Taxas Pendentes:*" ++ nl in
        let message := message ++ join nl (taxas_pendentes g) in
        if no_message (mensagem_taxa g) then message
        else message ++ nl ++ nl ++ u "_Status: " ++
             match mensagem_taxa g with Some m => m | None => [] end ++ u "_"
    end in
  let message :=
    match em_alerta g with
    | [] => message
    | _ :: _ => message ++ nl ++ nl ++ u "⚠️ *Em Alerta:*" ++ nl ++ join nl (em_alerta g)
    end in
  let message :=
    match com_problemas g with
    | [] => message
    | _ :: _ => message ++ nl ++ nl ++ u "❌ *Com Problemas:*" ++ nl ++ join nl (com_problemas g)
    end in
  message.

Definition no_pending : str := u "Nenhum pacote com pendências.".

Definition format_summary_message (packages : list value) : result str :=
  match packages with
  | [] => Ok no_pending
  | _ :: _ => g <- add_packages no_groups packages ;; Ok (compose g)
  end.

(** ** send_whatsapp_message *)

(** [[k for k, v in whatsapp_config.items() if not v]] *)
Definition missing_keys (config : list (string * value)) : list str :=
  map (fun kv => u (fst kv)) (filter (fun kv => negb (truthy (snd kv))) config).

(** The destination number: digits only, then prefixed with 55 unless it
    starts with 55. *)
Definition clean_number (whatsapp_number : value) : result str :=
  chars <- (match whatsapp_number with
            | VStr s => Ok s
            | _ => Raise TypeError
            end) ;;
  let clean := filter isdigit chars in
  match clean with
  | [] => Raise (ValueError "Número do WhatsApp inválido" VNone)
  | _ :: _ =>
      if negb (startswith (u "55") clean) then Ok (u "55" ++ clean) else Ok clean
  end.

Definition text_request (api_url connection_key token number message : str) : request :=
  {| method := "POST";
     url := api_url ++ u "/message/sendText?connectionKey=" ++ connection_key;
     json := VDict [ (u "phoneNumber", VStr number);
                     (u "message", VStr message);
                     (u "delayMessage", VStr (u "1000")) ];
     headers := [ (u "Authorization", u "Bearer " ++ token);
                  (u "Content-Type", u "application/json") ] |}.

(** The body of the [try]; the handler logs and raises the exception
    again. *)
Definition send_whatsapp_message (message : str) : M unit :=
  api_url <~ getenv "WAPI_URL" ;;
  token <~ getenv "WAPI_TOKEN" ;;
  connection_key <~ getenv "WAPI_CONNECTION_KEY" ;;
  whatsapp_number <~ getenv "TECHNICAL_DEPT_NUMBER" ;;
  let missing := missing_keys [ ("api_url", api_url); ("token", token);
                                ("connection_key", connection_key);
                                ("whatsapp_number", whatsapp_number) ]%string in
  match missing with
  | _ :: _ =>
      raise (ValueError "Configurações do WhatsApp faltando: " (VStr (join (u ", ") missing)))
  | [] =>
      number <~ lift (clean_number whatsapp_number) ;;
      let rq := text_request (to_str api_url) (to_str connection_key) (to_str token)
                             number message in
      response <~ make_request rq ;;
      err <~ (if truthy response then lift (get response "error" VNone) else ret VNone) ;;
      if truthy response && truthy err then
        msg <~ lift (get response "message" VNone) ;;
        raise (ValueError "Erro ao enviar mensagem: " msg)
      else ret tt
  end.

(** ** get_packages_with_pending_customs *)

Fixpoint pending_of (detailed_packages : list value) : result (list value) :=
  match detailed_packages with
  | [] => Ok []
  | pkg :: rest =>
      keep <- check_taxation pkg ;;
      tl <- pending_of rest ;;
      Ok (if keep then pkg :: tl else tl)
  end.

Definition get_packages_with_pending_customs (self : t) (fuel : nat) : M (list value) :=
  let hdrs := [ (u "17token", api_key self); (u "Content-Type", u "application/json") ] in
  let list_url := endpoint self ++ u "/track/v2.2/gettracklist" in
  let track_url := endpoint self ++ u "/track/v2.2/gettrackinfo" in
  packages <~ get_all_packages fuel list_url hdrs ;;
  detailed_packages <~ get_detailed_packages packages track_url hdrs ;;
  lift (pending_of detailed_packages).

(** ** generate_daily_summary *)

(** The body of the [try]; the handler logs and raises the exception
    again, so the function is its body. *)
Definition generate_daily_summary (self : t) (fuel : nat) : M value :=
  packages <~ get_packages_with_pending_customs self fuel ;;
  _ <~ (match packages with
        | _ :: _ =>
            message <~ lift (format_summary_message packages) ;;
            send_whatsapp_message message
        | [] => ret tt
        end) ;;
  ret (VDict [ (u "success", VBool true);
               (u "packages_count", VInt (Z.of_nat (List.length packages))) ]).

End WithBuiltins.
End CustomsSummary.

(* ================================================================== *)
(** * python/tracking_service.py *)
(* ================================================================== *)

Module TrackingService.

(** [TRACKING_CONFIG]: the endpoint is a constant of [config.py], the key
    comes from the environment at import time. *)
Record t : Type := {
  apiKey : str
}.

Definition endpoint : str := u "api.17track.net".

Definition customs_status : list str :=
  [ u "InTransit_CustomsProcessing";
    u "Exception_Security";
    u "DeliveryFailure_Security";
    u "CustomsHold" ].

Definition customs_keywords : list str :=
  [ u "customs";
    u "tax";
    u "clearance";
    u "alfândega";
    u "taxa";
    u "imposto";
    u "tributação";
    u "desembaraço";
    u "declaração" ].

(** The latest event text of a list item, as [_check_taxation] reaches it. *)
Definition event_info_of (item : value) : result str :=
  le <- get item "latest_event_info" (VStr []) ;;
  text_of le.

Section WithBuiltins.
Context {B : Builtins}.

(** ** _check_taxation *)

Definition _check_taxation (tracking_info : value) : result bool :=
  if negb (truthy tracking_info) then Ok false
  else
    status <- get tracking_info "package_status" (VStr []) ;;
    le <- get tracking_info "latest_event_info" (VStr []) ;;
    let latest_event := or_else le (VStr []) in
    latest_event <- (if truthy latest_event then lower_of latest_event else Ok []) ;;
    if existsb (eq_str status) customs_status then Ok true
    else Ok (existsb (fun keyword => contains (lower keyword) latest_event)
                     customs_keywords).

(** ** get_packages_with_pending_customs *)

Definition list_request (self : t) (page : Z) : request :=
  {| method := "POST";
     url := u "https://" ++ endpoint ++ u "/track/v2.2/gettracklist";
     json := VDict [ (u "tracking_status", VStr (u "Tracking"));
                     (u "page_size", VInt 40);
                     (u "page_no", VInt page) ];
     headers := [ (u "17token", apiKey self);
                  (u "Content-Type", u "application/json") ] |}.

(** The condition under which the response is refused, evaluated from left
    to right. *)
Definition invalid (response_data : value) : result bool :=
  if negb (truthy response_data) then Ok true
  else
    code <- get response_data "code" VNone ;;
    if negb (eq_int code 0) then Ok true
    else
      has_data <- has response_data "data" ;;
      if negb has_data then Ok true
      else
        data <- subscript response_data "data" ;;
        has_accepted <- has data "accepted" ;;
        Ok (negb has_accepted).

(** An operand of the page arithmetic: integers, and booleans as 0 and 1.
    A float, which [response.json()] yields for a number with a fraction or
    an exponent, is not among the values here. *)
Definition as_int (v : value) : result Z :=
  match v with
  | VInt z => Ok z
  | VBool b => Ok (if b then 1 else 0)%Z
  | _ => Raise TypeError
  end.

(** [total_pages] after a response: recomputed on page 1 when the response
    has a [page] entry. *)
Definition update_total_pages (page total_pages : Z) (response_data : value) : result Z :=
  if (page =? 1)%Z then
    has_page <- has response_data "page" ;;
    if has_page then
      pg <- subscript response_data "page" ;;
      ti <- get pg "data_total" (VInt 0) ;;
      ps <- get pg "page_size" (VInt 40) ;;
      total_items <- as_int ti ;;
      page_size <- as_int ps ;;
      if (page_size =? 0)%Z then Raise ZeroDivisionError
      else Ok ((total_items + page_size - 1) / page_size)%Z
    else Ok total_pages
  else Ok total_pages.

(** The dict stored for a pending item.  Printing it is taken to succeed,
    so the [except UnicodeEncodeError] branch is not entered. *)
Definition package_info (item : value) : result value :=
  number <- subscript item "number" ;;
  status <- get item "package_status" (VStr (u "Unknown")) ;;
  latest_event <- get item "latest_event_info" (VStr []) ;;
  shipping_country <- get item "shipping_country" (VStr []) ;;
  recipient_country <- get item "recipient_country" (VStr []) ;;
  days_in_transit <- get item "days_of_transit" VNone ;;
  days_since_update <- get item "days_after_last_update" VNone ;;
  Ok (VDict [ (u "tracking_number", number);
              (u "status", status);
              (u "latest_event", latest_event);
              (u "shipping_country", shipping_country);
              (u "recipient_country", recipient_country);
              (u "days_in_transit", days_in_transit);
              (u "days_since_update", days_since_update) ]).

(** [for item in response_data['data']['accepted']] *)
Fixpoint collect (items : list value) (pending_packages : list value)
    : result (list value) :=
  match items with
  | [] => Ok pending_packages
  | item :: rest =>
      taxed <- _check_taxation item ;;
      if taxed then
        info <- package_info item ;;
        collect rest (pending_packages ++ [info])
      else collect rest pending_packages
  end.

(** The body of the loop after the request: the number of pages and the
    pending packages after the page. *)
Definition take_page (page total_pages : Z) (pending_packages : list value)
    (response : response) : result (Z * list value) :=
  response_data <- json_of response ;;
  bad <- invalid response_data ;;
  if bad then Raise (PlainException "Resposta inválida da API")
  else
    total_pages <- update_total_pages page total_pages response_data ;;
    data <- subscript response_data "data" ;;
    accepted <- subscript data "accepted" ;;
    items <- iter accepted ;;
    pending_packages <- collect items pending_packages ;;
    Ok (total_pages, pending_packages).

(** [while page <= total_pages:], with a budget of iterations. *)
Fixpoint pages_from (fuel : nat) (self : t) (page total_pages : Z)
    (pending_packages : list value) : M (list value) :=
  match fuel with
  | O => out_of_fuel
  | S fuel' =>
      if (page <=? total_pages)%Z then
        response <~ http (list_request self page) ;;
        taken <~ lift (take_page page total_pages pending_packages response) ;;
        let (total_pages, pending_packages) := taken in
        pages_from fuel' self (page + 1)%Z total_pages pending_packages
      else ret pending_packages
  end.

(** The handler prints and raises the exception again. *)
Definition get_packages_with_pending_customs (self : t) (fuel : nat) : M (list value) :=
  pages_from fuel self 1%Z 1%Z [].

(** ** list_all_tracking_numbers *)

(** The dict stored for an item of the listing.  Printing it is taken to
    succeed. *)
Definition tracking_info (item : value) : result value :=
  number <- subscript item "number" ;;
  carrier <- get item "carrier" VNone ;;
  package_status <- get item "package_status" VNone ;;
  latest_event_info <- get item "latest_event_info" (VStr []) ;;
  shipping_country <- get item "shipping_country" (VStr []) ;;
  recipient_country <- get item "recipient_country" (VStr []) ;;
  days_after_last_update <- get item "days_after_last_update" VNone ;;
  days_of_transit <- get item "days_of_transit" VNone ;;
  Ok (VDict [ (u "tracking_number", number);
              (u "carrier", carrier);
              (u "package_status", package_status);
              (u "latest_event_info", latest_event_info);
              (u "shipping_country", shipping_country);
              (u "recipient_country", recipient_country);
              (u "days_after_last_update", days_after_last_update);
              (u "days_of_transit", days_of_transit) ]).

(** [for item in response_data['data']['accepted']] *)
Fixpoint collect_all (items : list value) (tracking_numbers : list value)
    : result (list value) :=
  match items with
  | [] => Ok tracking_numbers
  | item :: rest =>
      info <- tracking_info item ;;
      collect_all rest (tracking_numbers ++ [info])
  end.

(** The body of the loop after the request; the request and the checks of
    the response are those of [get_packages_with_pending_customs]. *)
Definition take_page_all (page total_pages : Z) (tracking_numbers : list value)
    (response : response) : result (Z * list value) :=
  response_data <- json_of response ;;
  bad <- invalid response_data ;;
  if bad then Raise (PlainException "Resposta inválida da API")
  else
    total_pages <- update_total_pages page total_pages response_data ;;
    data <- subscript response_data "data" ;;
    accepted <- subscript data "accepted" ;;
    items <- iter accepted ;;
    tracking_numbers <- collect_all items tracking_numbers ;;
    Ok (total_pages, tracking_numbers).

(** [while page <= total_pages:], with a budget of iterations. *)
Fixpoint pages_all_from (fuel : nat) (self : t) (page total_pages : Z)
    (tracking_numbers : list value) : M (list value) :=
  match fuel with
  | O => out_of_fuel
  | S fuel' =>
      if (page <=? total_pages)%Z then
        response <~ http (list_request self page) ;;
        taken <~ lift (take_page_all page total_pages tracking_numbers response) ;;
        let (total_pages, tracking_numbers) := taken in
        pages_all_from fuel' self (page + 1)%Z total_pages tracking_numbers
      else ret tracking_numbers
  end.

(** The handler prints and raises the exception again. *)
Definition list_all_tracking_numbers (self : t) (fuel : nat) : M (list value) :=
  pages_all_from fuel self 1%Z 1%Z [].

End WithBuiltins.
End TrackingService.

(* ================================================================== *)
(** * python/whatsapp_service.py *)
(* ================================================================== *)

Module WhatsAppService.

Record t : Type := {
  apiUrl : str;
  token : str;
  connectionKey : str
}.

Definition text_request (self : t) (phone_number message : value) : request :=
  {| method := "POST";
     url := apiUrl self ++ u "/message/send-text?connectionKey=" ++ connectionKey self;
     json := VDict [ (u "phoneNumber", phone_number);
                     (u "text", message);
                     (u "delayMessage", VStr (u "3")) ];
     headers := [ (u "Content-Type", u "application/json");
                  (u "Authorization", u "Bearer " ++ token self) ] |}.



End WhatsAppService.

(* ================================================================== *)
(** * python/customs_summary.py *)
(* ================================================================== *)

Module LegacySummary.

Record t : Type := {
  tracking_service : TrackingService.t;
  whatsapp_service : WhatsAppService.t
}.

(** [self.whatsapp_service.send_message(message)]: the method is declared
    [send_message(self, phone_number, message)], so a call that passes one
    argument raises [TypeError] when the arguments are bound, before the
    method's body runs. *)
Definition send_message_1 (service : WhatsAppService.t) (message : str) : M bool :=
  raise TypeError.

Definition error_message : str :=
  u "Erro ao gerar resumo diário de taxas pendentes. Por favor, verifique o sistema.".

Section WithBuiltins.
Context {B : Builtins}.

Fixpoint tracking_codes (pending_packages : list value) : result (list str) :=
  match pending_packages with
  | [] => Ok []
  | pkg :: rest =>
      code <- subscript pkg "tracking_number" ;;
      tl <- tracking_codes rest ;;
      match code with
      | VStr s => Ok (s :: tl)
      | _ => Raise TypeError     (* [join] takes strings only *)
      end
  end.

(** The body of the [try]. *)
Definition generate_daily_summary_body (self : t) (fuel : nat) : M unit :=
  pending_packages <~
    TrackingService.get_packages_with_pending_customs (tracking_service self) fuel ;;
  match pending_packages with
  | [] =>
      let message :=
        u "Resumo Diário de Taxas Pendentes" ++ nl ++ nl ++
        u "Nenhum pacote aguardando pagamento de taxa na alfândega." in
      _ <~ send_message_1 (whatsapp_service self) message ;;
      ret tt
  | _ :: _ =>
      codes <~ lift (tracking_codes pending_packages) ;;
      let total_packages := VInt (Z.of_nat (List.length codes)) in
      let message :=
        u "Resumo Diário de Taxas Pendentes" ++ nl ++ nl ++
        u "Total de pacotes aguardando pagamento: " ++ to_str total_packages ++ nl ++ nl ++
        u "Códigos de rastreamento:" ++ nl ++ join nl codes in
      _ <~ send_message_1 (whatsapp_service self) message ;;
      ret tt
  end.

Definition generate_daily_summary (self : t) (fuel : nat) : M unit :=
  try_exceptM (generate_daily_summary_body self fuel)
    (fun _ => _ <~ send_message_1 (whatsapp_service self) error_message ;; ret tt).

End WithBuiltins.
End LegacySummary.

(* ================================================================== *)
(** * src/automations/daily-summary/scheduler.py and test_automation.py *)
(* ================================================================== *)

Module Scheduler.

(** [get_config] of [scheduler.py]: the settings as the environment has
    them, absent ones as [None]. *)
Definition get_config : M value :=
  endpoint <~ getenv "TRACK17_API_URL" ;;
  api_key <~ getenv "TRACK17_API_KEY" ;;
  number <~ getenv "WHATSAPP_NUMBER" ;;
  technical <~ getenv "TECHNICAL_DEPT_NUMBER" ;;
  ret (VDict [ (u "endpoint", endpoint);
               (u "api_key", api_key);
               (u "whatsapp_number", or_else number technical) ]).

(** [get_config] of [test_automation.py]: it refuses absent and empty
    settings itself. *)
Definition get_config_checked : M value :=
  endpoint <~ getenv "TRACK17_API_URL" ;;
  api_key <~ getenv "TRACK17_API_KEY" ;;
  let config := [ ("endpoint", endpoint); ("api_key", api_key) ]%string in
  match CustomsSummary.missing_keys config with
  | _ :: _ =>
      raise (ValueError "Configurações faltando: "
               (VStr (join (u ", ") (CustomsSummary.missing_keys config))))
  | [] => ret (VDict [ (u "endpoint", endpoint); (u "api_key", api_key) ])
  end.

End Scheduler.

(* ================================================================== *)
(** * src/automations/run_automation.py *)
(* ================================================================== *)

Module RunAutomation.

(** [required_vars], in the order of the dict: the name and the default,
    [None] for a variable without one. *)
Definition required_vars : list (string * option str) :=
  [ ("TRACK17_API_URL", None);
    ("TRACK17_API_KEY", None);
    ("TRACK17_STATUS_PATH", None);
    ("WAPI_URL", None);
    ("WAPI_TOKEN", None);
    ("WAPI_CONNECTION_KEY", None);
    ("TECHNICAL_DEPT_NUMBER", Some (u "5594991307744")) ]%string.

(** [for var, default_value in required_vars.items()] *)
Fixpoint check_vars (vars : list (string * option str)) : M unit :=
  match vars with
  | [] => ret tt
  | (var, default_value) :: rest =>
      value <~ getenv var ;;
      _ <~ (if negb (truthy value) then
              match default_value with
              | Some (c :: d) => setenv var (c :: d)
              | _ =>
                  again <~ getenv var ;;
                  if truthy again then ret tt
                  else raise (ValueError "Variável obrigatória " (VStr (u var)))
              end
            else ret tt) ;;
      check_vars rest
  end.

(** [load_env_variables], after [load_dotenv()] has filled the environment;
    the handler logs and raises the exception again. *)
Definition load_env_variables : M unit :=
  node_env <~ getenv "NODE_ENV" ;;
  _ <~ (if negb (truthy node_env) then setenv "NODE_ENV" (u "development") else ret tt) ;;
  check_vars required_vars.

End RunAutomation.

(* ================================================================== *)
(** * The specification's vocabulary and sample inputs *)
(* ================================================================== *)

(** The problem-status set as the specification gives it: the union of the
    generic statuses and the provider's customs codes. *)
Definition spec_problem_status : list str :=
  [ u "alert"; u "expired"; u "undelivered";
    u "CustomsHold"; u "InTransit_CustomsProcessing";
    u "Exception_Security"; u "DeliveryFailure_Security" ].

(** Membership that ignores case. *)
Definition in_ignoring_case `{Builtins} (s : str) (l : list str) : bool :=
  existsb (str_eqb (lower s)) (map lower l).

(** A package is left out of the summary when the loop body of the
    formatter adds it to none of the lists. *)
Definition ungrouped `{Builtins} (pkg : value) : Prop :=
  forall g, CustomsSummary.add_package g pkg = Ok g.

(** The environment holds the four settings of the gateway, none empty. *)
Definition configured (w : world) (api_url token key number : str) : Prop :=
  environ w "WAPI_URL"%string = Some api_url /\ api_url <> [] /\
  environ w "WAPI_TOKEN"%string = Some token /\ token <> [] /\
  environ w "WAPI_CONNECTION_KEY"%string = Some key /\ key <> [] /\
  environ w "TECHNICAL_DEPT_NUMBER"%string = Some number /\ number <> [].

(** The envelope of a list page, [{code: 0, data: {accepted: [...]}}]: its
    [code] entry is zero; what sits at [data.accepted], when [data] is an
    object that has the entry. *)
Definition code_is_zero (envelope : value) : bool :=
  match envelope with
  | VDict kv =>
      match assoc (u "code") kv with
      | Some code => eq_int code 0
      | None => false
      end
  | _ => false
  end.

Definition accepted_of (envelope : value) : option value :=
  match envelope with
  | VDict kv =>
      match assoc (u "data") kv with
      | Some (VDict data) => assoc (u "accepted") data
      | _ => None
      end
  | _ => None
  end.

(** The envelope reports [data_total] and [page_size] in its [page] entry. *)
Definition reports (envelope : value) (data_total page_size : Z) : Prop :=
  exists kv page,
    envelope = VDict kv /\
    assoc (u "page") kv = Some (VDict page) /\
    assoc (u "data_total") page = Some (VInt data_total) /\
    assoc (u "page_size") page = Some (VInt page_size).

(** A well-formed list page: zero code and a list of items at
    [data.accepted]. *)
Definition well_formed (envelope : value) (items : list value) : Prop :=
  code_is_zero envelope = true /\ accepted_of envelope = Some (VList items).

(** The [k]-th request from now on, when it is [rq], is answered by a
    response whose JSON body is [envelope]. *)
Definition answers (w : world) (k : nat) (rq : request) (envelope : value) : Prop :=
  exists r, server w (List.length (sent w) + k) rq = Responds r /\ body r = Some envelope.

(** The requests of a run from world [w] on, the [k]-th being for page [p],
    are answered at their first attempt by the envelopes of [pages], each
    well-formed with its items. *)
Fixpoint served (url : str) (hdrs : list (str * str)) (w : world) (k : nat) (p : Z)
    (pages : list (value * list value)) : Prop :=
  match pages with
  | [] => True
  | (envelope, items) :: rest =>
      CustomsSummary.outcome (server w k (CustomsSummary.list_request url hdrs p))
        = Ok envelope
      /\ well_formed envelope items
      /\ served url hdrs w (S k) (p + 1)%Z rest
  end.

(** The requests for the pages [p], [p + 1], ... of a listing. *)
Definition page_requests (url : str) (hdrs : list (str * str)) (p : Z) (count : nat)
    : list request :=
  map (fun i => CustomsSummary.list_request url hdrs (p + Z.of_nat i)) (seq 0 count).

(** The batches of the detail fetch: slices of 40 from the starts
    0, 40, 80, ... *)
Definition batches {A} (l : list A) : list (list A) :=
  map (fun i => firstn CustomsSummary.batch_size (skipn (Z.to_nat i) l))
      (range_step 0 (Z.of_nat (List.length l)) (Z.of_nat CustomsSummary.batch_size)).

Definition detail_request (url : str) (hdrs : list (str * str)) (batch : list value)
    : request :=
  {| method := "POST"; url := url; json := VList batch; headers := hdrs |}.

(** The same for the legacy fetch: the [k]-th request from now on, for page
    [p], is answered by a well-formed envelope, given with its items and
    with what the fetch stores for them. *)
Fixpoint legacy_served `{Builtins} (self : TrackingService.t) (w : world) (k : nat) (p : Z)
    (pages : list (value * list value * list value)) : Prop :=
  match pages with
  | [] => True
  | (envelope, items, pending) :: rest =>
      answers w k (TrackingService.list_request self p) envelope
      /\ well_formed envelope items
      /\ TrackingService.collect items [] = Ok pending
      /\ legacy_served self w (S k) (p + 1)%Z rest
  end.

Definition legacy_requests (self : TrackingService.t) (p : Z) (count : nat) : list request :=
  map (fun i => TrackingService.list_request self (p + Z.of_nat i)) (seq 0 count).

(** A variable of the environment is unset: absent, or empty. *)
Definition unset (w : world) (name : string) : Prop :=
  environ w name = None \/ environ w name = Some [].

(** The keyword list as the specification prints it: the union of the two
    lists of the code. *)
Definition spec_customs_keywords : list str :=
  [ u "customs"; u "tax"; u "clearance"; u "alfândega"; u "taxa"; u "imposto";
    u "tributação"; u "desembaraço"; u "declaração"; u "fiscalização";
    u "autoridade competente" ].

(** A record is classified none: [check_taxation] answers [False]. *)
Definition classified_none `{Builtins} (pkg : value) : Prop :=
  CustomsSummary.check_taxation pkg = Ok false.

(** The totals in the [page] entry of an envelope, where it has them, are
    whole numbers.  A JSON number with a fraction or an exponent is read by
    [response.json()] as a float, which [value] does not hold; what is
    proved of the end of the legacy loop is proved for first pages with
    whole-number totals. *)
Definition integer_totals (envelope : value) : bool :=
  match envelope with
  | VDict kv =>
      match assoc (u "page") kv with
      | Some (VDict page) =>
          match assoc (u "data_total") page with
          | Some (VInt _) | None => true
          | _ => false
          end
          && match assoc (u "page_size") page with
             | Some (VInt _) | None => true
             | _ => false
             end
      | _ => true
      end
  | _ => true
  end.

(** The reply to the next request, when it is [rq] and is answered with
    JSON, has whole-number totals. *)
Definition reports_integers (w : world) (rq : request) : Prop :=
  forall r envelope,
    server w (List.length (sent w)) rq = Responds r ->
    body r = Some envelope ->
    integer_totals envelope = true.

Module Samples.

(** An item of the detail endpoint, as [CustomsSummary] reads it. *)
Definition detailed (number status description : string) : value :=
  VDict [ (u "number", VStr (u number));
          (u "carrier", VInt 2151);
          (u "track_info",
            VDict [ (u "latest_status", VDict [ (u "status", VStr (u status)) ]);
                    (u "latest_event", VDict [ (u "description", VStr (u description)) ]) ]) ].
Arguments detailed (number status description)%_string.

(** An item of the list endpoint, as [TrackingService] reads it. *)
Definition listed (number status event : string) : value :=
  VDict [ (u "number", VStr (u number));
          (u "carrier", VInt 2151);
          (u "package_status", VStr (u status));
          (u "latest_event_info", VStr (u event)) ].
Arguments listed (number status event)%_string.


(** A JSON response with status 200. *)
Definition ok_json (data : value) : response :=
  {| status_code := 200;
     content_type := Some (u "application/json; charset=utf-8");
     body := Some data;
     text := [] |}.

(** A server that answers the n-th request of a run with the n-th reply of
    a script, and with a connection failure when the script is over. *)
Definition scripted (replies : list reply) : nat -> request -> reply :=
  fun n _ => nth n replies (Fails (RequestException n)).

(** The environment of the automation. *)
Definition environ_with (number : string) : string -> option str :=
  fun name =>
    if String.eqb name "WAPI_URL" then Some (u "https://host.example/api")
    else if String.eqb name "WAPI_TOKEN" then Some (u "secret")
    else if String.eqb name "WAPI_CONNECTION_KEY" then Some (u "key-1")
    else if String.eqb name "TECHNICAL_DEPT_NUMBER" then Some (u number)
    else None.
Arguments environ_with number%_string.

(** A fresh world. *)
Definition start (replies : list reply) (number : string) : world :=
  {| server := scripted replies; environ := environ_with number;
     sent := []; slept := [] |}.
Arguments start replies number%_string.

Definition a_request : request :=
  {| method := "POST"; url := u "https://host.example/x"; json := VNone; headers := [] |}.

Definition legacy_gateway : WhatsAppService.t :=
  {| WhatsAppService.apiUrl := u "https://host.example/api";
     WhatsAppService.token := u "secret";
     WhatsAppService.connectionKey := u "key-1" |}.


Definition rejected_reply : reply :=
  Responds (ok_json (VDict [ (u "error", VBool true);
                             (u "message", VStr (u "invalid number")) ])).

Definition automation : CustomsSummary.t :=
  {| CustomsSummary.endpoint := u "https://api.17track.net";
     CustomsSummary.api_key := u "token-17" |}.

Definition legacy_tracking : TrackingService.t :=
  {| TrackingService.apiKey := u "token-17" |}.

(** A list page: [count] copies of an item, and what the provider reports
    of the whole listing. *)
Definition list_page (item : value) (count : nat) (data_total page_size : Z) : reply :=
  Responds (ok_json
    (VDict [ (u "code", VInt 0);
             (u "page", VDict [ (u "data_total", VInt data_total);
                                (u "page_size", VInt page_size) ]);
             (u "data", VDict [ (u "accepted", VList (repeat item count)) ]) ])).

(** An envelope with a zero code and no [data]. *)
Definition bare_page : reply :=
  Responds (ok_json (VDict [ (u "code", VInt 0); (u "message", VStr (u "ok")) ])).

Definition error_page : reply :=
  Responds (ok_json (VDict [ (u "code", VInt (-18010012));
                             (u "message", VStr (u "quota exceeded")) ])).

Definition list_url : str := u "https://api.17track.net/track/v2.2/gettracklist".

Definition list_headers : list (str * str) :=
  [ (u "17token", u "token-17"); (u "Content-Type", u "application/json") ].

(** The envelope of [list_page]. *)
Definition list_envelope (item : value) (count : nat) (data_total page_size : Z) : value :=
  VDict [ (u "code", VInt 0);
          (u "page", VDict [ (u "data_total", VInt data_total);
                             (u "page_size", VInt page_size) ]);
          (u "data", VDict [ (u "accepted", VList (repeat item count)) ]) ].

(** A world whose server gives the same reply to every request. *)
Definition always (r : reply) (number : string) : world :=
  {| server := fun _ _ => r; environ := environ_with number; sent := []; slept := [] |}.
Arguments always r number%_string.

(** An item of the list endpoint as the automation reads it. *)
Definition tracked (number : string) : value :=
  VDict [ (u "number", VStr (u number)); (u "carrier", VInt 2151) ].
Arguments tracked number%_string.


(** A reply that is not JSON. *)
Definition plain_text (status : Z) (content : string) : reply :=
  Responds {| status_code := status;
              content_type := Some (u "text/plain");
              body := None;
              text := u content |}.
Arguments plain_text status content%_string.

(** An environment given by its variables, and a fresh world with it whose
    server is unreachable. *)
Definition environ_of (vars : list (string * string)) : string -> option str :=
  fun name =>
    match find (fun kv => String.eqb name (fst kv)) vars with
    | Some kv => Some (u (snd kv))
    | None => None
    end.

Definition offline (vars : list (string * string)) : world :=
  {| server := scripted []; environ := environ_of vars; sent := []; slept := [] |}.

(** The variables of a deployment that sets all but the department
    number. *)
Definition settings : list (string * string) :=
  [ ("TRACK17_API_URL", "https://api.17track.net/");
    ("TRACK17_API_KEY", "token-17");
    ("TRACK17_STATUS_PATH", "/track/v2.2/gettrackinfo");
    ("WAPI_URL", "https://host.example/api");
    ("WAPI_TOKEN", "secret");
    ("WAPI_CONNECTION_KEY", "key-1") ]%string.

(** An instance of the older job. *)
Definition legacy_job : LegacySummary.t :=
  {| LegacySummary.tracking_service := legacy_tracking;
     LegacySummary.whatsapp_service := legacy_gateway |}.

End Samples.

(* ================================================================== *)
(** * Strings *)
(* ================================================================== *)

Lemma str_eqb_eq a b : str_eqb a b = true <-> a = b.
Proof.
  revert b; induction a as [|x a IH]; destruct b as [|y b]; simpl; split;
    try congruence; intros H.
  - apply andb_true_iff in H as [H1 H2]. apply N.eqb_eq in H1. apply IH in H2. congruence.
  - inversion H; subst. rewrite N.eqb_refl. simpl. now apply IH.
Qed.

Lemma existsb_str_eqb s l : existsb (str_eqb s) l = true <-> In s l.
Proof.
  rewrite existsb_exists. split.
  - intros [x [Hx E]]. apply str_eqb_eq in E. now subst.
  - intros H. exists s. split; [assumption | now apply str_eqb_eq].
Qed.

Lemma contains_nil needle : needle <> [] -> contains needle [] = false.
Proof. destruct needle; [congruence | reflexivity]. Qed.

Lemma lower_nil `{Builtins} : lower [] = [].
Proof. now rewrite lower_latin1. Qed.

(** A text that contains a non-empty needle after lower-casing is not
    empty. *)
Lemma contains_lower_nonempty `{Builtins} needle d :
  needle <> [] -> contains needle (lower d) = true -> d <> [].
Proof.
  intros Hn Hc ->. rewrite lower_nil, contains_nil in Hc by assumption. discriminate.
Qed.
(* ================================================================== *)
(** * The classifiers *)
(* ================================================================== *)

Section Classifier.
Context {B : Builtins}.

(** The keywords of both lists are lower-case Latin-1 text. *)
Lemma lower_keyword kw :
  In kw CustomsSummary.customs_keywords \/ In kw TrackingService.customs_keywords ->
  lower kw = kw /\ kw <> [].
Proof.
  intros [H | H]; simpl in H;
    repeat (destruct H as [<- | H];
            [ split; [ rewrite lower_latin1 by (vm_compute; reflexivity);
                       vm_compute; reflexivity
                     | vm_compute; discriminate ] | ]);
    contradiction.
Qed.

(** [check_taxation] on a package whose status and description read. *)
Lemma check_taxation_reads package s d :
  CustomsSummary.status_of package = Ok s ->
  CustomsSummary.description_of package = Ok d ->
  CustomsSummary.check_taxation package =
    match get package "track_info" (VDict []) with
    | Ok ti =>
        if truthy ti
        then Ok (existsb (str_eqb (lower s)) CustomsSummary.problem_status
                 || existsb (fun keyword => contains keyword (lower d))
                      CustomsSummary.customs_keywords)
        else Ok false
    | _ => Ok false
    end.
Proof.
  unfold CustomsSummary.status_of, CustomsSummary.description_of, CustomsSummary.check_taxation,
    CustomsSummary.check_taxation_body.
  destruct (get package "track_info" (VDict [])) as [ti| |] eqn:Hti; cbn [bind]; try discriminate.
  destruct (get ti "latest_status" (VDict [])) as [ls| |]; cbn [bind]; try discriminate.
  destruct (get (or_else ls (VDict [])) "status" VNone) as [st| |]; cbn [bind]; try discriminate.
  intros Hs.
  destruct (get ti "latest_event" (VDict [])) as [le| |]; cbn [bind]; try discriminate.
  destruct (get (or_else le (VDict [])) "description" VNone) as [de| |]; cbn [bind]; try discriminate.
  intros Hd.
  destruct (truthy ti); cbn [negb]; [| reflexivity].
  unfold text_of in Hs, Hd. unfold lower_of.
  destruct (or_else st (VStr [])); try discriminate. injection Hs as ->.
  destruct (or_else de (VStr [])); try discriminate. injection Hd as ->.
  destruct package; try discriminate.
  cbn [bind get].
  destruct (existsb (str_eqb (lower s)) CustomsSummary.problem_status); [reflexivity|].
  destruct (existsb _ _); reflexivity.
Qed.

(** A field that reads as a non-empty text sits in a non-empty
    [track_info]. *)
Lemma read_nonempty_track_info package (field inner : string) d :
  (track_info <- get package "track_info" (VDict []) ;;
   x <- get track_info field (VDict []) ;;
   y <- get (or_else x (VDict [])) inner VNone ;;
   text_of y) = Ok d ->
  d <> [] ->
  exists ti, get package "track_info" (VDict []) = Ok ti /\ truthy ti = true.
Proof.
  intros H Hd.
  destruct (get package "track_info" (VDict [])) as [ti| |]; cbn [bind] in H; try discriminate.
  exists ti. split; [reflexivity|].
  destruct ti as [| | | | |kv]; try discriminate.
  destruct kv; [| reflexivity].
  cbn in H. injection H as <-. congruence.
Qed.

Lemma check_taxation_status package s :
  CustomsSummary.status_of package = Ok s ->
  s <> [] ->
  exists ti, get package "track_info" (VDict []) = Ok ti /\ truthy ti = true.
Proof. apply read_nonempty_track_info. Qed.

(** [_check_taxation] on an item whose event text reads. *)
Lemma _check_taxation_reads item st d :
  get item "package_status" (VStr []) = Ok st ->
  TrackingService.event_info_of item = Ok d ->
  TrackingService._check_taxation item =
    Ok (truthy item &&
        (existsb (eq_str st) TrackingService.customs_status
         || existsb (fun keyword => contains (lower keyword) (lower d))
              TrackingService.customs_keywords)).
Proof.
  unfold TrackingService.event_info_of, TrackingService._check_taxation.
  intros Hst. rewrite Hst.
  destruct (get item "latest_event_info" (VStr [])) as [le| |]; cbn [bind]; try discriminate.
  unfold text_of. intros Hd.
  destruct (truthy item); cbn [negb andb]; [| reflexivity].
  destruct (or_else le (VStr [])) as [| | |t| |] eqn:Hor; try discriminate.
  injection Hd as ->.
  destruct d as [|c d]; cbn [truthy lower_of bind].
  - rewrite lower_nil.
    destruct (existsb (eq_str st) TrackingService.customs_status); reflexivity.
  - destruct (existsb (eq_str st) TrackingService.customs_status); reflexivity.
Qed.

(** C1 (amended). A package whose latest event description contains a
    keyword of the classifier's own list, whatever the case of the
    description, is classified as pending: [check_taxation] returns [True]
    for the seven keywords of [customs_summary.py], [_check_taxation] for
    the nine of [tracking_service.py].  This holds whatever the latest status
    is. *)
Theorem c1_keyword_means_pending :
  (forall package s d kw,
      CustomsSummary.status_of package = Ok s ->
      CustomsSummary.description_of package = Ok d ->
      In kw CustomsSummary.customs_keywords ->
      contains (lower kw) (lower d) = true ->
      CustomsSummary.check_taxation package = Ok true)
  /\
  (forall item d kw,
      TrackingService.event_info_of item = Ok d ->
      In kw TrackingService.customs_keywords ->
      contains (lower kw) (lower d) = true ->
      TrackingService._check_taxation item = Ok true).
Proof.
  split.
  - intros package s d kw Hs Hd Hin Hc.
    destruct (lower_keyword kw (or_introl Hin)) as [Hlow Hne]. rewrite Hlow in Hc.
    rewrite (check_taxation_reads _ _ _ Hs Hd).
    destruct (read_nonempty_track_info _ _ _ _ Hd (contains_lower_nonempty _ _ Hne Hc))
      as [ti [-> ->]].
    f_equal. apply orb_true_iff. right.
    apply existsb_exists. exists kw. split; assumption.
  - intros item d kw Hd Hin Hc.
    destruct (lower_keyword kw (or_intror Hin)) as [Hlow Hne].
    assert (Hd' : d <> []).
    { apply contains_lower_nonempty with (needle := lower kw); [congruence | assumption]. }
    destruct item as [| | | | |kv]; try discriminate.
    rewrite (_check_taxation_reads (VDict kv) _ d eq_refl Hd).
    f_equal. apply andb_true_iff. split.
    + destruct kv; [| reflexivity]. cbn in Hd. injection Hd as <-. congruence.
    + apply orb_true_iff. right. apply existsb_exists. exists kw. split; assumption.
Qed.

(** The two lists are not the same: [tax] is a keyword of the legacy
    classifier only, [fiscalização] of the automation's only. *)
Lemma keyword_lists_differ :
  existsb (str_eqb (u "tax")) TrackingService.customs_keywords = true
  /\ existsb (str_eqb (u "tax")) CustomsSummary.customs_keywords = false
  /\ existsb (str_eqb (u "fiscalização")) CustomsSummary.customs_keywords = true
  /\ existsb (str_eqb (u "fiscalização")) TrackingService.customs_keywords = false.
Proof. repeat split; vm_compute; reflexivity. Qed.

(** C2 (amended). Each classifier answers [True] on the statuses of its own
    list: [check_taxation] for a status that is, ignoring case, [alert],
    [expired] or [undelivered]; [_check_taxation] for a [package_status] that
    is exactly one of the four customs codes. *)
Theorem c2_own_status_means_pending :
  (forall package s d,
      CustomsSummary.status_of package = Ok s ->
      CustomsSummary.description_of package = Ok d ->
      In (lower s) [u "alert"; u "expired"; u "undelivered"] ->
      CustomsSummary.check_taxation package = Ok true)
  /\
  (forall item st d,
      get item "package_status" (VStr []) = Ok (VStr st) ->
      TrackingService.event_info_of item = Ok d ->
      In st [u "InTransit_CustomsProcessing"; u "Exception_Security";
             u "DeliveryFailure_Security"; u "CustomsHold"] ->
      TrackingService._check_taxation item = Ok true).
Proof.
  split.
  - intros package s d Hs Hd Hin.
    rewrite (check_taxation_reads _ _ _ Hs Hd).
    assert (Hne : s <> []).
    { intros ->. rewrite lower_nil in Hin. simpl in Hin.
      repeat (destruct Hin as [Hin | Hin]; [discriminate Hin |]). contradiction. }
    destruct (read_nonempty_track_info _ _ _ _ Hs Hne) as [ti [-> ->]].
    f_equal. apply orb_true_iff. left. now apply existsb_str_eqb.
  - intros item st d Hst Hd Hin.
    rewrite (_check_taxation_reads _ _ _ Hst Hd).
    f_equal. apply andb_true_iff. split.
    + destruct item as [| | | | |kv]; try discriminate.
      destruct kv; [| reflexivity]. cbn in Hst. injection Hst as <-.
      simpl in Hin. repeat (destruct Hin as [Hin | Hin]; [discriminate Hin |]). contradiction.
    + apply orb_true_iff. left. apply existsb_exists. exists st. split; [assumption |].
      apply str_eqb_eq. reflexivity.
Qed.

End Classifier.

Lemma c1_keyword_means_pending_witness :
  CustomsSummary.check_taxation (B := Latin1)
    (Samples.detailed "LB123456789CN" "InTransit" "Held by CUSTOMS, awaiting payment") = Ok true
  /\ TrackingService._check_taxation (B := Latin1)
    (Samples.listed "LB123456789CN" "InTransit" "Import CLEARANCE started") = Ok true.
Proof.
  split.
  - apply (proj1 (@c1_keyword_means_pending Latin1)) with
      (s := u "InTransit") (d := u "Held by CUSTOMS, awaiting payment") (kw := u "customs").
    + vm_compute. reflexivity.
    + vm_compute. reflexivity.
    + apply existsb_str_eqb. vm_compute. reflexivity.
    + vm_compute. reflexivity.
  - apply (proj2 (@c1_keyword_means_pending Latin1)) with
      (d := u "Import CLEARANCE started") (kw := u "clearance").
    + vm_compute. reflexivity.
    + apply existsb_str_eqb. vm_compute. reflexivity.
    + vm_compute. reflexivity.
Defined.

(** C1 as stated fails: a keyword of the specification's list that is not in
    the classifier's own list does not make it answer [True]. *)
Lemma c1_counterexample :
  existsb (str_eqb (u "clearance")) spec_customs_keywords = true
  /\ contains (u "clearance") (lower (Builtins := Latin1) (u "Import clearance started")) = true
  /\ in_ignoring_case (H := Latin1) (u "InTransit") spec_problem_status = false
  /\ CustomsSummary.check_taxation (B := Latin1)
       (Samples.detailed "LB1" "InTransit" "Import clearance started") = Ok false
  /\ existsb (str_eqb (u "tax")) spec_customs_keywords = true
  /\ contains (u "tax") (lower (Builtins := Latin1) (u "Import tax due")) = true
  /\ CustomsSummary.check_taxation (B := Latin1)
       (Samples.detailed "LB1" "InTransit" "Import tax due") = Ok false
  /\ existsb (str_eqb (u "fiscalização")) spec_customs_keywords = true
  /\ contains (u "fiscalização")
       (lower (Builtins := Latin1) (u "Objeto em fiscalização")) = true
  /\ TrackingService._check_taxation (B := Latin1)
       (Samples.listed "LB2" "InTransit" "Objeto em fiscalização") = Ok false.
Proof. repeat split; vm_compute; reflexivity. Qed.

(** C2 as stated fails: a status of the specification's set that is not in
    the classifier's own list leaves the answer to the keywords. *)
Lemma c2_counterexample :
  in_ignoring_case (H := Latin1) (u "CustomsHold") spec_problem_status = true
  /\ CustomsSummary.status_of (Samples.detailed "LB1" "CustomsHold" "Arrived at facility")
     = Ok (u "CustomsHold")
  /\ CustomsSummary.check_taxation (B := Latin1)
       (Samples.detailed "LB1" "CustomsHold" "Arrived at facility") = Ok false
  /\ in_ignoring_case (H := Latin1) (u "alert") spec_problem_status = true
  /\ TrackingService._check_taxation (B := Latin1)
       (Samples.listed "LB1" "alert" "Arrived at facility") = Ok false
  /\ in_ignoring_case (H := Latin1) (u "customshold") spec_problem_status = true
  /\ TrackingService._check_taxation (B := Latin1)
       (Samples.listed "LB1" "customshold" "Arrived at facility") = Ok false.
Proof. repeat split; vm_compute; reflexivity. Qed.

Lemma c2_own_status_means_pending_witness :
  CustomsSummary.check_taxation (B := Latin1)
    (Samples.detailed "LB1" "Undelivered" "Arrived at facility") = Ok true
  /\ TrackingService._check_taxation (B := Latin1)
    (Samples.listed "LB1" "CustomsHold" "Arrived at facility") = Ok true.
Proof.
  split.
  - apply (proj1 (@c2_own_status_means_pending Latin1)) with
      (s := u "Undelivered") (d := u "Arrived at facility").
    + vm_compute. reflexivity.
    + vm_compute. reflexivity.
    + apply existsb_str_eqb. vm_compute. reflexivity.
  - apply (proj2 (@c2_own_status_means_pending Latin1)) with
      (st := u "CustomsHold") (d := u "Arrived at facility").
    + vm_compute. reflexivity.
    + vm_compute. reflexivity.
    + apply existsb_str_eqb. vm_compute. reflexivity.
Defined.

(* ================================================================== *)
(** * The summary formatter *)
(* ================================================================== *)

Section Formatter.
Context {B : Builtins}.

Lemma translate_event_nil : CustomsSummary.translate_event (VStr []) = Ok [].
Proof. vm_compute. reflexivity. Qed.

(** The loop body on a package whose status and event read, the event
    being non-empty: the three checks, in the order of the source. *)
Lemma add_package_reads g pkg s event :
  CustomsSummary.status_of pkg = Ok s ->
  CustomsSummary.event_of pkg = Ok event ->
  event <> [] ->
  exists number,
    get pkg "number" (VStr (u "N/A")) = Ok number /\
    CustomsSummary.add_package g pkg =
      if contains (u "retornando ao remetente") (lower event) then
        Ok {| CustomsSummary.taxas_pendentes := CustomsSummary.taxas_pendentes g;
              CustomsSummary.em_alerta := CustomsSummary.em_alerta g;
              CustomsSummary.com_problemas := CustomsSummary.com_problemas g ++
                [u "*" ++ to_str number ++ u "*: " ++ event];
              CustomsSummary.mensagem_taxa := CustomsSummary.mensagem_taxa g |}
      else if existsb (fun keyword => contains keyword (lower event))
                CustomsSummary.customs_keywords then
        Ok {| CustomsSummary.taxas_pendentes := CustomsSummary.taxas_pendentes g ++
                [u "*" ++ to_str number ++ u "*"];
              CustomsSummary.em_alerta := CustomsSummary.em_alerta g;
              CustomsSummary.com_problemas := CustomsSummary.com_problemas g;
              CustomsSummary.mensagem_taxa :=
                if CustomsSummary.no_message (CustomsSummary.mensagem_taxa g)
                then Some event else CustomsSummary.mensagem_taxa g |}
      else if str_eqb (lower s) (u "alert") then
        Ok {| CustomsSummary.taxas_pendentes := CustomsSummary.taxas_pendentes g;
              CustomsSummary.em_alerta := CustomsSummary.em_alerta g ++
                [u "*" ++ to_str number ++ u "*: " ++ event];
              CustomsSummary.com_problemas := CustomsSummary.com_problemas g;
              CustomsSummary.mensagem_taxa := CustomsSummary.mensagem_taxa g |}
      else if existsb (str_eqb (lower s)) [u "expired"; u "undelivered"] then
        Ok {| CustomsSummary.taxas_pendentes := CustomsSummary.taxas_pendentes g;
              CustomsSummary.em_alerta := CustomsSummary.em_alerta g;
              CustomsSummary.com_problemas := CustomsSummary.com_problemas g ++
                [u "*" ++ to_str number ++ u "*: " ++ event];
              CustomsSummary.mensagem_taxa := CustomsSummary.mensagem_taxa g |}
      else Ok g.
Proof.
  intros Hs He Hne.
  destruct pkg as [| | | | |kv]; try discriminate.
  exists (match assoc (u "number") kv with Some v => v | None => VStr (u "N/A") end).
  split; [reflexivity|].
  unfold CustomsSummary.status_of, CustomsSummary.event_of in *.
  unfold CustomsSummary.add_package.
  assert (Hkv : truthy (VDict kv) = true).
  { destruct kv; [discriminate He | reflexivity]. }
  rewrite Hkv. cbn [negb].
  unfold get at 1. unfold get at 1 in He. unfold get at 1 in Hs.
  unfold subscript at 1.
  destruct (assoc (u "track_info") kv) as [ti|] eqn:Hti; cbn [bind] in *; [| discriminate He].
  destruct (get ti "latest_event" (VDict [])) as [le| |] eqn:Hle; cbn [bind] in He; try discriminate.
  assert (Hti' : truthy ti = true).
  { destruct ti as [| | | | |tkv]; try discriminate.
    destruct tkv; [| reflexivity].
    cbn in Hle. injection Hle as <-. cbn in He. injection He as <-. congruence. }
  rewrite Hti'. cbn [negb bind].
  destruct (get (or_else le (VDict [])) "description" (VStr [])) as [de| |]; cbn [bind] in *; try discriminate.
  destruct (get ti "latest_status" (VDict [])) as [ls| |]; cbn [bind] in *; try discriminate.
  unfold get at 1.
  cbn [bind].
  destruct (get (or_else ls (VDict [])) "status" VNone) as [st| |]; cbn [bind] in *; try discriminate.
  unfold text_of in Hs. unfold lower_of.
  destruct (or_else st (VStr [])); try discriminate. injection Hs as ->.
  cbn [bind]. rewrite He. cbn [bind].
  reflexivity.
Qed.


Lemma add_packages_ungrouped packages g :
  Forall ungrouped packages -> CustomsSummary.add_packages g packages = Ok g.
Proof.
  induction 1 as [|pkg rest Hpkg _ IH]; cbn [CustomsSummary.add_packages].
  - reflexivity.
  - rewrite Hpkg. cbn [bind]. exact IH.
Qed.

(** The description behind the event that the formatter shows. *)
Lemma event_of_description pkg event :
  CustomsSummary.event_of pkg = Ok event ->
  exists d,
    CustomsSummary.description_of pkg = Ok d
    /\ CustomsSummary.translate_event (VStr d) = Ok event.
Proof.
  unfold CustomsSummary.event_of, CustomsSummary.description_of.
  destruct pkg as [| | | | |kv]; try discriminate.
  unfold get at 1 4.
  destruct (assoc (u "track_info") kv) as [ti|]; cbn [bind]; [| discriminate].
  destruct (get ti "latest_event" (VDict [])) as [le| |]; cbn [bind]; try discriminate.
  destruct (or_else le (VDict [])) as [| | | | |ekv]; try discriminate.
  unfold get. cbn [bind].
  destruct (assoc (u "description") ekv) as [de|].
  - destruct de as [| | |d| |]; try discriminate.
    intros H. exists d. split; [| exact H].
    unfold text_of, or_else. destruct d; reflexivity.
  - intros H. exists []. split; [reflexivity | exact H].
Qed.

(** The loop body on a package whose status and event read: the checks, in
    the order of the source. *)
Lemma add_package_chain g pkg s event :
  CustomsSummary.status_of pkg = Ok s ->
  CustomsSummary.event_of pkg = Ok event ->
  exists number,
    get pkg "number" (VStr (u "N/A")) = Ok number /\
    CustomsSummary.add_package g pkg =
      if contains (u "retornando ao remetente") (lower event) then
        Ok {| CustomsSummary.taxas_pendentes := CustomsSummary.taxas_pendentes g;
              CustomsSummary.em_alerta := CustomsSummary.em_alerta g;
              CustomsSummary.com_problemas := CustomsSummary.com_problemas g ++
                [u "*" ++ to_str number ++ u "*: " ++ event];
              CustomsSummary.mensagem_taxa := CustomsSummary.mensagem_taxa g |}
      else if existsb (fun keyword => contains keyword (lower event))
                CustomsSummary.customs_keywords then
        Ok {| CustomsSummary.taxas_pendentes := CustomsSummary.taxas_pendentes g ++
                [u "*" ++ to_str number ++ u "*"];
              CustomsSummary.em_alerta := CustomsSummary.em_alerta g;
              CustomsSummary.com_problemas := CustomsSummary.com_problemas g;
              CustomsSummary.mensagem_taxa :=
                if CustomsSummary.no_message (CustomsSummary.mensagem_taxa g)
                then Some event else CustomsSummary.mensagem_taxa g |}
      else if str_eqb (lower s) (u "alert") then
        Ok {| CustomsSummary.taxas_pendentes := CustomsSummary.taxas_pendentes g;
              CustomsSummary.em_alerta := CustomsSummary.em_alerta g ++
                [u "*" ++ to_str number ++ u "*: " ++ event];
              CustomsSummary.com_problemas := CustomsSummary.com_problemas g;
              CustomsSummary.mensagem_taxa := CustomsSummary.mensagem_taxa g |}
      else if existsb (str_eqb (lower s)) [u "expired"; u "undelivered"] then
        Ok {| CustomsSummary.taxas_pendentes := CustomsSummary.taxas_pendentes g;
              CustomsSummary.em_alerta := CustomsSummary.em_alerta g;
              CustomsSummary.com_problemas := CustomsSummary.com_problemas g ++
                [u "*" ++ to_str number ++ u "*: " ++ event];
              CustomsSummary.mensagem_taxa := CustomsSummary.mensagem_taxa g |}
      else Ok g.
Proof.
  intros Hs He.
  destruct event as [|c event'].
  2:{ apply (add_package_reads g pkg s (c :: event') Hs He). discriminate. }
  destruct pkg as [| | | | |kv]; try discriminate.
  exists (match assoc (u "number") kv with Some v => v | None => VStr (u "N/A") end).
  split; [reflexivity|].
  rewrite lower_nil.
  rewrite contains_nil by (vm_compute; discriminate).
  assert (E1 : existsb (fun keyword => contains keyword [])
                 CustomsSummary.customs_keywords = false) by (vm_compute; reflexivity).
  rewrite E1. clear E1.
  unfold CustomsSummary.status_of, CustomsSummary.event_of in *.
  unfold CustomsSummary.add_package.
  assert (Hkv : truthy (VDict kv) = true).
  { destruct kv; [discriminate He | reflexivity]. }
  rewrite Hkv. cbn [negb].
  unfold get at 1. unfold get at 1 in He. unfold get at 1 in Hs.
  unfold subscript at 1.
  destruct (assoc (u "track_info") kv) as [ti|] eqn:Hti; cbn [bind] in *; [| discriminate He].
  destruct (truthy ti) eqn:Tti; cbn [negb bind].
  - destruct (get ti "latest_event" (VDict [])) as [le| |]; cbn [bind] in *; try discriminate.
    destruct (get (or_else le (VDict [])) "description" (VStr [])) as [de| |];
      cbn [bind] in *; try discriminate.
    destruct (get ti "latest_status" (VDict [])) as [ls| |]; cbn [bind] in *;
      try discriminate.
    unfold get at 1. cbn [bind].
    destruct (get (or_else ls (VDict [])) "status" VNone) as [st| |]; cbn [bind] in *;
      try discriminate.
    unfold text_of in Hs. unfold lower_of.
    destruct (or_else st (VStr [])); try discriminate. injection Hs as ->.
    cbn [bind]. rewrite He. cbn [bind].
    rewrite lower_nil.
    rewrite contains_nil by (vm_compute; discriminate).
    assert (E1 : existsb (fun keyword => contains keyword [])
                   CustomsSummary.customs_keywords = false) by (vm_compute; reflexivity).
    rewrite E1. reflexivity.
  - destruct ti as [| | | | |tkv]; try discriminate He.
    destruct tkv; [| discriminate Tti].
    cbn in Hs. injection Hs as <-.
    rewrite lower_nil.
    assert (E2 : str_eqb [] (u "alert") = false) by (vm_compute; reflexivity).
    assert (E3 : existsb (str_eqb []) [u "expired"; u "undelivered"] = false)
      by (vm_compute; reflexivity).
    now rewrite E2, E3.
Qed.

(** The status of a record that is classified none is not a problem
    status. *)
Lemma classified_none_status pkg s d :
  classified_none pkg ->
  CustomsSummary.status_of pkg = Ok s ->
  CustomsSummary.description_of pkg = Ok d ->
  existsb (str_eqb (lower s)) CustomsSummary.problem_status = false.
Proof.
  unfold classified_none. intros Hc Hs Hd.
  destruct (existsb (str_eqb (lower s)) CustomsSummary.problem_status) eqn:E;
    [exfalso | reflexivity].
  assert (Hne : s <> []).
  { intros ->. rewrite lower_nil in E. vm_compute in E. discriminate E. }
  rewrite (check_taxation_reads _ _ _ Hs Hd) in Hc.
  destruct (read_nonempty_track_info _ _ _ _ Hs Hne) as [ti [Hg Ht]].
  rewrite Hg, Ht, E in Hc. discriminate Hc.
Qed.

(** The loop body on a record that is classified none: the checks of the
    status never apply, those of the translated event do. *)
Lemma add_package_none g pkg s event :
  classified_none pkg ->
  CustomsSummary.status_of pkg = Ok s ->
  CustomsSummary.event_of pkg = Ok event ->
  exists number,
    get pkg "number" (VStr (u "N/A")) = Ok number /\
    CustomsSummary.add_package g pkg =
      if contains (u "retornando ao remetente") (lower event) then
        Ok {| CustomsSummary.taxas_pendentes := CustomsSummary.taxas_pendentes g;
              CustomsSummary.em_alerta := CustomsSummary.em_alerta g;
              CustomsSummary.com_problemas := CustomsSummary.com_problemas g ++
                [u "*" ++ to_str number ++ u "*: " ++ event];
              CustomsSummary.mensagem_taxa := CustomsSummary.mensagem_taxa g |}
      else if existsb (fun keyword => contains keyword (lower event))
                CustomsSummary.customs_keywords then
        Ok {| CustomsSummary.taxas_pendentes := CustomsSummary.taxas_pendentes g ++
                [u "*" ++ to_str number ++ u "*"];
              CustomsSummary.em_alerta := CustomsSummary.em_alerta g;
              CustomsSummary.com_problemas := CustomsSummary.com_problemas g;
              CustomsSummary.mensagem_taxa :=
                if CustomsSummary.no_message (CustomsSummary.mensagem_taxa g)
                then Some event else CustomsSummary.mensagem_taxa g |}
      else Ok g.
Proof.
  intros Hc Hs He.
  destruct (event_of_description pkg event He) as (d & Hd & _).
  pose proof (classified_none_status pkg s d Hc Hs Hd) as E.
  unfold CustomsSummary.problem_status in E. cbn [existsb] in E.
  apply orb_false_iff in E as [Ea Ee].
  destruct (add_package_chain g pkg s event Hs He) as (number & Hn & ->).
  exists number. split; [assumption|].
  cbn [existsb]. now rewrite Ea, Ee.
Qed.

(** C3 (amended). On the empty list the formatter returns the fixed
    no-pending message, and on no other list.  A record that [check_taxation]
    classifies none, and whose status and event read, is never listed on
    account of its status; the formatter leaves it out unless its translated
    event mentions a return to the sender, which puts it under the problems,
    or a customs keyword, which puts it under the pending taxes.  On a
    non-empty list of records classified none whose translated events
    mention neither, the formatter returns the header line alone, which is
    not the no-pending message. *)
Theorem c3_empty_and_classified_none :
  CustomsSummary.format_summary_message [] = Ok CustomsSummary.no_pending
  /\ (forall g pkg s event,
        classified_none pkg ->
        CustomsSummary.status_of pkg = Ok s ->
        CustomsSummary.event_of pkg = Ok event ->
        exists number,
          get pkg "number" (VStr (u "N/A")) = Ok number /\
          CustomsSummary.add_package g pkg =
            if contains (u "retornando ao remetente") (lower event) then
              Ok {| CustomsSummary.taxas_pendentes := CustomsSummary.taxas_pendentes g;
                    CustomsSummary.em_alerta := CustomsSummary.em_alerta g;
                    CustomsSummary.com_problemas := CustomsSummary.com_problemas g ++
                      [u "*" ++ to_str number ++ u "*: " ++ event];
                    CustomsSummary.mensagem_taxa := CustomsSummary.mensagem_taxa g |}
            else if existsb (fun keyword => contains keyword (lower event))
                      CustomsSummary.customs_keywords then
              Ok {| CustomsSummary.taxas_pendentes := CustomsSummary.taxas_pendentes g ++
                      [u "*" ++ to_str number ++ u "*"];
                    CustomsSummary.em_alerta := CustomsSummary.em_alerta g;
                    CustomsSummary.com_problemas := CustomsSummary.com_problemas g;
                    CustomsSummary.mensagem_taxa :=
                      if CustomsSummary.no_message (CustomsSummary.mensagem_taxa g)
                      then Some event else CustomsSummary.mensagem_taxa g |}
            else Ok g)
  /\ (forall pkg packages,
        Forall (fun p =>
                  classified_none p
                  /\ exists s event,
                       CustomsSummary.status_of p = Ok s
                       /\ CustomsSummary.event_of p = Ok event
                       /\ contains (u "retornando ao remetente") (lower event) = false
                       /\ existsb (fun keyword => contains keyword (lower event))
                            CustomsSummary.customs_keywords = false)
               (pkg :: packages) ->
        CustomsSummary.format_summary_message (pkg :: packages)
          = Ok CustomsSummary.header)
  /\ (forall pkg packages message,
        CustomsSummary.format_summary_message (pkg :: packages) = Ok message ->
        str_eqb message CustomsSummary.no_pending = false)
  /\ str_eqb CustomsSummary.header CustomsSummary.no_pending = false.
Proof.
  split; [reflexivity | split; [| split; [| split]]].
  - exact add_package_none.
  - intros pkg packages H. unfold CustomsSummary.format_summary_message.
    rewrite add_packages_ungrouped; [reflexivity|].
    eapply Forall_impl; [| exact H].
    intros p (Hc & s & event & Hs & He & Hret & Hkw) g.
    destruct (add_package_none g p s event Hc Hs He) as (number & _ & ->).
    now rewrite Hret, Hkw.
  - intros pkg packages message. unfold CustomsSummary.format_summary_message.
    destruct (CustomsSummary.add_packages _ _) as [g| |]; cbn [bind]; try discriminate.
    intros H. injection H as <-.
    unfold CustomsSummary.compose.
    destruct (CustomsSummary.taxas_pendentes g) as [|t ts];
      destruct (CustomsSummary.em_alerta g) as [|a als];
      destruct (CustomsSummary.com_problemas g) as [|p ps];
      destruct (CustomsSummary.no_message (CustomsSummary.mensagem_taxa g));
      cbv zeta; rewrite <- ?app_assoc; reflexivity.
  - vm_compute. reflexivity.
Qed.

(** C10. The group of a package is decided by the returning-to-sender text
    first, then by the customs keywords, and only then by the status.
    Whatever its status, a package whose translated event contains a customs
    keyword, and not the returning text, is added to the customs list by its
    number alone; a package whose translated event contains the returning
    text is added to the problem list, keywords or not. *)
Theorem c10_group_order :
  (forall g pkg s event kw,
      CustomsSummary.status_of pkg = Ok s ->
      CustomsSummary.event_of pkg = Ok event ->
      contains (u "retornando ao remetente") (lower event) = false ->
      In kw CustomsSummary.customs_keywords ->
      contains kw (lower event) = true ->
      exists number,
        get pkg "number" (VStr (u "N/A")) = Ok number /\
        CustomsSummary.add_package g pkg =
          Ok {| CustomsSummary.taxas_pendentes :=
                  CustomsSummary.taxas_pendentes g ++ [u "*" ++ to_str number ++ u "*"];
                CustomsSummary.em_alerta := CustomsSummary.em_alerta g;
                CustomsSummary.com_problemas := CustomsSummary.com_problemas g;
                CustomsSummary.mensagem_taxa :=
                  if CustomsSummary.no_message (CustomsSummary.mensagem_taxa g)
                  then Some event else CustomsSummary.mensagem_taxa g |})
  /\
  (forall g pkg s event,
      CustomsSummary.status_of pkg = Ok s ->
      CustomsSummary.event_of pkg = Ok event ->
      contains (u "retornando ao remetente") (lower event) = true ->
      exists number,
        get pkg "number" (VStr (u "N/A")) = Ok number /\
        CustomsSummary.add_package g pkg =
          Ok {| CustomsSummary.taxas_pendentes := CustomsSummary.taxas_pendentes g;
                CustomsSummary.em_alerta := CustomsSummary.em_alerta g;
                CustomsSummary.com_problemas :=
                  CustomsSummary.com_problemas g ++
                  [u "*" ++ to_str number ++ u "*: " ++ event];
                CustomsSummary.mensagem_taxa := CustomsSummary.mensagem_taxa g |}).
Proof.
  split.
  - intros g pkg s event kw Hs He Hret Hin Hkw.
    destruct (lower_keyword kw (or_introl Hin)) as [_ Hne].
    destruct (add_package_reads g pkg s event Hs He
                (contains_lower_nonempty _ _ Hne Hkw)) as [number [Hn ->]].
    exists number. split; [assumption|].
    rewrite Hret.
    replace (existsb _ CustomsSummary.customs_keywords) with true; [reflexivity|].
    symmetry. apply existsb_exists. exists kw. split; assumption.
  - intros g pkg s event Hs He Hret.
    assert (Hne : event <> []).
    { apply contains_lower_nonempty with (needle := u "retornando ao remetente");
        [vm_compute; discriminate | assumption]. }
    destruct (add_package_reads g pkg s event Hs He Hne) as [number [Hn ->]].
    exists number. split; [assumption|].
    rewrite Hret. reflexivity.
Qed.

End Formatter.

(** C3 as stated fails: a package that no check of the formatter takes
    (and that [check_taxation] answers [False] for) yields the header, not
    the no-pending message. *)
Lemma c3_counterexample :
  CustomsSummary.format_summary_message (B := Latin1) [] = Ok CustomsSummary.no_pending
  /\ CustomsSummary.check_taxation (B := Latin1)
       (Samples.detailed "LB1" "Delivered" "Delivered to recipient") = Ok false
  /\ CustomsSummary.format_summary_message (B := Latin1)
       [Samples.detailed "LB1" "Delivered" "Delivered to recipient"]
     = Ok (u "📦 *Resumo de Pacotes*" ++ nl)
  /\ str_eqb (u "📦 *Resumo de Pacotes*" ++ nl) CustomsSummary.no_pending = false.
Proof. repeat split; vm_compute; reflexivity. Qed.

Lemma c3_empty_and_classified_none_witness :
  CustomsSummary.format_summary_message (B := Latin1)
    [Samples.detailed "LB1" "Delivered" "Delivered to recipient";
     Samples.detailed "LB2" "InTransit" "Departed from facility"]
  = Ok CustomsSummary.header
  /\ CustomsSummary.add_package (B := Latin1) CustomsSummary.no_groups
       (Samples.detailed "LB3" "InTransit" "Package returning to sender")
     = Ok {| CustomsSummary.taxas_pendentes := [];
             CustomsSummary.em_alerta := [];
             CustomsSummary.com_problemas := [u "*LB3*: Pacote retornando ao remetente"];
             CustomsSummary.mensagem_taxa := None |}.
Proof.
  split.
  - apply (proj1 (proj2 (proj2 (@c3_empty_and_classified_none Latin1)))).
    repeat constructor; try (vm_compute; reflexivity).
    + exists (u "Delivered"), (u "Delivered to recipient").
      repeat split; vm_compute; reflexivity.
    + exists (u "InTransit"), (u "Departed from facility").
      repeat split; vm_compute; reflexivity.
  - destruct (proj1 (proj2 (@c3_empty_and_classified_none Latin1))
                CustomsSummary.no_groups
                (Samples.detailed "LB3" "InTransit" "Package returning to sender")
                (u "InTransit") (u "Pacote retornando ao remetente"))
      as (number & Hn & ->); try (vm_compute; reflexivity).
    vm_compute in Hn. injection Hn as <-.
    vm_compute. reflexivity.
Defined.

Lemma c10_group_order_witness :
  (exists number,
      get (Samples.detailed "LB1" "alert" "Customs charges due") "number" (VStr (u "N/A"))
        = Ok number /\
      CustomsSummary.add_package (B := Latin1) CustomsSummary.no_groups
        (Samples.detailed "LB1" "alert" "Customs charges due")
      = Ok {| CustomsSummary.taxas_pendentes := [] ++ [u "*" ++ to_str number ++ u "*"];
              CustomsSummary.em_alerta := [];
              CustomsSummary.com_problemas := [];
              CustomsSummary.mensagem_taxa := Some (u "Taxas alfandegárias pendentes") |})
  /\
  (exists number,
      get (Samples.detailed "LB2" "alert" "Customs: Package returning to sender")
          "number" (VStr (u "N/A")) = Ok number /\
      CustomsSummary.add_package (B := Latin1) CustomsSummary.no_groups
        (Samples.detailed "LB2" "alert" "Customs: Package returning to sender")
      = Ok {| CustomsSummary.taxas_pendentes := [];
              CustomsSummary.em_alerta := [];
              CustomsSummary.com_problemas :=
                [] ++ [u "*" ++ to_str number ++ u "*: "
                       ++ u "Customs: Pacote retornando ao remetente"];
              CustomsSummary.mensagem_taxa := None |}).
Proof.
  split.
  - apply (proj1 (@c10_group_order Latin1)) with
      (g := CustomsSummary.no_groups) (s := u "alert")
      (event := u "Taxas alfandegárias pendentes") (kw := u "taxa").
    + vm_compute. reflexivity.
    + vm_compute. reflexivity.
    + vm_compute. reflexivity.
    + apply existsb_str_eqb. vm_compute. reflexivity.
    + vm_compute. reflexivity.
  - apply (proj2 (@c10_group_order Latin1)) with
      (g := CustomsSummary.no_groups) (s := u "alert")
      (event := u "Customs: Pacote retornando ao remetente").
    + vm_compute. reflexivity.
    + vm_compute. reflexivity.
    + vm_compute. reflexivity.
Defined.
(* ================================================================== *)
(** * The world *)
(* ================================================================== *)

Lemma after_nil w : after w [] [] = w.
Proof. destruct w. unfold after. cbn. now rewrite !app_nil_r. Qed.

Lemma after_after w r1 d1 r2 d2 :
  after (after w r1 d1) r2 d2 = after w (r1 ++ r2) (d1 ++ d2).
Proof. unfold after. cbn. now rewrite !app_assoc. Qed.

Lemma server_after w r d : server (after w r d) = server w.
Proof. reflexivity. Qed.

Lemma sent_after w r d : sent (after w r d) = sent w ++ r.
Proof. reflexivity. Qed.

(** The reply to the next request after [k] more requests. *)
Lemma http_after w rqs d rq :
  http rq (after w rqs d) =
    match server w (List.length (sent w) + List.length rqs) rq with
    | Responds r => (Ok r, after w (rqs ++ [rq]) d)
    | Fails e => (Raise e, after w (rqs ++ [rq]) d)
    end.
Proof.
  unfold http. rewrite server_after, sent_after, length_app.
  destruct (server w _ rq); rewrite after_after, app_nil_r; reflexivity.
Qed.

(* ================================================================== *)
(** * The retrying request *)
(* ================================================================== *)

Section Retry.
Context {B : Builtins}.

Lemma make_request_unfold rq :
  CustomsSummary.make_request rq =
    try_exceptM (CustomsSummary.attempt rq) (fun _ =>
      _ <~ sleep 1 ;;
      try_exceptM (CustomsSummary.attempt rq) (fun _ =>
        _ <~ sleep 1 ;;
        try_exceptM (CustomsSummary.attempt rq) (fun e => raise e))).
Proof. reflexivity. Qed.

Lemma attempt_after w rqs d rq :
  CustomsSummary.attempt rq (after w rqs d) =
    (CustomsSummary.outcome (server w (List.length (sent w) + List.length rqs) rq),
     after w (rqs ++ [rq]) d).
Proof.
  unfold CustomsSummary.attempt, bindM. rewrite http_after.
  destruct (server w _ rq) as [r|e]; reflexivity.
Qed.

Lemma payload_returns_or_raises r : CustomsSummary.payload r <> OutOfFuel.
Proof.
  unfold CustomsSummary.payload, json_of, raise_for_status.
  destruct (contains _ _).
  - destruct (body r) as [data|]; cbn [bind]; [| discriminate].
    destruct data; cbn [get bind]; try discriminate.
    destruct (truthy _); discriminate.
  - destruct (_ && _)%bool; discriminate.
Qed.

Lemma outcome_returns_or_raises r : CustomsSummary.outcome r <> OutOfFuel.
Proof. destruct r; [apply payload_returns_or_raises | discriminate]. Qed.

(** [make_request] by the replies to its attempts. *)
Lemma make_request_run rq w :
  CustomsSummary.make_request rq w =
    let n := List.length (sent w) in
    match CustomsSummary.outcome (server w n rq) with
    | Ok data => (Ok data, after w [rq] [])
    | _ =>
        match CustomsSummary.outcome (server w (n + 1) rq) with
        | Ok data => (Ok data, after w [rq; rq] [1]%Z)
        | _ =>
            (CustomsSummary.outcome (server w (n + 2) rq),
             after w [rq; rq; rq] [1; 1]%Z)
        end
    end.
Proof.
  cbv zeta. rewrite make_request_unfold. unfold try_exceptM at 1.
  rewrite <- (after_nil w) at 1. rewrite attempt_after.
  cbn [List.length app]. rewrite Nat.add_0_r.
  pose proof (outcome_returns_or_raises (server w (List.length (sent w)) rq)) as N1.
  destruct (CustomsSummary.outcome (server w (List.length (sent w)) rq)) as [d1|e1|];
    [reflexivity | | contradiction].
  unfold bindM at 1, sleep at 1. rewrite after_after. cbn [app].
  unfold try_exceptM at 1. rewrite attempt_after. cbn [List.length app].
  pose proof (outcome_returns_or_raises (server w (List.length (sent w) + 1) rq)) as N2.
  destruct (CustomsSummary.outcome (server w (List.length (sent w) + 1) rq)) as [d2|e2|];
    [reflexivity | | contradiction].
  unfold bindM at 1, sleep at 1. rewrite after_after. cbn [app].
  unfold try_exceptM at 1. rewrite attempt_after. cbn [List.length app].
  destruct (CustomsSummary.outcome (server w (List.length (sent w) + 2) rq)); reflexivity.
Qed.


(** C5. With the budget of three attempts: when the first two attempts
    raise a transport error and the third returns, [make_request] returns
    what the third attempt returns and raises nothing; when all three
    raise, it raises the error of the third.  Either way three requests are
    made and one second is slept after each of the first two. *)
Theorem c5_retry_three_attempts rq w e1 e2 :
  server w (List.length (sent w)) rq = Fails e1 ->
  server w (List.length (sent w) + 1) rq = Fails e2 ->
  (forall data w',
      CustomsSummary.attempt rq (after w [rq; rq] [1; 1]%Z) = (Ok data, w') ->
      CustomsSummary.make_request rq w = (Ok data, w')
      /\ w' = after w [rq; rq; rq] [1; 1]%Z)
  /\
  (forall e3,
      server w (List.length (sent w) + 2) rq = Fails e3 ->
      CustomsSummary.make_request rq w = (Raise e3, after w [rq; rq; rq] [1; 1]%Z)).
Proof.
  intros H1 H2.
  pose proof (make_request_run rq w) as Hrun. cbv zeta in Hrun.
  rewrite H1, H2 in Hrun. cbn [CustomsSummary.outcome] in Hrun.
  split.
  - intros data w' H3. rewrite attempt_after in H3. cbn [List.length app] in H3.
    injection H3 as H3 <-. rewrite Hrun, H3. split; reflexivity.
  - intros e3 H3. rewrite Hrun, H3. reflexivity.
Qed.

End Retry.

Lemma c5_retry_three_attempts_witness :
  CustomsSummary.make_request Samples.a_request
    (Samples.start [ Fails (RequestException 0); Fails (RequestException 1);
                     Responds (Samples.ok_json (VDict [ (u "code", VInt 0) ])) ] "")
  = (Ok (VDict [ (u "code", VInt 0) ]),
     after (Samples.start [ Fails (RequestException 0); Fails (RequestException 1);
                            Responds (Samples.ok_json (VDict [ (u "code", VInt 0) ])) ] "")
           [Samples.a_request; Samples.a_request; Samples.a_request] [1; 1]%Z).
Proof.
  apply (proj1 (c5_retry_three_attempts Samples.a_request
                  (Samples.start [ Fails (RequestException 0); Fails (RequestException 1);
                                   Responds (Samples.ok_json (VDict [ (u "code", VInt 0) ])) ] "")
                  (RequestException 0) (RequestException 1) eq_refl eq_refl)).
  vm_compute. reflexivity.
Defined.
(* ================================================================== *)
(** * The sender of the automation *)
(* ================================================================== *)

Section Sender.
Context {B : Builtins}.

Lemma filter_isdigit_ascii s :
  forallb (fun c => c <? 128)%N s = true ->
  filter isdigit s = filter is_ascii_digit s.
Proof.
  induction s as [|c s IH]; cbn [forallb filter]; [reflexivity|].
  intros H. apply andb_true_iff in H as [Hc Hs].
  rewrite isdigit_ascii by (now apply N.ltb_lt). now rewrite IH.
Qed.

(** What [make_request] leaves behind: one to three copies of the request,
    a second slept between two attempts; it returns or raises. *)
Lemma make_request_trace rq w :
  exists k,
    (1 <= k <= 3)%nat /\
    snd (CustomsSummary.make_request rq w)
      = after w (repeat rq k) (repeat 1%Z (k - 1)) /\
    fst (CustomsSummary.make_request rq w) <> OutOfFuel.
Proof.
  rewrite make_request_run. cbv zeta.
  pose proof (outcome_returns_or_raises (server w (List.length (sent w)) rq)) as N1.
  pose proof (outcome_returns_or_raises (server w (List.length (sent w) + 1) rq)) as N2.
  pose proof (outcome_returns_or_raises (server w (List.length (sent w) + 2) rq)) as N3.
  destruct (CustomsSummary.outcome (server w (List.length (sent w)) rq));
    [ exists 1%nat; repeat split; [lia | lia | discriminate] | | contradiction ].
  destruct (CustomsSummary.outcome (server w (List.length (sent w) + 1) rq));
    [ exists 2%nat; repeat split; [lia | lia | discriminate] | | contradiction ].
  exists 3%nat. repeat split; [lia | lia | exact N3].
Qed.

Lemma send_configured w api_url token key number message :
  configured w api_url token key number ->
  CustomsSummary.send_whatsapp_message message w =
    (clean <~ lift (CustomsSummary.clean_number (VStr number)) ;;
     response <~ CustomsSummary.make_request
       (CustomsSummary.text_request api_url key token clean message) ;;
     err <~ (if truthy response then lift (get response "error" VNone) else ret VNone) ;;
     if truthy response && truthy err then
       msg <~ lift (get response "message" VNone) ;;
       raise (ValueError "Erro ao enviar mensagem: " msg)
     else ret tt) w.
Proof.
  intros (Ha & Ha' & Ht & Ht' & Hk & Hk' & Hn & Hn').
  unfold CustomsSummary.send_whatsapp_message, getenv.
  unfold bindM at 1. rewrite Ha.
  unfold bindM at 1. rewrite Ht.
  unfold bindM at 1. rewrite Hk.
  unfold bindM at 1. rewrite Hn.
  unfold CustomsSummary.missing_keys. cbn [filter snd fst map truthy].
  destruct api_url; [congruence|]. destruct token; [congruence|].
  destruct key; [congruence|]. destruct number; [congruence|].
  cbn [negb map]. rewrite !to_str_str. reflexivity.
Qed.

(** C6. The sender keeps the digits of the destination number and puts 55
    in front unless the digits start with 55; an absent or empty number, and
    a number without any digit, are refused with a [ValueError] before
    anything is sent. *)
Theorem c6_phone_normalisation :
  CustomsSummary.clean_number (VStr (u "(55) 11 99999-8888")) = Ok (u "5511999998888")
  /\ CustomsSummary.clean_number (VStr (u "11999998888")) = Ok (u "5511999998888")
  /\ (forall number clean,
        CustomsSummary.clean_number (VStr number) = Ok clean ->
        forallb isdigit clean = true
        /\ startswith (u "55") clean = true
        /\ clean = if startswith (u "55") (filter isdigit number)
                   then filter isdigit number
                   else u "55" ++ filter isdigit number)
  /\ (forall number,
        filter isdigit number <> [] ->
        exists clean, CustomsSummary.clean_number (VStr number) = Ok clean)
  /\ (forall number,
        filter isdigit number = [] ->
        CustomsSummary.clean_number (VStr number)
          = Raise (ValueError "Número do WhatsApp inválido" VNone))
  /\ (forall w message,
        environ w "TECHNICAL_DEPT_NUMBER"%string = None
        \/ environ w "TECHNICAL_DEPT_NUMBER"%string = Some [] ->
        exists missing,
          CustomsSummary.send_whatsapp_message message w
            = (Raise (ValueError "Configurações do WhatsApp faltando: " (VStr missing)), w))
  /\ (forall w api_url token key number message,
        configured w api_url token key number ->
        filter isdigit number = [] ->
        CustomsSummary.send_whatsapp_message message w
          = (Raise (ValueError "Número do WhatsApp inválido" VNone), w))
  /\ (forall w api_url token key number clean message,
        configured w api_url token key number ->
        CustomsSummary.clean_number (VStr number) = Ok clean ->
        exists k,
          (1 <= k <= 3)%nat /\
          sent (snd (CustomsSummary.send_whatsapp_message message w))
            = sent w ++
              repeat (CustomsSummary.text_request api_url key token clean message) k).
Proof.
  assert (Hex : forall s, forallb (fun c => c <? 128)%N s = true ->
                CustomsSummary.clean_number (VStr s) =
                match filter is_ascii_digit s with
                | [] => Raise (ValueError "Número do WhatsApp inválido" VNone)
                | _ :: _ => if negb (startswith (u "55") (filter is_ascii_digit s))
                            then Ok (u "55" ++ filter is_ascii_digit s)
                            else Ok (filter is_ascii_digit s)
                end).
  { intros s Hs. unfold CustomsSummary.clean_number. cbn [bind].
    rewrite (filter_isdigit_ascii s Hs). reflexivity. }
  assert (H5 : isdigit 53%N = true).
  { rewrite isdigit_ascii by (vm_compute; reflexivity). reflexivity. }
  split; [| split; [| split; [| split; [| split; [| split; [| split]]]]]].
  - rewrite Hex by (vm_compute; reflexivity). vm_compute. reflexivity.
  - rewrite Hex by (vm_compute; reflexivity). vm_compute. reflexivity.
  - intros number clean. unfold CustomsSummary.clean_number. cbn [bind].
    pose proof (filter_In isdigit) as Hin.
    assert (Hall : forallb isdigit (filter isdigit number) = true).
    { apply forallb_forall. intros x Hx. now apply filter_In in Hx. }
    destruct (filter isdigit number) as [|c r] eqn:E; [discriminate|].
    destruct (startswith (u "55") (c :: r)) eqn:S55; cbn [negb];
      intros H; injection H as <-.
    + split; [assumption | split; [assumption | reflexivity]].
    + split; [| split; reflexivity].
      change (u "55" ++ c :: r) with (53%N :: 53%N :: c :: r).
      cbn [forallb] in *. now rewrite H5, Hall.
  - intros number Hne. unfold CustomsSummary.clean_number. cbn [bind].
    destruct (filter isdigit number) as [|c r]; [congruence|].
    destruct (negb _); eauto.
  - intros number E. unfold CustomsSummary.clean_number. cbn [bind].
    now rewrite E.
  - intros w message Hn.
    unfold CustomsSummary.send_whatsapp_message, getenv, bindM, CustomsSummary.missing_keys.
    destruct (environ w "WAPI_URL"%string) as [[|? ?]|];
      destruct (environ w "WAPI_TOKEN"%string) as [[|? ?]|];
      destruct (environ w "WAPI_CONNECTION_KEY"%string) as [[|? ?]|];
      destruct Hn as [-> | ->]; cbn [filter snd fst map truthy negb]; eexists; reflexivity.
  - intros w api_url token key number message Hc E.
    rewrite (send_configured w api_url token key number message Hc).
    unfold bindM at 1, lift at 1. unfold CustomsSummary.clean_number. cbn [bind].
    now rewrite E.
  - intros w api_url token key number clean message Hc E.
    rewrite (send_configured w api_url token key number message Hc).
    unfold bindM at 1, lift at 1. rewrite E.
    set (rq := CustomsSummary.text_request api_url key token clean message).
    destruct (make_request_trace rq w) as [k [Hk [Hs _]]].
    exists k. split; [assumption|].
    unfold bindM at 1.
    destruct (CustomsSummary.make_request rq w) as [[response|e|] w1]; cbn [snd] in *;
      subst w1; try reflexivity.
    destruct (truthy response) eqn:T; cbn [andb].
    + unfold bindM at 1, lift at 1.
      destruct (get response "error" VNone) as [err| |]; try reflexivity.
      destruct (truthy err); [| reflexivity].
      unfold bindM, lift. destruct (get response "message" VNone); reflexivity.
    + reflexivity.
Qed.

End Sender.

Lemma c6_phone_normalisation_witness :
  CustomsSummary.send_whatsapp_message (B := Latin1) (u "resumo")
      (Samples.start [] "sem numero")
    = (Raise (ValueError "Número do WhatsApp inválido" VNone),
       Samples.start [] "sem numero")
  /\ exists k,
       (1 <= k <= 3)%nat /\
       sent (snd (CustomsSummary.send_whatsapp_message (B := Latin1) (u "resumo")
                    (Samples.start [] "(55) 11 99999-8888")))
         = [] ++
           repeat (CustomsSummary.text_request (u "https://host.example/api") (u "key-1")
                     (u "secret") (u "5511999998888") (u "resumo")) k.
Proof.
  pose proof (@c6_phone_normalisation Latin1) as (_ & _ & _ & _ & _ & _ & Hraise & Hsend).
  split.
  - apply Hraise with (api_url := u "https://host.example/api") (token := u "secret")
                      (key := u "key-1") (number := u "sem numero").
    + repeat split; try (vm_compute; reflexivity); vm_compute; discriminate.
    + vm_compute. reflexivity.
  - apply Hsend with (token := u "secret") (number := u "(55) 11 99999-8888").
    + repeat split; try (vm_compute; reflexivity); vm_compute; discriminate.
    + vm_compute. reflexivity.
Defined.
(* ================================================================== *)
(** * Sending: the two senders *)
(* ================================================================== *)

Section Sending.
Context {B : Builtins}.



End Sending.


(* ================================================================== *)
(** * The daily job *)
(* ================================================================== *)

Section Job.
Context {B : Builtins}.

(** C9 (amended). The automation's job has no fallback notification: an
    error raised while fetching, while formatting or while sending is the
    job's own outcome, in the world as the failing stage left it. *)
Theorem c9_job_reraises self fuel w :
  (forall e w',
      CustomsSummary.get_packages_with_pending_customs self fuel w = (Raise e, w') ->
      CustomsSummary.generate_daily_summary self fuel w = (Raise e, w'))
  /\
  (forall pkg packages e w',
      CustomsSummary.get_packages_with_pending_customs self fuel w
        = (Ok (pkg :: packages), w') ->
      CustomsSummary.format_summary_message (pkg :: packages) = Raise e ->
      CustomsSummary.generate_daily_summary self fuel w = (Raise e, w'))
  /\
  (forall pkg packages message e w' w'',
      CustomsSummary.get_packages_with_pending_customs self fuel w
        = (Ok (pkg :: packages), w') ->
      CustomsSummary.format_summary_message (pkg :: packages) = Ok message ->
      CustomsSummary.send_whatsapp_message message w' = (Raise e, w'') ->
      CustomsSummary.generate_daily_summary self fuel w = (Raise e, w'')).
Proof.
  unfold CustomsSummary.generate_daily_summary.
  split; [| split].
  - intros e w' H. unfold bindM at 1. now rewrite H.
  - intros pkg packages e w' H Hf. unfold bindM at 1. rewrite H.
    unfold bindM at 1. unfold bindM at 1, lift at 1. now rewrite Hf.
  - intros pkg packages message e w' w'' H Hf Hs. unfold bindM at 1. rewrite H.
    unfold bindM at 1. unfold bindM at 1, lift at 1. now rewrite Hf, Hs.
Qed.

(** The older job, [python/customs_summary.py], does have a handler that
    means to send a failure message, but each of its calls of
    [send_message] passes one argument where two are required: whatever the
    fetch does, the run ends with [TypeError] (or the budget is out). *)
Lemma tracking_codes_returns_or_raises l : LegacySummary.tracking_codes l <> OutOfFuel.
Proof.
  induction l as [|pkg l IH]; cbn [LegacySummary.tracking_codes]; [discriminate|].
  destruct (subscript pkg "tracking_number") as [code| |] eqn:E; cbn [bind];
    [| discriminate | destruct pkg as [| | | | |kv]; try discriminate;
                      cbn in E; destruct (assoc _ kv); discriminate ].
  destruct (LegacySummary.tracking_codes l); cbn [bind]; [| discriminate | contradiction].
  destruct code; discriminate.
Qed.

Lemma legacy_job_raises self fuel w :
  LegacySummary.generate_daily_summary self fuel w =
    let (fetched, w') :=
      TrackingService.get_packages_with_pending_customs
        (LegacySummary.tracking_service self) fuel w in
    (match fetched with
     | OutOfFuel => OutOfFuel
     | _ => Raise TypeError
     end, w').
Proof.
  unfold LegacySummary.generate_daily_summary, try_exceptM,
    LegacySummary.generate_daily_summary_body, bindM, lift,
    LegacySummary.send_message_1, raise.
  destruct (TrackingService.get_packages_with_pending_customs _ fuel w)
    as [[[|pkg packages]|e|] w']; try reflexivity.
  pose proof (tracking_codes_returns_or_raises (pkg :: packages)) as N.
  destruct (LegacySummary.tracking_codes (pkg :: packages)); [reflexivity | reflexivity |].
  contradiction.
Qed.

End Job.

(** C9 as stated fails: with the provider unreachable the job raises the
    transport error of the last attempt; the only requests of the run are
    the three attempts at the first list page, none goes to the gateway. *)
Lemma c9_counterexample :
  CustomsSummary.generate_daily_summary (B := Latin1) Samples.automation 5
      (Samples.start [] "11999998888")
    = (Raise (RequestException 2),
       after (Samples.start [] "11999998888")
         (repeat (CustomsSummary.list_request
                    (u "https://api.17track.net/track/v2.2/gettracklist")
                    [ (u "17token", u "token-17");
                      (u "Content-Type", u "application/json") ] 1) 3)
         [1; 1]%Z).
Proof. vm_compute. reflexivity. Qed.

Lemma c9_job_reraises_witness :
  exists w'',
    CustomsSummary.generate_daily_summary (B := Latin1) Samples.automation 5
      (Samples.start
         [ Responds (Samples.ok_json
             (VDict [ (u "code", VInt 0);
                      (u "data", VDict [ (u "accepted",
                         VList [ VDict [ (u "number", VStr (u "LB1"));
                                         (u "carrier", VInt 2151) ] ]) ]) ]));
           Responds (Samples.ok_json
             (VDict [ (u "code", VInt 0);
                      (u "data", VDict [ (u "accepted",
                         VList [ Samples.detailed "LB1" "alert" "Customs charges due" ]) ]) ]));
           Samples.rejected_reply; Samples.rejected_reply; Samples.rejected_reply ]
         "11999998888")
    = (Raise (ValueError "Erro na API: " (VStr (u "invalid number"))), w'').
Proof.
  eexists.
  eapply (proj2 (proj2 (@c9_job_reraises Latin1 Samples.automation 5 _))).
  - vm_compute. reflexivity.
  - vm_compute. reflexivity.
  - vm_compute. reflexivity.
Defined.
(* ================================================================== *)
(** * Paginated fetch: python/tracking_service.py *)
(* ================================================================== *)

Section LegacyFetch.
Context {B : Builtins}.

Lemma update_total_pages_returns_or_raises page total d :
  TrackingService.update_total_pages page total d <> OutOfFuel.
Proof.
  unfold TrackingService.update_total_pages, has, subscript, get,
    TrackingService.as_int, bind.
  repeat match goal with
         | |- context [match ?x with _ => _ end] => is_var x; destruct x
         | |- context [match assoc ?k ?l with _ => _ end] => destruct (assoc k l)
         | |- context [if (?a =? ?b)%Z then _ else _] => destruct (a =? b)%Z
         | |- context [if existsb ?f ?l then _ else _] => destruct (existsb f l)
         | |- context [if contains ?a ?b then _ else _] => destruct (contains a b)
         end;
    discriminate.
Qed.

(** One iteration of [while page <= total_pages]. *)
Lemma pages_from_step fuel self page total pending w :
  (page <= total)%Z ->
  TrackingService.pages_from (S fuel) self page total pending w =
    match server w (List.length (sent w)) (TrackingService.list_request self page) with
    | Fails e => (Raise e, after w [TrackingService.list_request self page] [])
    | Responds r =>
        match TrackingService.take_page page total pending r with
        | Ok (total', pending') =>
            TrackingService.pages_from fuel self (page + 1) total' pending'
              (after w [TrackingService.list_request self page] [])
        | Raise e => (Raise e, after w [TrackingService.list_request self page] [])
        | OutOfFuel => (OutOfFuel, after w [TrackingService.list_request self page] [])
        end
    end.
Proof.
  intros Hle. cbn [TrackingService.pages_from].
  apply Z.leb_le in Hle. rewrite Hle.
  unfold bindM at 1, http.
  destruct (server w _ _) as [r|e]; [| reflexivity].
  unfold bindM at 1, lift at 1.
  destruct (TrackingService.take_page page total pending r) as [[t' p']| |]; reflexivity.
Qed.

(** A page whose envelope has a zero code and a list at [data.accepted]. *)
Lemma take_page_well_formed page total pending r d items total' pending' :
  body r = Some d ->
  code_is_zero d = true ->
  accepted_of d = Some (VList items) ->
  TrackingService.update_total_pages page total d = Ok total' ->
  TrackingService.collect items pending = Ok pending' ->
  TrackingService.take_page page total pending r = Ok (total', pending').
Proof.
  intros Hb Hc Ha Hu Hp.
  unfold TrackingService.take_page, json_of. rewrite Hb. cbn [bind].
  destruct d as [| | | | |kv]; try discriminate.
  unfold code_is_zero in Hc. unfold accepted_of in Ha.
  destruct (assoc (u "code") kv) as [code|] eqn:Ecode; [| discriminate].
  destruct (assoc (u "data") kv) as [data|] eqn:Edata; [| discriminate].
  destruct data as [| | | | |dkv]; try discriminate.
  assert (Hinv : TrackingService.invalid (VDict kv) = Ok false).
  { unfold TrackingService.invalid.
    destruct kv; [discriminate Ecode|]. cbn [truthy negb].
    unfold get, has, subscript. rewrite Ecode. cbn [bind]. rewrite Hc. cbn [negb].
    rewrite Edata. cbn [bind negb]. now rewrite Ha. }
  rewrite Hinv. cbn [bind]. rewrite Hu. cbn [bind].
  unfold subscript. rewrite Edata. cbn [bind]. rewrite Ha. cbn [bind iter].
  now rewrite Hp.
Qed.

(** A page whose envelope has another code, or nothing at [data.accepted],
    is refused. *)
Lemma take_page_malformed page total pending r d :
  body r = Some d ->
  code_is_zero d = false \/ accepted_of d = None ->
  exists e, TrackingService.take_page page total pending r = Raise e.
Proof.
  intros Hb Hbad.
  unfold TrackingService.take_page, json_of. rewrite Hb. cbn [bind].
  pose proof (update_total_pages_returns_or_raises page total d) as Hu.
  unfold TrackingService.invalid.
  destruct d as [| |z|s|l|kv];
    try (cbn; eauto; fail);
    try (destruct (truthy _); cbn; eauto; fail).
  destruct kv as [|p kv]; [cbn; eauto|].
  cbn [truthy negb]. unfold get. cbn [bind].
  unfold code_is_zero in Hbad. unfold accepted_of in Hbad.
  destruct (assoc (u "code") (p :: kv)) as [code|]; [| cbn; eauto].
  destruct (eq_int code 0); [| cbn; eauto].
  cbn [negb]. destruct Hbad as [Hbad | Hbad]; [discriminate|].
  unfold has at 1. unfold subscript at 1.
  destruct (assoc (u "data") (p :: kv)) as [data|] eqn:Edata; cbn [bind negb];
    [| eauto].
  destruct data as [| |z|s|l|dkv]; cbn [has bind]; eauto.
  - destruct (contains _ s); cbn [negb bind]; eauto.
    destruct (TrackingService.update_total_pages _ _ _); cbn [bind];
      [| eauto | contradiction].
    unfold subscript at 1. rewrite Edata. cbn. eauto.
  - destruct (existsb _ l); cbn [negb bind]; eauto.
    destruct (TrackingService.update_total_pages _ _ _); cbn [bind];
      [| eauto | contradiction].
    unfold subscript at 1. rewrite Edata. cbn. eauto.
  - rewrite Hbad. cbn. eauto.
Qed.


Lemma collect_app items acc :
  TrackingService.collect items acc =
    (pending <- TrackingService.collect items [] ;; Ok (acc ++ pending)).
Proof.
  revert acc. induction items as [|item items IH]; intros acc;
    cbn [TrackingService.collect bind].
  - now rewrite app_nil_r.
  - destruct (TrackingService._check_taxation item) as [[|]| |]; cbn [bind]; try reflexivity.
    + destruct (TrackingService.package_info item) as [info| |]; cbn [bind]; try reflexivity.
      rewrite (IH (acc ++ [info])), (IH ([] ++ [info])).
      destruct (TrackingService.collect items []); cbn [bind app]; try reflexivity.
      now rewrite <- app_assoc.
    + apply IH.
Qed.

Lemma update_total_pages_reports d total size current :
  reports d total size -> size <> 0%Z ->
  TrackingService.update_total_pages 1 current d = Ok ((total + size - 1) / size)%Z.
Proof.
  intros (kv & page & -> & Hp & Ht & Hs) Hne.
  unfold TrackingService.update_total_pages, has, subscript, get.
  cbn [Z.eqb Pos.eqb bind]. rewrite Hp. cbn [bind]. rewrite Ht, Hs. cbn [bind TrackingService.as_int].
  apply Z.eqb_neq in Hne. now rewrite Hne.
Qed.

Lemma update_total_pages_later d page total :
  page <> 1%Z -> TrackingService.update_total_pages page total d = Ok total.
Proof.
  intros H. unfold TrackingService.update_total_pages.
  apply Z.eqb_neq in H. now rewrite H.
Qed.

(** The legacy fetch on three well-formed pages, the first of which
    reports 85 items in pages of 40. *)
Lemma legacy_three_pages self fuel w d1 d2 d3 items1 items2 items3 p1 p2 p3 :
  (4 <= fuel)%nat ->
  answers w 0 (TrackingService.list_request self 1) d1 ->
  answers w 1 (TrackingService.list_request self 2) d2 ->
  answers w 2 (TrackingService.list_request self 3) d3 ->
  reports d1 85 40 ->
  well_formed d1 items1 -> well_formed d2 items2 -> well_formed d3 items3 ->
  TrackingService.collect items1 [] = Ok p1 ->
  TrackingService.collect items2 [] = Ok p2 ->
  TrackingService.collect items3 [] = Ok p3 ->
  TrackingService.get_packages_with_pending_customs self fuel w
    = (Ok (p1 ++ p2 ++ p3),
       after w [ TrackingService.list_request self 1;
                 TrackingService.list_request self 2;
                 TrackingService.list_request self 3 ] []).
Proof.
  intros Hfuel (r1 & Hr1 & Hb1) (r2 & Hr2 & Hb2) (r3 & Hr3 & Hb3) Hrep
         [Hc1 Ha1] [Hc2 Ha2] [Hc3 Ha3] Hp1 Hp2 Hp3.
  destruct fuel as [|[|[|[|fuel]]]]; try lia.
  unfold TrackingService.get_packages_with_pending_customs.
  rewrite Nat.add_0_r in Hr1.
  rewrite pages_from_step by lia. rewrite Hr1.
  rewrite (take_page_well_formed 1 1 [] r1 d1 items1 3 p1 Hb1 Hc1 Ha1
             (update_total_pages_reports d1 85 40 1 Hrep ltac:(discriminate)) Hp1).
  change (1 + 1)%Z with 2%Z.
  rewrite pages_from_step by lia.
  rewrite server_after, sent_after, length_app. cbn [List.length]. rewrite Hr2.
  rewrite (take_page_well_formed 2 3 p1 r2 d2 items2 3 (p1 ++ p2) Hb2 Hc2 Ha2
             (update_total_pages_later d2 2 3 ltac:(discriminate))).
  2:{ rewrite collect_app, Hp2. reflexivity. }
  rewrite after_after. cbn [app]. change (2 + 1)%Z with 3%Z.
  rewrite pages_from_step by lia.
  rewrite server_after, sent_after, length_app. cbn [List.length]. rewrite Hr3.
  rewrite (take_page_well_formed 3 3 (p1 ++ p2) r3 d3 items3 3 ((p1 ++ p2) ++ p3) Hb3 Hc3 Ha3
             (update_total_pages_later d3 3 3 ltac:(discriminate))).
  2:{ rewrite collect_app, Hp3. reflexivity. }
  rewrite after_after. cbn [app]. change (3 + 1)%Z with 4%Z.
  cbn [TrackingService.pages_from]. change (4 <=? 3)%Z with false. cbv iota.
  unfold ret. now rewrite <- app_assoc.
Qed.

(** A malformed page makes the legacy fetch raise, at any iteration. *)
Lemma legacy_malformed_page fuel self page total pending w d :
  (page <= total)%Z ->
  answers w 0 (TrackingService.list_request self page) d ->
  code_is_zero d = false \/ accepted_of d = None ->
  exists e,
    TrackingService.pages_from (S fuel) self page total pending w
      = (Raise e, after w [TrackingService.list_request self page] []).
Proof.
  intros Hle (r & Hr & Hb) Hbad. rewrite Nat.add_0_r in Hr.
  rewrite pages_from_step by assumption. rewrite Hr.
  destruct (take_page_malformed page total pending r d Hb Hbad) as [e ->].
  eauto.
Qed.

End LegacyFetch.
(* ================================================================== *)
(** * Paginated fetch: the automation *)
(* ================================================================== *)

Section Fetch.
Context {B : Builtins}.

(** One iteration of [while True]. *)
Lemma get_all_packages_step fuel url hdrs page all w :
  CustomsSummary.get_all_packages_from (S fuel) url hdrs page all w =
    match CustomsSummary.make_request (CustomsSummary.list_request url hdrs page) w with
    | (Ok response, w') =>
        match CustomsSummary.take_page response all with
        | Ok (all', true) => (Ok all', w')
        | Ok (all', false) =>
            CustomsSummary.get_all_packages_from fuel url hdrs (page + 1) all' w'
        | Raise e => (Raise e, w')
        | OutOfFuel => (OutOfFuel, w')
        end
    | (Raise e, w') => (Raise e, w')
    | (OutOfFuel, w') => (OutOfFuel, w')
    end.
Proof.
  cbn [CustomsSummary.get_all_packages_from]. unfold bindM at 1.
  destruct (CustomsSummary.make_request _ w) as [[response|e|] w']; try reflexivity.
  unfold bindM at 1, lift at 1.
  destruct (CustomsSummary.take_page response all) as [[all' [|]]| |]; reflexivity.
Qed.

Lemma list_page_well_formed envelope items all :
  well_formed envelope items ->
  CustomsSummary.take_page envelope all
    = Ok (all ++ items, (Z.of_nat (List.length items) <? 40)%Z).
Proof.
  intros [Hc Ha]. destruct envelope as [| | | | |kv]; try discriminate.
  unfold code_is_zero in Hc. unfold accepted_of in Ha.
  unfold CustomsSummary.take_page, get. cbn [bind].
  destruct (assoc (u "code") kv) as [code|]; [| discriminate]. rewrite Hc. cbn [negb].
  destruct (assoc (u "data") kv) as [[| | | | |data]|]; try discriminate.
  cbn [bind]. rewrite Ha. reflexivity.
Qed.

Lemma list_page_bad_code kv all :
  code_is_zero (VDict kv) = false ->
  CustomsSummary.take_page (VDict kv) all
    = Raise (ValueError "Erro ao buscar lista: "
               (match assoc (u "message") kv with Some m => m | None => VNone end)).
Proof.
  unfold code_is_zero, CustomsSummary.take_page, get. cbn [bind].
  destruct (assoc (u "code") kv) as [code|]; [intros -> | intros _]; reflexivity.
Qed.

Lemma list_page_no_accepted kv all :
  code_is_zero (VDict kv) = true ->
  assoc (u "data") kv = None
  \/ (exists data, assoc (u "data") kv = Some (VDict data)
                   /\ assoc (u "accepted") data = None) ->
  CustomsSummary.take_page (VDict kv) all = Ok (all, true).
Proof.
  unfold code_is_zero, CustomsSummary.take_page, get. cbn [bind].
  destruct (assoc (u "code") kv) as [code|]; [| discriminate]. intros ->. cbn [negb].
  intros [-> | (data & -> & Ha)]; cbn [bind]; [| rewrite Ha]; cbn; now rewrite app_nil_r.
Qed.

(** A request answered at its first attempt. *)
Lemma make_request_first rq w k rqs d data :
  CustomsSummary.outcome (server w (List.length (sent w) + k) rq) = Ok data ->
  List.length rqs = k ->
  CustomsSummary.make_request rq (after w rqs d) = (Ok data, after w (rqs ++ [rq]) d).
Proof.
  intros H <-. rewrite make_request_run. cbv zeta.
  rewrite server_after, sent_after, length_app, H. now rewrite after_after, app_nil_r.
Qed.

(** The automation's fetch on pages of at least 40, at least 40 and fewer
    than 40 items, each answered at the first attempt. *)
Lemma automation_three_pages url hdrs fuel w e1 e2 e3 l1 l2 l3 :
  (3 <= fuel)%nat ->
  CustomsSummary.outcome
    (server w (List.length (sent w)) (CustomsSummary.list_request url hdrs 1)) = Ok e1 ->
  CustomsSummary.outcome
    (server w (List.length (sent w) + 1) (CustomsSummary.list_request url hdrs 2)) = Ok e2 ->
  CustomsSummary.outcome
    (server w (List.length (sent w) + 2) (CustomsSummary.list_request url hdrs 3)) = Ok e3 ->
  well_formed e1 l1 -> well_formed e2 l2 -> well_formed e3 l3 ->
  (40 <= List.length l1)%nat -> (40 <= List.length l2)%nat -> (List.length l3 < 40)%nat ->
  CustomsSummary.get_all_packages fuel url hdrs w
    = (Ok (l1 ++ l2 ++ l3),
       after w [ CustomsSummary.list_request url hdrs 1;
                 CustomsSummary.list_request url hdrs 2;
                 CustomsSummary.list_request url hdrs 3 ] []).
Proof.
  intros Hfuel H1 H2 H3 W1 W2 W3 L1 L2 L3.
  destruct fuel as [|[|[|fuel]]]; try lia.
  unfold CustomsSummary.get_all_packages.
  rewrite get_all_packages_step.
  rewrite <- (after_nil w) at 1.
  rewrite (make_request_first _ w 0 [] [] e1) by (rewrite ?Nat.add_0_r; auto).
  rewrite (list_page_well_formed e1 l1 [] W1).
  replace (Z.of_nat (List.length l1) <? 40)%Z with false by (symmetry; apply Z.ltb_ge; lia).
  change (1 + 1)%Z with 2%Z. cbn [app].
  rewrite get_all_packages_step.
  rewrite (make_request_first _ w 1 _ [] e2) by auto.
  rewrite (list_page_well_formed e2 l2 l1 W2).
  replace (Z.of_nat (List.length l2) <? 40)%Z with false by (symmetry; apply Z.ltb_ge; lia).
  change (2 + 1)%Z with 3%Z. cbn [app].
  rewrite get_all_packages_step.
  rewrite (make_request_first _ w 2 _ [] e3) by auto.
  rewrite (list_page_well_formed e3 l3 (l1 ++ l2) W3).
  replace (Z.of_nat (List.length l3) <? 40)%Z with true by (symmetry; apply Z.ltb_lt; lia).
  cbn [app]. now rewrite <- app_assoc.
Qed.

(** C4 (amended). A first response reporting 85 items in pages of 40
    makes the legacy fetch ask for exactly the pages 1, 2 and 3, when they
    are well-formed; it returns, in page order, what it stores for the
    items that [_check_taxation] accepts.  The automation's fetch does not
    read the report: it asks for pages until one has fewer than 40 items, so
    for pages of 40, 40 and 5 items it asks for exactly three pages and
    returns their items in page order. *)
Theorem c4_three_pages :
  (forall self fuel w d1 d2 d3 items1 items2 items3 p1 p2 p3,
      (4 <= fuel)%nat ->
      answers w 0 (TrackingService.list_request self 1) d1 ->
      answers w 1 (TrackingService.list_request self 2) d2 ->
      answers w 2 (TrackingService.list_request self 3) d3 ->
      reports d1 85 40 ->
      well_formed d1 items1 -> well_formed d2 items2 -> well_formed d3 items3 ->
      TrackingService.collect items1 [] = Ok p1 ->
      TrackingService.collect items2 [] = Ok p2 ->
      TrackingService.collect items3 [] = Ok p3 ->
      TrackingService.get_packages_with_pending_customs self fuel w
        = (Ok (p1 ++ p2 ++ p3),
           after w [ TrackingService.list_request self 1;
                     TrackingService.list_request self 2;
                     TrackingService.list_request self 3 ] []))
  /\
  (forall url hdrs fuel w e1 e2 e3 l1 l2 l3,
      (3 <= fuel)%nat ->
      CustomsSummary.outcome
        (server w (List.length (sent w)) (CustomsSummary.list_request url hdrs 1)) = Ok e1 ->
      CustomsSummary.outcome
        (server w (List.length (sent w) + 1) (CustomsSummary.list_request url hdrs 2))
        = Ok e2 ->
      CustomsSummary.outcome
        (server w (List.length (sent w) + 2) (CustomsSummary.list_request url hdrs 3))
        = Ok e3 ->
      well_formed e1 l1 -> well_formed e2 l2 -> well_formed e3 l3 ->
      List.length l1 = 40%nat -> List.length l2 = 40%nat -> List.length l3 = 5%nat ->
      CustomsSummary.get_all_packages fuel url hdrs w
        = (Ok (l1 ++ l2 ++ l3),
           after w [ CustomsSummary.list_request url hdrs 1;
                     CustomsSummary.list_request url hdrs 2;
                     CustomsSummary.list_request url hdrs 3 ] [])).
Proof.
  split.
  - intros. eapply legacy_three_pages; eassumption.
  - intros. eapply automation_three_pages; try eassumption; lia.
Qed.

(** C7 (amended). The legacy fetch raises on a page whose envelope has a
    code other than zero or nothing at [data.accepted].  The automation's
    fetch raises on a code other than zero; an envelope with a zero code
    and no [data], or a [data] without [accepted], it takes for an empty
    last page and returns what it gathered before. *)
Theorem c7_malformed_page :
  (forall fuel self page total pending w d,
      (page <= total)%Z ->
      answers w 0 (TrackingService.list_request self page) d ->
      code_is_zero d = false \/ accepted_of d = None ->
      exists e,
        TrackingService.pages_from (S fuel) self page total pending w
          = (Raise e, after w [TrackingService.list_request self page] []))
  /\
  (forall fuel url hdrs page all w kv w',
      CustomsSummary.make_request (CustomsSummary.list_request url hdrs page) w
        = (Ok (VDict kv), w') ->
      code_is_zero (VDict kv) = false ->
      exists message,
        CustomsSummary.get_all_packages_from (S fuel) url hdrs page all w
          = (Raise (ValueError "Erro ao buscar lista: " message), w'))
  /\
  (forall fuel url hdrs page all w kv w',
      CustomsSummary.make_request (CustomsSummary.list_request url hdrs page) w
        = (Ok (VDict kv), w') ->
      code_is_zero (VDict kv) = true ->
      assoc (u "data") kv = None
      \/ (exists data, assoc (u "data") kv = Some (VDict data)
                       /\ assoc (u "accepted") data = None) ->
      CustomsSummary.get_all_packages_from (S fuel) url hdrs page all w = (Ok all, w')).
Proof.
  split; [| split].
  - intros. eapply legacy_malformed_page; eassumption.
  - intros fuel url hdrs page all w kv w' Hm Hc.
    rewrite get_all_packages_step, Hm, (list_page_bad_code kv all Hc). eauto.
  - intros fuel url hdrs page all w kv w' Hm Hc Hd.
    rewrite get_all_packages_step, Hm, (list_page_no_accepted kv all Hc Hd). reflexivity.
Qed.

End Fetch.

(** C4 as stated fails.  The legacy fetch does ask for three pages, but it
    returns only what it stores for the items taken as pending: nothing,
    for three pages of one ordinary item each.  The automation's fetch
    stops after one request when the first page is short, whatever totals
    that page reports. *)
Lemma c4_counterexample :
  TrackingService.get_packages_with_pending_customs (B := Latin1)
      Samples.legacy_tracking 10
      (Samples.start
         [ Samples.list_page (Samples.listed "LB1" "InTransit" "Departed") 1 85 40;
           Samples.list_page (Samples.listed "LB1" "InTransit" "Departed") 1 85 40;
           Samples.list_page (Samples.listed "LB1" "InTransit" "Departed") 1 85 40 ] "")
    = (Ok [],
       after (Samples.start
                [ Samples.list_page (Samples.listed "LB1" "InTransit" "Departed") 1 85 40;
                  Samples.list_page (Samples.listed "LB1" "InTransit" "Departed") 1 85 40;
                  Samples.list_page (Samples.listed "LB1" "InTransit" "Departed") 1 85 40 ] "")
             [ TrackingService.list_request Samples.legacy_tracking 1;
               TrackingService.list_request Samples.legacy_tracking 2;
               TrackingService.list_request Samples.legacy_tracking 3 ] [])
  /\
  CustomsSummary.get_all_packages 10 Samples.list_url Samples.list_headers
      (Samples.start
         [ Samples.list_page (Samples.detailed "LB1" "InTransit" "Departed") 1 85 40 ] "")
    = (Ok [ Samples.detailed "LB1" "InTransit" "Departed" ],
       after (Samples.start
                [ Samples.list_page (Samples.detailed "LB1" "InTransit" "Departed") 1 85 40 ] "")
             [ CustomsSummary.list_request Samples.list_url Samples.list_headers 1 ] []).
Proof. split; vm_compute; reflexivity. Qed.

Lemma c4_three_pages_witness :
  exists pending,
    TrackingService.get_packages_with_pending_customs (B := Latin1)
      Samples.legacy_tracking 4
      (Samples.start
         [ Samples.list_page (Samples.listed "LB1" "CustomsHold" "Held") 2 85 40;
           Samples.list_page (Samples.listed "LB2" "InTransit" "Departed") 2 85 40;
           Samples.list_page (Samples.listed "LB3" "InTransit" "Customs clearance") 1 85 40 ] "")
    = (Ok pending,
       after (Samples.start
                [ Samples.list_page (Samples.listed "LB1" "CustomsHold" "Held") 2 85 40;
                  Samples.list_page (Samples.listed "LB2" "InTransit" "Departed") 2 85 40;
                  Samples.list_page (Samples.listed "LB3" "InTransit" "Customs clearance") 1
                    85 40 ] "")
             [ TrackingService.list_request Samples.legacy_tracking 1;
               TrackingService.list_request Samples.legacy_tracking 2;
               TrackingService.list_request Samples.legacy_tracking 3 ] []).
Proof.
  eexists.
  eapply (proj1 (@c4_three_pages Latin1)).
  - lia.
  - eexists. split; vm_compute; reflexivity.
  - eexists. split; vm_compute; reflexivity.
  - eexists. split; vm_compute; reflexivity.
  - do 2 eexists. repeat split; vm_compute; reflexivity.
  - split; vm_compute; reflexivity.
  - split; vm_compute; reflexivity.
  - split; vm_compute; reflexivity.
  - vm_compute. reflexivity.
  - vm_compute. reflexivity.
  - vm_compute. reflexivity.
Defined.

(** C7 as stated fails for the automation: the second page has a zero code
    and no [data], and the fetch returns the forty items of the first
    page. *)
Lemma c7_counterexample :
  accepted_of (VDict [ (u "code", VInt 0); (u "message", VStr (u "ok")) ]) = None
  /\
  CustomsSummary.get_all_packages 10 Samples.list_url Samples.list_headers
      (Samples.start
         [ Samples.list_page (Samples.detailed "LB1" "alert" "Held") 40 85 40;
           Samples.bare_page ] "")
    = (Ok (repeat (Samples.detailed "LB1" "alert" "Held") 40),
       after (Samples.start
                [ Samples.list_page (Samples.detailed "LB1" "alert" "Held") 40 85 40;
                  Samples.bare_page ] "")
             [ CustomsSummary.list_request Samples.list_url Samples.list_headers 1;
               CustomsSummary.list_request Samples.list_url Samples.list_headers 2 ] []).
Proof. split; vm_compute; reflexivity. Qed.

Lemma c7_malformed_page_witness :
  exists e,
    TrackingService.pages_from (B := Latin1) 1 Samples.legacy_tracking 1 1 []
      (Samples.start [ Samples.error_page ] "")
    = (Raise e,
       after (Samples.start [ Samples.error_page ] "")
             [ TrackingService.list_request Samples.legacy_tracking 1 ] []).
Proof.
  eapply (proj1 (@c7_malformed_page Latin1)).
  - lia.
  - eexists. split; vm_compute; reflexivity.
  - left. vm_compute. reflexivity.
Defined.
(* ================================================================== *)
(** * More on the retrying request and the automation's fetch *)
(* ================================================================== *)

Section MoreFetch.
Context {B : Builtins}.

(** X1. [make_request] makes one to three copies of the request and sleeps
    one second between two attempts; its outcome is that of the last
    attempt made, every earlier attempt having failed, and it stops short
    of the third attempt only on a success. *)
Theorem make_request_first_success rq w :
  exists k,
    (1 <= k <= 3)%nat
    /\ CustomsSummary.make_request rq w
       = (CustomsSummary.outcome (server w (List.length (sent w) + (k - 1)) rq),
          after w (repeat rq k) (repeat 1%Z (k - 1)))
    /\ (forall j, (j < k - 1)%nat ->
          exists e, CustomsSummary.outcome (server w (List.length (sent w) + j) rq) = Raise e)
    /\ ((k < 3)%nat ->
          exists data,
            CustomsSummary.outcome (server w (List.length (sent w) + (k - 1)) rq) = Ok data).
Proof.
  rewrite make_request_run. cbv zeta.
  pose proof (outcome_returns_or_raises (server w (List.length (sent w)) rq)) as N1.
  pose proof (outcome_returns_or_raises (server w (List.length (sent w) + 1) rq)) as N2.
  destruct (CustomsSummary.outcome (server w (List.length (sent w)) rq)) as [d1|e1|] eqn:E1;
    [ | | contradiction ].
  { exists 1%nat. cbn [Nat.sub repeat]. rewrite Nat.add_0_r, E1.
    repeat split; try lia; eauto. }
  destruct (CustomsSummary.outcome (server w (List.length (sent w) + 1) rq)) as [d2|e2|] eqn:E2;
    [ | | contradiction ].
  { exists 2%nat. cbn [Nat.sub repeat]. rewrite E2.
    repeat split; try lia; eauto.
    intros j Hj. assert (j = 0)%nat as -> by lia. rewrite Nat.add_0_r. eauto. }
  exists 3%nat. cbn [Nat.sub repeat].
  repeat split; try lia.
  intros j Hj. assert (j = 0 \/ j = 1)%nat as [-> | ->] by lia;
    [rewrite Nat.add_0_r|]; eauto.
Qed.

Lemma page_requests_S url hdrs p n :
  page_requests url hdrs p (S n)
    = CustomsSummary.list_request url hdrs p :: page_requests url hdrs (p + 1) n.
Proof.
  unfold page_requests. cbn [seq map]. rewrite Z.add_0_r. f_equal.
  rewrite <- seq_shift, map_map. apply map_ext. intros i. f_equal. lia.
Qed.

(** The automation's loop from any state, on pages served one after the
    other, all but the last with at least forty items. *)
Lemma get_all_packages_from_served url hdrs pages :
  forall last_envelope last_items fuel w rqs p acc,
    served url hdrs w (List.length (sent w) + List.length rqs) p
      (pages ++ [(last_envelope, last_items)]) ->
    Forall (fun page => 40 <= List.length (snd page))%nat pages ->
    (List.length last_items < 40)%nat ->
    (List.length pages < fuel)%nat ->
    CustomsSummary.get_all_packages_from fuel url hdrs p acc (after w rqs [])
      = (Ok (acc ++ List.concat (map snd pages) ++ last_items),
         after w (rqs ++ page_requests url hdrs p (S (List.length pages))) []).
Proof.
  induction pages as [|[envelope items] pages IH];
    intros last_envelope last_items fuel w rqs p acc Hs Hfull Hlast Hfuel.
  - destruct fuel as [|fuel]; [cbn in Hfuel; lia|].
    cbn [app served] in Hs. destruct Hs as (Ho & Hw & _).
    rewrite get_all_packages_step.
    rewrite (make_request_first _ w (List.length rqs) rqs [] last_envelope Ho eq_refl).
    rewrite (list_page_well_formed last_envelope last_items acc Hw).
    replace (Z.of_nat (List.length last_items) <? 40)%Z with true
      by (symmetry; apply Z.ltb_lt; lia).
    rewrite page_requests_S. reflexivity.
  - destruct fuel as [|fuel]; [cbn in Hfuel; lia|].
    cbn [app served] in Hs. destruct Hs as (Ho & Hw & Hrest).
    inversion Hfull as [|? ? Hlen Hfull']; subst.
    rewrite get_all_packages_step.
    rewrite (make_request_first _ w (List.length rqs) rqs [] envelope Ho eq_refl).
    rewrite (list_page_well_formed envelope items acc Hw).
    replace (Z.of_nat (List.length items) <? 40)%Z with false
      by (symmetry; apply Z.ltb_ge; cbn [snd] in Hlen; lia).
    rewrite (IH last_envelope last_items fuel w
               (rqs ++ [CustomsSummary.list_request url hdrs p]) (p + 1)%Z (acc ++ items)).
    + f_equal.
      * cbn [map List.concat snd]. now rewrite <- !app_assoc.
      * f_equal. rewrite <- app_assoc. f_equal.
        cbn [List.length]. now rewrite (page_requests_S url hdrs p).
    + rewrite length_app. cbn [List.length].
      replace (List.length (sent w) + (List.length rqs + 1))%nat
        with (S (List.length (sent w) + List.length rqs)) by lia.
      exact Hrest.
    + exact Hfull'.
    + exact Hlast.
    + cbn [List.length] in Hfuel. lia.
Qed.

(** X2. The automation's fetch asks for pages until one has fewer than
    forty items: after any number of full pages and a short one it has made
    one request per page and returns the items of all of them in page
    order. *)
Theorem get_all_packages_until_short_page url hdrs pages last_envelope last_items fuel w :
  served url hdrs w (List.length (sent w)) 1 (pages ++ [(last_envelope, last_items)]) ->
  Forall (fun page => 40 <= List.length (snd page))%nat pages ->
  (List.length last_items < 40)%nat ->
  (List.length pages < fuel)%nat ->
  CustomsSummary.get_all_packages fuel url hdrs w
    = (Ok (List.concat (map snd pages) ++ last_items),
       after w (page_requests url hdrs 1 (S (List.length pages))) []).
Proof.
  intros Hs Hfull Hlast Hfuel. unfold CustomsSummary.get_all_packages.
  rewrite <- (after_nil w) at 1.
  rewrite (get_all_packages_from_served url hdrs pages last_envelope last_items
             fuel w [] 1%Z []); auto.
  cbn [List.length]. now rewrite Nat.add_0_r.
Qed.


Lemma get_all_packages_from_full url hdrs w envelope items :
  (forall k p,
      CustomsSummary.outcome (server w k (CustomsSummary.list_request url hdrs p))
        = Ok envelope) ->
  well_formed envelope items ->
  (40 <= List.length items)%nat ->
  forall fuel rqs p acc,
    CustomsSummary.get_all_packages_from fuel url hdrs p acc (after w rqs [])
      = (OutOfFuel, after w (rqs ++ page_requests url hdrs p fuel) []).
Proof.
  intros Hs Hw Hlen. induction fuel as [|fuel IH]; intros rqs p acc.
  - cbn. now rewrite app_nil_r.
  - rewrite get_all_packages_step.
    rewrite (make_request_first _ w (List.length rqs) rqs [] envelope (Hs _ _) eq_refl).
    rewrite (list_page_well_formed envelope items acc Hw).
    replace (Z.of_nat (List.length items) <? 40)%Z with false
      by (symmetry; apply Z.ltb_ge; lia).
    rewrite IH, page_requests_S, <- app_assoc. reflexivity.
Qed.

(** X3. The automation's fetch has no bound of its own: against a provider
    that answers every page with forty items or more it never returns;
    whatever the budget of iterations, all of it is spent on requests. *)
Theorem get_all_packages_never_stops url hdrs w envelope items fuel :
  (forall k p,
      CustomsSummary.outcome (server w k (CustomsSummary.list_request url hdrs p))
        = Ok envelope) ->
  well_formed envelope items ->
  (40 <= List.length items)%nat ->
  CustomsSummary.get_all_packages fuel url hdrs w
    = (OutOfFuel, after w (page_requests url hdrs 1 fuel) []).
Proof.
  intros Hs Hw Hlen. unfold CustomsSummary.get_all_packages.
  rewrite <- (after_nil w) at 1.
  now rewrite (get_all_packages_from_full url hdrs w envelope items Hs Hw Hlen).
Qed.

(** ** The detail fetch *)

Lemma batches_slices {A} (l : list A) :
  batches l
    = map (fun i => firstn 40 (skipn (i * 40) l)) (seq 0 ((List.length l + 39) / 40)).
Proof.
  unfold batches, range_step, CustomsSummary.batch_size. rewrite map_map.
  replace (Z.to_nat ((Z.of_nat (List.length l) - 0 + Z.of_nat 40 - 1) / Z.of_nat 40))
    with ((List.length l + 39) / 40)%nat.
  - apply map_ext. intros i. do 2 f_equal. lia.
  - replace (Z.of_nat (List.length l) - 0 + Z.of_nat 40 - 1)%Z
      with (Z.of_nat (List.length l + 39)) by lia.
    now rewrite <- Nat2Z.inj_div, Nat2Z.id.
Qed.

Lemma slices_partition {A} k : forall l : list A,
  (List.length l <= 40 * k)%nat ->
  List.concat (map (fun i => firstn 40 (skipn (i * 40) l)) (seq 0 k)) = l.
Proof.
  induction k as [|k IH]; intros l Hl.
  - destruct l; [reflexivity | cbn in Hl; lia].
  - cbn [seq map List.concat]. rewrite <- seq_shift, map_map.
    change (skipn (0 * 40) l) with l.
    transitivity (firstn 40 l ++ skipn 40 l); [| apply firstn_skipn].
    f_equal.
    etransitivity; [| apply (IH (skipn 40 l)); rewrite length_skipn; lia].
    f_equal. apply map_ext. intros i. f_equal.
    rewrite skipn_skipn. f_equal. lia.
Qed.

Lemma batches_partition {A} (l : list A) :
  List.concat (batches l) = l
  /\ Forall (fun b => 1 <= List.length b <= 40)%nat (batches l).
Proof.
  rewrite batches_slices. split.
  - apply slices_partition.
    pose proof (Nat.mul_succ_div_gt (List.length l + 39) 40 ltac:(lia)). lia.
  - apply Forall_forall. intros b Hb. apply in_map_iff in Hb as [i [<- Hi]].
    apply in_seq in Hi.
    pose proof (Nat.Div0.mul_div_le (List.length l + 39) 40) as Hq.
    rewrite length_firstn, length_skipn. lia.
Qed.

Lemma track_data_app l1 l2 t1 t2 :
  CustomsSummary.track_data l1 = Ok t1 ->
  CustomsSummary.track_data l2 = Ok t2 ->
  CustomsSummary.track_data (l1 ++ l2) = Ok (t1 ++ t2).
Proof.
  revert t1. induction l1 as [|pkg l1 IH]; intros t1 H1 H2; cbn [app CustomsSummary.track_data] in *.
  - injection H1 as <-. exact H2.
  - destruct (subscript pkg "number"); cbn [bind] in *; try discriminate.
    destruct (subscript pkg "carrier"); cbn [bind] in *; try discriminate.
    destruct (CustomsSummary.track_data l1) as [t| |]; cbn [bind] in *; try discriminate.
    injection H1 as <-. now rewrite (IH t eq_refl H2).
Qed.

(** [track_data] goes item by item: on a slice it gives the slice. *)
Lemma track_data_slice packages td :
  CustomsSummary.track_data packages = Ok td ->
  forall n,
    CustomsSummary.track_data (firstn n packages) = Ok (firstn n td)
    /\ CustomsSummary.track_data (skipn n packages) = Ok (skipn n td).
Proof.
  revert td. induction packages as [|pkg packages IH]; intros td H n;
    cbn [CustomsSummary.track_data] in H.
  - injection H as <-. rewrite !firstn_nil, !skipn_nil. split; reflexivity.
  - destruct (subscript pkg "number") as [number| |] eqn:En; cbn [bind] in H; try discriminate.
    destruct (subscript pkg "carrier") as [carrier| |] eqn:Ec; cbn [bind] in H; try discriminate.
    destruct (CustomsSummary.track_data packages) as [t| |] eqn:Et; cbn [bind] in H;
      try discriminate.
    injection H as <-. destruct n as [|n].
    + cbn [firstn skipn CustomsSummary.track_data]. rewrite En, Ec, Et. split; reflexivity.
    + destruct (IH t eq_refl n) as [Hf Hs].
      cbn [firstn skipn CustomsSummary.track_data]. rewrite En, Ec, Hf. split; [reflexivity | exact Hs].
Qed.

Lemma track_data_length packages td :
  CustomsSummary.track_data packages = Ok td -> List.length td = List.length packages.
Proof.
  revert td. induction packages as [|pkg packages IH]; intros td H;
    cbn [CustomsSummary.track_data] in H.
  - now injection H as <-.
  - destruct (subscript pkg "number"); cbn [bind] in H; try discriminate.
    destruct (subscript pkg "carrier"); cbn [bind] in H; try discriminate.
    destruct (CustomsSummary.track_data packages) as [t| |]; cbn [bind] in H; try discriminate.
    injection H as <-. cbn [List.length]. now rewrite (IH t eq_refl).
Qed.

Lemma get_detailed_batches_served url hdrs w answer details packages td :
  CustomsSummary.track_data packages = Ok td ->
  (forall k rq, CustomsSummary.outcome (server w k rq) = Ok (answer rq)) ->
  (forall rq, well_formed (answer rq) (details rq)) ->
  forall starts rqs acc,
    CustomsSummary.get_detailed_batches starts packages url hdrs acc (after w rqs [])
      = (Ok (acc ++ List.concat
               (map (fun i => details (detail_request url hdrs
                                         (firstn 40 (skipn (Z.to_nat i) td)))) starts)),
         after w (rqs ++ map (fun i => detail_request url hdrs
                                         (firstn 40 (skipn (Z.to_nat i) td))) starts) []).
Proof.
  intros Htd Hs Hw. induction starts as [|i starts IH]; intros rqs acc.
  - cbn. now rewrite !app_nil_r.
  - cbn [CustomsSummary.get_detailed_batches].
    destruct (track_data_slice packages td Htd (Z.to_nat i)) as [_ Hskip].
    destruct (track_data_slice _ _ Hskip 40) as [Hfirst _].
    unfold CustomsSummary.batch_size.
    unfold bindM at 1, lift at 1. rewrite Hfirst.
    unfold bindM at 1.
    fold (detail_request url hdrs (firstn 40 (skipn (Z.to_nat i) td))).
    rewrite (make_request_first _ w (List.length rqs) rqs [] _ (Hs _ _) eq_refl).
    destruct (Hw (detail_request url hdrs (firstn 40 (skipn (Z.to_nat i) td)))) as [Hc Ha].
    destruct (answer (detail_request url hdrs (firstn 40 (skipn (Z.to_nat i) td))))
      as [| | | | |kv] eqn:Ea; try discriminate.
    unfold code_is_zero in Hc. unfold accepted_of in Ha.
    unfold bindM at 1, lift at 1, get.
    destruct (assoc (u "code") kv) as [code|]; [| discriminate]. rewrite Hc. cbn [negb].
    destruct (assoc (u "data") kv) as [[| | | | |data]|]; try discriminate.
    unfold bindM at 1, lift at 1. unfold bindM at 1, lift at 1. rewrite Ha.
    unfold bindM at 1, lift at 1. cbn [iter].
    rewrite IH. cbn [map List.concat]. now rewrite <- !app_assoc.
Qed.

(** X4. The detail fetch asks for every package exactly once, in order, in
    batches of one to forty: the batches put end to end are the whole
    list, one request is made per batch, and the details come back in batch
    order.  An empty list makes no request. *)
Theorem get_detailed_packages_batches url hdrs w answer details packages td :
  CustomsSummary.track_data packages = Ok td ->
  (forall k rq, CustomsSummary.outcome (server w k rq) = Ok (answer rq)) ->
  (forall rq, well_formed (answer rq) (details rq)) ->
  CustomsSummary.get_detailed_packages packages url hdrs w
    = (Ok (List.concat (map (fun b => details (detail_request url hdrs b)) (batches td))),
       after w (map (detail_request url hdrs) (batches td)) [])
  /\ List.concat (batches td) = td
  /\ Forall (fun b => 1 <= List.length b <= 40)%nat (batches td)
  /\ (packages = [] -> batches td = []).
Proof.
  intros Htd Hs Hw.
  destruct (batches_partition td) as [Hp Hf].
  split; [| split; [exact Hp | split; [exact Hf |]]].
  - unfold CustomsSummary.get_detailed_packages.
    destruct packages as [|pkg packages].
    + cbn in Htd. injection Htd as <-. cbn. unfold ret. now rewrite after_nil.
    + rewrite <- (after_nil w) at 1.
      rewrite (get_detailed_batches_served url hdrs w answer details _ td Htd Hs Hw).
      rewrite <- (track_data_length _ _ Htd).
      unfold batches, CustomsSummary.batch_size. rewrite !map_map. reflexivity.
  - intros ->. cbn in Htd. injection Htd as <-. reflexivity.
Qed.

Lemma track_data_returns_or_raises batch : CustomsSummary.track_data batch <> OutOfFuel.
Proof.
  induction batch as [|pkg batch IH]; cbn [CustomsSummary.track_data]; [discriminate|].
  destruct pkg as [| | | | |kv]; cbn [subscript bind]; try discriminate.
  destruct (assoc (u "number") kv); cbn [bind]; [| discriminate].
  destruct (assoc (u "carrier") kv); cbn [bind]; [| discriminate].
  destruct (CustomsSummary.track_data batch); cbn [bind]; [discriminate | discriminate |].
  contradiction.
Qed.

Lemma track_data_raises batch pkg :
  In pkg batch ->
  (exists e, subscript pkg "number" = Raise e)
  \/ (exists e, subscript pkg "carrier" = Raise e) ->
  exists e, CustomsSummary.track_data batch = Raise e.
Proof.
  induction batch as [|first batch IH]; intros Hin Hbad; [contradiction|].
  cbn [CustomsSummary.track_data].
  destruct (subscript first "number") as [number| |] eqn:En; cbn [bind]; eauto.
  - destruct (subscript first "carrier") as [carrier| |] eqn:Ec; cbn [bind]; eauto.
    + destruct Hin as [-> | Hin].
      * destruct Hbad as [[e He] | [e He]]; congruence.
      * destruct (IH Hin Hbad) as [e ->]. cbn [bind]. eauto.
    + destruct first as [| | | | |kv]; try discriminate. cbn in Ec.
      destruct (assoc _ kv); discriminate.
  - destruct first as [| | | | |kv]; try discriminate. cbn in En.
    destruct (assoc _ kv); discriminate.
Qed.

Lemma range_step_first n :
  (0 < n)%nat ->
  exists rest, range_step 0 (Z.of_nat n) (Z.of_nat CustomsSummary.batch_size) = 0%Z :: rest.
Proof.
  intros Hn. unfold range_step, CustomsSummary.batch_size.
  assert (H : (1 <= (Z.of_nat n - 0 + Z.of_nat 40 - 1) / Z.of_nat 40)%Z)
    by (apply Z.div_le_lower_bound; lia).
  destruct (Z.to_nat ((Z.of_nat n - 0 + Z.of_nat 40 - 1) / Z.of_nat 40)) as [|k] eqn:E;
    [lia|].
  cbn [seq map]. eauto.
Qed.

(** X5. A package of the first batch without a [number] or a [carrier]
    makes the detail fetch raise before any request is made. *)
Theorem get_detailed_packages_missing_key url hdrs w packages pkg :
  In pkg (firstn 40 packages) ->
  (exists e, subscript pkg "number" = Raise e)
  \/ (exists e, subscript pkg "carrier" = Raise e) ->
  exists e, CustomsSummary.get_detailed_packages packages url hdrs w = (Raise e, w).
Proof.
  intros Hin Hbad.
  destruct (track_data_raises (firstn 40 packages) pkg Hin Hbad) as [e He].
  exists e. unfold CustomsSummary.get_detailed_packages.
  destruct packages as [|first packages]; [contradiction|].
  destruct (range_step_first (List.length (first :: packages))) as [rest ->];
    [cbn; lia|].
  cbn [CustomsSummary.get_detailed_batches].
  change (Z.to_nat 0) with 0%nat. cbn [skipn]. unfold CustomsSummary.batch_size.
  unfold bindM at 1, lift at 1. now rewrite He.
Qed.

End MoreFetch.

Lemma get_all_packages_until_short_page_witness :
  exists items,
    CustomsSummary.get_all_packages 3 Samples.list_url Samples.list_headers
      (Samples.start [ Samples.list_page (Samples.tracked "LB1") 40 83 40;
                       Samples.list_page (Samples.tracked "LB2") 40 83 40;
                       Samples.list_page (Samples.tracked "LB3") 3 83 40 ] "")
    = (Ok items,
       after (Samples.start [ Samples.list_page (Samples.tracked "LB1") 40 83 40;
                              Samples.list_page (Samples.tracked "LB2") 40 83 40;
                              Samples.list_page (Samples.tracked "LB3") 3 83 40 ] "")
             (page_requests Samples.list_url Samples.list_headers 1 3) []).
Proof.
  eexists.
  apply (get_all_packages_until_short_page Samples.list_url Samples.list_headers
           [ (Samples.list_envelope (Samples.tracked "LB1") 40 83 40,
              repeat (Samples.tracked "LB1") 40);
             (Samples.list_envelope (Samples.tracked "LB2") 40 83 40,
              repeat (Samples.tracked "LB2") 40) ]
           (Samples.list_envelope (Samples.tracked "LB3") 3 83 40)
           (repeat (Samples.tracked "LB3") 3)).
  - repeat split; vm_compute; reflexivity.
  - repeat constructor; vm_compute; lia.
  - vm_compute. lia.
  - vm_compute. lia.
Defined.

Lemma get_all_packages_never_stops_witness :
  CustomsSummary.get_all_packages 7 Samples.list_url Samples.list_headers
    (Samples.always (Samples.list_page (Samples.tracked "LB1") 40 80 40) "")
  = (OutOfFuel,
     after (Samples.always (Samples.list_page (Samples.tracked "LB1") 40 80 40) "")
           (page_requests Samples.list_url Samples.list_headers 1 7) []).
Proof.
  apply (get_all_packages_never_stops Samples.list_url Samples.list_headers _
           (Samples.list_envelope (Samples.tracked "LB1") 40 80 40)
           (repeat (Samples.tracked "LB1") 40)).
  - intros k p. vm_compute. reflexivity.
  - split; vm_compute; reflexivity.
  - vm_compute. lia.
Defined.

Lemma get_detailed_packages_batches_witness :
  fst (CustomsSummary.get_detailed_packages (repeat (Samples.tracked "LB1") 85)
         (u "https://api.17track.net/track/v2.2/gettrackinfo") Samples.list_headers
         (Samples.always
            (Samples.list_page (Samples.detailed "LB1" "alert" "Held") 1 0 40) ""))
    = Ok (List.concat
            (map (fun _ => [Samples.detailed "LB1" "alert" "Held"])
                 (batches (repeat (Samples.tracked "LB1") 85))))
  /\ List.length (batches (repeat (Samples.tracked "LB1") 85)) = 3%nat.
Proof.
  split; [| vm_compute; reflexivity].
  pose proof (get_detailed_packages_batches
                (u "https://api.17track.net/track/v2.2/gettrackinfo") Samples.list_headers
                (Samples.always
                   (Samples.list_page (Samples.detailed "LB1" "alert" "Held") 1 0 40) "")
                (fun _ => Samples.list_envelope (Samples.detailed "LB1" "alert" "Held") 1 0 40)
                (fun _ => [Samples.detailed "LB1" "alert" "Held"])
                (repeat (Samples.tracked "LB1") 85)
                (repeat (Samples.tracked "LB1") 85)) as H.
  destruct H as [H _].
  - vm_compute. reflexivity.
  - intros k rq. vm_compute. reflexivity.
  - intros rq. split; vm_compute; reflexivity.
  - rewrite H. reflexivity.
Defined.

Lemma get_detailed_packages_missing_key_witness :
  exists e,
    CustomsSummary.get_detailed_packages
      [ Samples.tracked "LB1"; VDict [ (u "number", VStr (u "LB2")) ] ]
      (u "https://api.17track.net/track/v2.2/gettrackinfo") Samples.list_headers
      (Samples.start [] "")
    = (Raise e, Samples.start [] "").
Proof.
  apply get_detailed_packages_missing_key
    with (pkg := VDict [ (u "number", VStr (u "LB2")) ]).
  - vm_compute. auto.
  - right. eexists. vm_compute. reflexivity.
Defined.
(* ================================================================== *)
(** * More on the legacy fetch *)
(* ================================================================== *)

Section MoreLegacyFetch.
Context {B : Builtins}.

Lemma _check_taxation_returns_or_raises item :
  TrackingService._check_taxation item <> OutOfFuel.
Proof.
  unfold TrackingService._check_taxation, get, lower_of, or_else, bind.
  destruct (truthy item); cbn [negb]; [| discriminate].
  destruct item as [| | | | |kv]; try discriminate.
  destruct (truthy (match assoc (u "latest_event_info") kv with
                    | Some v => v | None => VStr [] end)) eqn:T.
  - rewrite T. destruct (assoc (u "latest_event_info") kv) as [[| | | | |]|];
      try discriminate;
      destruct (existsb _ TrackingService.customs_status); discriminate.
  - cbn [truthy]. destruct (existsb _ TrackingService.customs_status); discriminate.
Qed.

Lemma package_info_returns_or_raises item :
  TrackingService.package_info item <> OutOfFuel.
Proof.
  unfold TrackingService.package_info, subscript, get, bind.
  destruct item as [| | | | |kv]; try discriminate.
  destruct (assoc (u "number") kv); discriminate.
Qed.

Lemma collect_returns_or_raises items : forall pending,
  TrackingService.collect items pending <> OutOfFuel.
Proof.
  induction items as [|item items IH]; intros pending; cbn [TrackingService.collect];
    [discriminate|].
  pose proof (_check_taxation_returns_or_raises item) as N1.
  pose proof (package_info_returns_or_raises item) as N2.
  destruct (TrackingService._check_taxation item) as [[|]| |]; cbn [bind];
    [ | apply IH | discriminate | contradiction ].
  destruct (TrackingService.package_info item); cbn [bind];
    [ apply IH | discriminate | contradiction ].
Qed.

Lemma invalid_returns_or_raises d : TrackingService.invalid d <> OutOfFuel.
Proof.
  unfold TrackingService.invalid, has, subscript, get, bind.
  destruct (truthy d); cbn [negb]; [| discriminate].
  repeat match goal with
         | |- context [match ?x with _ => _ end] => is_var x; destruct x
         | |- context [match assoc ?k ?l with _ => _ end] => destruct (assoc k l)
         | |- context [if negb ?b then _ else _] => destruct b; cbn [negb]
         end;
    discriminate.
Qed.

Lemma legacy_take_page_returns_or_raises page total pending r :
  TrackingService.take_page page total pending r <> OutOfFuel.
Proof.
  unfold TrackingService.take_page, json_of.
  destruct (body r) as [d|]; cbn [bind]; [| discriminate].
  pose proof (invalid_returns_or_raises d) as N1.
  destruct (TrackingService.invalid d) as [[|]| |]; cbn [bind];
    [ discriminate | | discriminate | contradiction ].
  pose proof (update_total_pages_returns_or_raises page total d) as N2.
  destruct (TrackingService.update_total_pages page total d); cbn [bind];
    [ | discriminate | contradiction ].
  destruct (subscript d "data") as [data| |] eqn:E1; cbn [bind];
    [ | discriminate | destruct d as [| | | | |kv]; try discriminate;
                       cbn in E1; destruct (assoc _ kv); discriminate ].
  destruct (subscript data "accepted") as [acc| |] eqn:E2; cbn [bind];
    [ | discriminate | destruct data as [| | | | |kv]; try discriminate;
                       cbn in E2; destruct (assoc _ kv); discriminate ].
  destruct (iter acc) as [items| |] eqn:E3; cbn [bind];
    [ | discriminate | destruct acc; discriminate ].
  pose proof (collect_returns_or_raises items pending) as N3.
  destruct (TrackingService.collect items pending); cbn [bind];
    [ discriminate | discriminate | contradiction ].
Qed.

(** After the first page the number of pages is not touched again. *)
Lemma legacy_take_page_keeps_total page total pending r total' pending' :
  page <> 1%Z ->
  TrackingService.take_page page total pending r = Ok (total', pending') ->
  total' = total.
Proof.
  intros Hp. unfold TrackingService.take_page.
  destruct (json_of r) as [d| |]; cbn [bind]; try discriminate.
  destruct (TrackingService.invalid d) as [[|]| |]; cbn [bind]; try discriminate.
  rewrite (update_total_pages_later d page total Hp). cbn [bind].
  destruct (subscript d "data") as [data| |]; cbn [bind]; try discriminate.
  destruct (subscript data "accepted") as [acc| |]; cbn [bind]; try discriminate.
  destruct (iter acc) as [items| |]; cbn [bind]; try discriminate.
  destruct (TrackingService.collect items pending); cbn [bind]; try discriminate.
  intros H. now injection H as <- _.
Qed.

Lemma legacy_requests_S self p n :
  legacy_requests self p (S n)
    = TrackingService.list_request self p :: legacy_requests self (p + 1) n.
Proof.
  unfold legacy_requests. cbn [seq map]. rewrite Z.add_0_r. f_equal.
  rewrite <- seq_shift, map_map. apply map_ext. intros i. f_equal. lia.
Qed.

(** The loop after its first iteration: it ends within the pages that are
    left, whatever the replies. *)
Lemma pages_from_ends self n :
  forall page total pending w,
    (1 < page)%Z ->
    (Z.to_nat (total - page + 1) <= n)%nat ->
    exists k r,
      (k <= n)%nat /\ r <> OutOfFuel /\
      forall fuel, (n < fuel)%nat ->
        TrackingService.pages_from fuel self page total pending w
          = (r, after w (legacy_requests self page k) []).
Proof.
  induction n as [|n IH]; intros page total pending w Hp Hn.
  - exists 0%nat, (Ok pending). repeat split; [lia | discriminate |].
    intros fuel Hf. destruct fuel as [|fuel]; [lia|].
    cbn [TrackingService.pages_from].
    replace (page <=? total)%Z with false by (symmetry; apply Z.leb_gt; lia).
    unfold ret. cbn. now rewrite after_nil.
  - destruct (Z.leb_spec page total) as [Hle | Hgt].
    2:{ exists 0%nat, (Ok pending). repeat split; [lia | discriminate |].
        intros fuel Hf. destruct fuel as [|fuel]; [lia|].
        cbn [TrackingService.pages_from].
        replace (page <=? total)%Z with false by (symmetry; apply Z.leb_gt; lia).
        unfold ret. cbn. now rewrite after_nil. }
    destruct (server w (List.length (sent w)) (TrackingService.list_request self page))
      as [r|e] eqn:Hr.
    2:{ exists 1%nat, (Raise e). repeat split; [lia | discriminate |].
        intros fuel Hf. destruct fuel as [|fuel]; [lia|].
        rewrite pages_from_step by assumption. rewrite Hr.
        rewrite legacy_requests_S. reflexivity. }
    pose proof (legacy_take_page_returns_or_raises page total pending r) as N.
    destruct (TrackingService.take_page page total pending r) as [[total' pending']|e|] eqn:Ht;
      [ | | contradiction ].
    2:{ exists 1%nat, (Raise e). repeat split; [lia | discriminate |].
        intros fuel Hf. destruct fuel as [|fuel]; [lia|].
        rewrite pages_from_step by assumption. rewrite Hr, Ht.
        rewrite legacy_requests_S. reflexivity. }
    assert (total' = total) as ->
      by (eapply legacy_take_page_keeps_total; [| eassumption]; lia).
    destruct (IH (page + 1)%Z total pending'
                 (after w [TrackingService.list_request self page] []))
      as (k & res & Hk & Hres & Hrun); [lia | lia |].
    exists (S k), res. repeat split; [lia | assumption |].
    intros fuel Hf. destruct fuel as [|fuel]; [lia|].
    rewrite pages_from_step by assumption. rewrite Hr, Ht.
    rewrite Hrun by lia. rewrite after_after, legacy_requests_S. reflexivity.
Qed.

(** The loop from its start: the first iteration fixes the number of
    pages, the others are bounded by it. *)
Lemma legacy_fetch_ends self w :
  exists fuel0 k r,
    (1 <= k)%nat /\ r <> OutOfFuel /\
    forall fuel, (fuel0 <= fuel)%nat ->
      TrackingService.get_packages_with_pending_customs self fuel w
        = (r, after w (legacy_requests self 1 k) []).
Proof.
  unfold TrackingService.get_packages_with_pending_customs.
  destruct (server w (List.length (sent w)) (TrackingService.list_request self 1))
    as [r|e] eqn:Hr.
  2:{ exists 1%nat, 1%nat, (Raise e). repeat split; [lia | discriminate |].
      intros fuel Hf. destruct fuel as [|fuel]; [lia|].
      rewrite pages_from_step by lia. rewrite Hr. reflexivity. }
  pose proof (legacy_take_page_returns_or_raises 1 1 [] r) as N.
  destruct (TrackingService.take_page 1 1 [] r) as [[total pending]|e|] eqn:Ht;
    [ | | contradiction ].
  2:{ exists 1%nat, 1%nat, (Raise e). repeat split; [lia | discriminate |].
      intros fuel Hf. destruct fuel as [|fuel]; [lia|].
      rewrite pages_from_step by lia. rewrite Hr, Ht. reflexivity. }
  destruct (pages_from_ends self (Z.to_nat (total - 2 + 1)) 2%Z total pending
              (after w [TrackingService.list_request self 1] []))
    as (k & res & Hk & Hres & Hrun); [lia | lia |].
  exists (S (S (Z.to_nat (total - 2 + 1)))), (S k), res.
  repeat split; [lia | assumption |].
  intros fuel Hf. destruct fuel as [|fuel]; [lia|].
  rewrite pages_from_step by lia. rewrite Hr, Ht.
  change (1 + 1)%Z with 2%Z.
  rewrite Hrun by lia. rewrite after_after, legacy_requests_S. reflexivity.
Qed.

(** X6. The legacy fetch ends when the totals that the first page reports,
    if it reports any, are whole numbers: there is then a budget beyond
    which the outcome no longer depends on the budget and is a return or an
    exception.  Its requests are for the pages 1, 2, ... in order, at least
    one, and it never sleeps.  Totals that are floats are outside this
    statement: with them the number of pages can be infinite. *)
Theorem legacy_fetch_terminates self w :
  reports_integers w (TrackingService.list_request self 1) ->
  exists fuel0 k r,
    (1 <= k)%nat /\ r <> OutOfFuel /\
    forall fuel, (fuel0 <= fuel)%nat ->
      TrackingService.get_packages_with_pending_customs self fuel w
        = (r, after w (legacy_requests self 1 k) []).
Proof. intros _. exact (legacy_fetch_ends self w). Qed.


Lemma invalid_well_formed d items :
  well_formed d items ->
  TrackingService.invalid d = Ok false
  /\ (data <- subscript d "data" ;; subscript data "accepted") = Ok (VList items).
Proof.
  intros [Hc Ha].
  destruct d as [| | | | |kv]; try discriminate.
  unfold code_is_zero in Hc. unfold accepted_of in Ha.
  destruct (assoc (u "code") kv) as [code|] eqn:Ecode; [| discriminate].
  destruct (assoc (u "data") kv) as [[| | | | |dkv]|] eqn:Edata; try discriminate.
  unfold TrackingService.invalid.
  destruct kv; [discriminate Ecode|]. cbn [truthy negb].
  unfold get, has, subscript. rewrite Ecode. cbn [bind]. rewrite Hc. cbn [negb].
  rewrite Edata. cbn [bind negb]. rewrite Ha. split; reflexivity.
Qed.

(** What is made of a well-formed page. *)
Lemma legacy_take_page_reads page total pending r d items :
  body r = Some d ->
  well_formed d items ->
  TrackingService.take_page page total pending r =
    (total' <- TrackingService.update_total_pages page total d ;;
     pending' <- TrackingService.collect items pending ;;
     Ok (total', pending')).
Proof.
  intros Hb Hw. destruct (invalid_well_formed d items Hw) as [Hi Hp].
  unfold TrackingService.take_page, json_of. rewrite Hb. cbn [bind]. rewrite Hi. cbn [bind].
  destruct (TrackingService.update_total_pages page total d); cbn [bind]; try reflexivity.
  destruct (subscript d "data") as [data| |]; cbn [bind] in *; try discriminate.
  rewrite Hp. reflexivity.
Qed.

(** The loop after its first iteration on well-formed pages: one request
    for each page that is left. *)
Lemma pages_from_served self w pages :
  forall page total pending rqs fuel,
    (1 < page)%Z ->
    legacy_served self w (List.length rqs) page pages ->
    Z.of_nat (List.length pages) = Z.max 0 (total - page + 1) ->
    (List.length pages < fuel)%nat ->
    TrackingService.pages_from fuel self page total pending (after w rqs [])
      = (Ok (pending ++ List.concat (map snd pages)),
         after w (rqs ++ legacy_requests self page (List.length pages)) []).
Proof.
  induction pages as [|[[envelope items] stored] pages IH];
    intros page total pending rqs fuel Hp Hs Hn Hf.
  - destruct fuel as [|fuel]; [cbn in Hf; lia|].
    cbn [TrackingService.pages_from].
    replace (page <=? total)%Z with false by (symmetry; apply Z.leb_gt; cbn in Hn; lia).
    cbn. unfold ret. now rewrite !app_nil_r.
  - destruct fuel as [|fuel]; [cbn in Hf; lia|].
    cbn [legacy_served] in Hs. destruct Hs as ((r & Hr & Hb) & Hw & Hc & Hrest).
    rewrite pages_from_step by (cbn [List.length] in Hn; lia).
    rewrite server_after, sent_after, length_app, Hr.
    rewrite (legacy_take_page_reads page total pending r envelope items Hb Hw).
    rewrite (update_total_pages_later envelope page total) by lia. cbn [bind].
    rewrite collect_app, Hc. cbn [bind].
    rewrite after_after. cbn [app].
    rewrite (IH (page + 1)%Z total (pending ++ stored)
               (rqs ++ [TrackingService.list_request self page]) fuel).
    + cbn [List.length map List.concat snd].
      rewrite legacy_requests_S, <- !app_assoc. reflexivity.
    + lia.
    + rewrite length_app. cbn [List.length].
      replace (List.length rqs + 1)%nat with (S (List.length rqs)) by lia. exact Hrest.
    + cbn [List.length] in Hn. lia.
    + cbn [List.length] in Hf. lia.
Qed.

(** X7. With a first page that reports [data_total] items in pages of
    [page_size], the legacy fetch asks for [(data_total + page_size - 1) //
    page_size] pages, and for one page when that number is below one; on
    well-formed pages it returns, in page order, what it stores for the
    pending items of each. *)
Theorem legacy_fetch_page_count self w envelope items stored pages data_total page_size fuel :
  legacy_served self w 0 1 ((envelope, items, stored) :: pages) ->
  reports envelope data_total page_size ->
  page_size <> 0%Z ->
  Z.of_nat (S (List.length pages))
    = Z.max 1 ((data_total + page_size - 1) / page_size) ->
  (S (List.length pages) < fuel)%nat ->
  TrackingService.get_packages_with_pending_customs self fuel w
    = (Ok (stored ++ List.concat (map snd pages)),
       after w (legacy_requests self 1 (S (List.length pages))) []).
Proof.
  intros Hs Hrep Hsize Hn Hf.
  cbn [legacy_served] in Hs. destruct Hs as ((r & Hr & Hb) & Hw & Hc & Hrest).
  rewrite Nat.add_0_r in Hr.
  unfold TrackingService.get_packages_with_pending_customs.
  destruct fuel as [|fuel]; [lia|].
  rewrite pages_from_step by lia. rewrite Hr.
  rewrite (legacy_take_page_reads 1 1 [] r envelope items Hb Hw).
  rewrite (update_total_pages_reports envelope data_total page_size 1 Hrep Hsize).
  cbn [bind]. rewrite Hc. cbn [bind]. change (1 + 1)%Z with 2%Z.
  rewrite (pages_from_served self w pages 2%Z _ stored
             [TrackingService.list_request self 1] fuel).
  - rewrite legacy_requests_S. reflexivity.
  - lia.
  - exact Hrest.
  - lia.
  - lia.
Qed.

(** X8. A first page without a [page] entry leaves the number of pages at
    one: the legacy fetch makes that one request and returns what the
    first page holds, however many items the provider has. *)
Theorem legacy_fetch_no_page_entry self w kv items stored fuel :
  answers w 0 (TrackingService.list_request self 1) (VDict kv) ->
  well_formed (VDict kv) items ->
  assoc (u "page") kv = None ->
  TrackingService.collect items [] = Ok stored ->
  (2 <= fuel)%nat ->
  TrackingService.get_packages_with_pending_customs self fuel w
    = (Ok stored, after w [TrackingService.list_request self 1] []).
Proof.
  intros (r & Hr & Hb) Hw Hpage Hc Hf. rewrite Nat.add_0_r in Hr.
  unfold TrackingService.get_packages_with_pending_customs.
  destruct fuel as [|[|fuel]]; try lia.
  rewrite pages_from_step by lia. rewrite Hr.
  rewrite (legacy_take_page_reads 1 1 [] r (VDict kv) items Hb Hw).
  unfold TrackingService.update_total_pages, has. cbn [Z.eqb Pos.eqb bind].
  rewrite Hpage. cbn [bind]. rewrite Hc. cbn [bind].
  cbn [TrackingService.pages_from]. change (1 + 1 <=? 1)%Z with false. reflexivity.
Qed.

(** X9. A first page that reports a page size of zero makes the legacy
    fetch raise [ZeroDivisionError] after its first request. *)
Theorem legacy_fetch_zero_page_size self w envelope items data_total fuel :
  answers w 0 (TrackingService.list_request self 1) envelope ->
  well_formed envelope items ->
  reports envelope data_total 0 ->
  (1 <= fuel)%nat ->
  TrackingService.get_packages_with_pending_customs self fuel w
    = (Raise ZeroDivisionError, after w [TrackingService.list_request self 1] []).
Proof.
  intros (r & Hr & Hb) Hw (kv & page & -> & Hp & Ht & Hs) Hf. rewrite Nat.add_0_r in Hr.
  unfold TrackingService.get_packages_with_pending_customs.
  destruct fuel as [|fuel]; [lia|].
  rewrite pages_from_step by lia. rewrite Hr.
  rewrite (legacy_take_page_reads 1 1 [] r (VDict kv) items Hb Hw).
  unfold TrackingService.update_total_pages, has, subscript, get.
  cbn [Z.eqb Pos.eqb bind]. rewrite Hp. cbn [bind]. rewrite Ht, Hs. reflexivity.
Qed.

End MoreLegacyFetch.

Lemma legacy_fetch_terminates_witness :
  exists fuel0 k r,
    (1 <= k)%nat /\ r <> OutOfFuel /\
    forall fuel, (fuel0 <= fuel)%nat ->
      TrackingService.get_packages_with_pending_customs (B := Latin1)
          Samples.legacy_tracking fuel
          (Samples.start
             [ Samples.list_page (Samples.listed "LB1" "CustomsHold" "Held by customs")
                 2 2 40 ] "")
        = (r, after (Samples.start
                       [ Samples.list_page
                           (Samples.listed "LB1" "CustomsHold" "Held by customs")
                           2 2 40 ] "")
                    (legacy_requests Samples.legacy_tracking 1 k) []).
Proof.
  apply (@legacy_fetch_terminates Latin1 Samples.legacy_tracking).
  intros r envelope Hr Hb.
  vm_compute in Hr. injection Hr as <-.
  vm_compute in Hb. injection Hb as <-.
  vm_compute. reflexivity.
Defined.

Lemma legacy_fetch_page_count_witness :
  exists stored,
    TrackingService.get_packages_with_pending_customs (B := Latin1)
      Samples.legacy_tracking 3
      (Samples.start
         [ Samples.list_page (Samples.listed "LB1" "CustomsHold" "Held") 2 41 40;
           Samples.list_page (Samples.listed "LB2" "InTransit" "Import tax due") 1 41 40 ] "")
    = (Ok stored,
       after (Samples.start
                [ Samples.list_page (Samples.listed "LB1" "CustomsHold" "Held") 2 41 40;
                  Samples.list_page (Samples.listed "LB2" "InTransit" "Import tax due") 1
                    41 40 ] "")
             (legacy_requests Samples.legacy_tracking 1 2) []).
Proof.
  eexists.
  eapply (@legacy_fetch_page_count Latin1 Samples.legacy_tracking _
            (Samples.list_envelope (Samples.listed "LB1" "CustomsHold" "Held") 2 41 40)
            (repeat (Samples.listed "LB1" "CustomsHold" "Held") 2) _
            [ (Samples.list_envelope (Samples.listed "LB2" "InTransit" "Import tax due") 1 41 40,
               repeat (Samples.listed "LB2" "InTransit" "Import tax due") 1, _) ]
            41 40).
  - cbn [legacy_served].
    refine (conj _ (conj _ (conj _ (conj _ (conj _ (conj _ I)))))).
    + eexists. split; vm_compute; reflexivity.
    + split; vm_compute; reflexivity.
    + vm_compute. reflexivity.
    + eexists. split; vm_compute; reflexivity.
    + split; vm_compute; reflexivity.
    + vm_compute. reflexivity.
  - do 2 eexists. repeat split; vm_compute; reflexivity.
  - discriminate.
  - vm_compute. reflexivity.
  - vm_compute. lia.
Defined.

Lemma legacy_fetch_no_page_entry_witness :
  exists stored,
    TrackingService.get_packages_with_pending_customs (B := Latin1)
      Samples.legacy_tracking 2
      (Samples.start
         [ Responds (Samples.ok_json
             (VDict [ (u "code", VInt 0);
                      (u "data", VDict [ (u "accepted",
                         VList (repeat (Samples.listed "LB1" "CustomsHold" "Held") 40)) ]) ]));
           Samples.list_page (Samples.listed "LB2" "CustomsHold" "Held") 5 45 40 ] "")
    = (Ok stored,
       after (Samples.start
         [ Responds (Samples.ok_json
             (VDict [ (u "code", VInt 0);
                      (u "data", VDict [ (u "accepted",
                         VList (repeat (Samples.listed "LB1" "CustomsHold" "Held") 40)) ]) ]));
           Samples.list_page (Samples.listed "LB2" "CustomsHold" "Held") 5 45 40 ] "")
         [ TrackingService.list_request Samples.legacy_tracking 1 ] []).
Proof.
  eexists.
  eapply (@legacy_fetch_no_page_entry Latin1 Samples.legacy_tracking _ _
            (repeat (Samples.listed "LB1" "CustomsHold" "Held") 40)).
  - eexists. split; vm_compute; reflexivity.
  - split; vm_compute; reflexivity.
  - vm_compute. reflexivity.
  - vm_compute. reflexivity.
  - lia.
Defined.

Lemma legacy_fetch_zero_page_size_witness :
  TrackingService.get_packages_with_pending_customs (B := Latin1)
    Samples.legacy_tracking 5
    (Samples.start [ Samples.list_page (Samples.listed "LB1" "CustomsHold" "Held") 2 85 0 ] "")
  = (Raise ZeroDivisionError,
     after (Samples.start
              [ Samples.list_page (Samples.listed "LB1" "CustomsHold" "Held") 2 85 0 ] "")
           [ TrackingService.list_request Samples.legacy_tracking 1 ] []).
Proof.
  eapply (@legacy_fetch_zero_page_size Latin1 Samples.legacy_tracking _
            (Samples.list_envelope (Samples.listed "LB1" "CustomsHold" "Held") 2 85 0)
            (repeat (Samples.listed "LB1" "CustomsHold" "Held") 2) 85).
  - eexists. split; vm_compute; reflexivity.
  - split; vm_compute; reflexivity.
  - do 2 eexists. repeat split; vm_compute; reflexivity.
  - lia.
Defined.
(* ================================================================== *)
(** * More on the classifiers *)
(* ================================================================== *)

Section MoreClassifier.
Context {B : Builtins}.

(** What the [try] of [check_taxation] comes to on a JSON object. *)
Lemma check_taxation_object kv :
  CustomsSummary.check_taxation (VDict kv) =
    match CustomsSummary.check_taxation_body (VDict kv) with
    | Ok b => Ok b
    | _ => Ok false
    end.
Proof.
  unfold CustomsSummary.check_taxation, try_except.
  assert (N : CustomsSummary.check_taxation_body (VDict kv) <> OutOfFuel).
  { unfold CustomsSummary.check_taxation_body, get, lower_of, bind.
    repeat match goal with
           | |- context [match assoc ?k ?l with _ => _ end] => destruct (assoc k l)
           | |- context [match ?x with _ => _ end] => is_var x; destruct x
           | |- context [match or_else ?a ?b with _ => _ end] => destruct (or_else a b)
           | |- context [if negb (truthy ?b) then _ else _] => destruct (truthy b); cbn [negb]
           | |- context [if existsb ?f ?l then _ else _] => destruct (existsb f l)
           end;
      discriminate. }
  destruct (CustomsSummary.check_taxation_body (VDict kv)); [reflexivity | reflexivity |].
  contradiction.
Qed.

(** X10. [check_taxation] answers on every JSON object, however its fields
    are made, and raises [AttributeError] on any other value: its handler
    reads the number of the package with [package.get]. *)
Theorem check_taxation_total package :
  match package with
  | VDict _ => exists b, CustomsSummary.check_taxation package = Ok b
  | _ => CustomsSummary.check_taxation package = Raise AttributeError
  end.
Proof.
  destruct package as [| | | | |kv]; try reflexivity.
  rewrite check_taxation_object.
  destruct (CustomsSummary.check_taxation_body (VDict kv)); eauto.
Qed.

(** X11. [check_taxation] answers [True] only with a reason: the status
    and the description of the package read as text, and the status is one
    of the three problem statuses or the description contains a keyword. *)
Theorem check_taxation_true_has_reason package :
  CustomsSummary.check_taxation package = Ok true ->
  exists s d,
    CustomsSummary.status_of package = Ok s
    /\ CustomsSummary.description_of package = Ok d
    /\ (In (lower s) CustomsSummary.problem_status
        \/ exists kw, In kw CustomsSummary.customs_keywords
                      /\ contains kw (lower d) = true).
Proof.
  destruct package as [| | | | |kv]; try discriminate.
  rewrite check_taxation_object.
  unfold CustomsSummary.check_taxation_body, CustomsSummary.status_of,
    CustomsSummary.description_of.
  destruct (get (VDict kv) "track_info" (VDict [])) as [ti| |]; cbn [bind]; try discriminate.
  destruct (truthy ti); cbn [negb]; [| discriminate].
  destruct (get ti "latest_event" (VDict [])) as [le| |]; cbn [bind]; try discriminate.
  destruct (get ti "latest_status" (VDict [])) as [ls| |]; cbn [bind]; try discriminate.
  destruct (get (or_else ls (VDict [])) "status" VNone) as [st| |]; cbn [bind];
    try discriminate.
  unfold lower_of, text_of.
  destruct (or_else st (VStr [])) as [| | |s| |]; cbn [bind]; try discriminate.
  destruct (get (or_else le (VDict [])) "description" VNone) as [de| |]; cbn [bind];
    try discriminate.
  destruct (or_else de (VStr [])) as [| | |d| |]; cbn [bind]; try discriminate.
  intros H. exists s, d. split; [reflexivity | split; [reflexivity|]].
  destruct (existsb (str_eqb (lower s)) CustomsSummary.problem_status) eqn:Es.
  - left. now apply existsb_str_eqb.
  - destruct (existsb (fun keyword => contains keyword (lower d))
                CustomsSummary.customs_keywords) eqn:Ek; [| discriminate].
    right. apply existsb_exists in Ek as [kw [Hin Hc]]. eauto.
Qed.

(** X12. [_check_taxation] answers [True] only with a reason: the item is
    a JSON object whose event text reads, and its [package_status] is one of
    the four customs codes or the text contains a keyword, case ignored. *)
Theorem _check_taxation_true_has_reason item :
  TrackingService._check_taxation item = Ok true ->
  exists st d,
    get item "package_status" (VStr []) = Ok st
    /\ TrackingService.event_info_of item = Ok d
    /\ (existsb (eq_str st) TrackingService.customs_status = true
        \/ exists kw, In kw TrackingService.customs_keywords
                      /\ contains (lower kw) (lower d) = true).
Proof.
  unfold TrackingService._check_taxation, TrackingService.event_info_of.
  destruct (truthy item); cbn [negb]; [| discriminate].
  destruct (get item "package_status" (VStr [])) as [st| |]; cbn [bind]; try discriminate.
  destruct (get item "latest_event_info" (VStr [])) as [le| |]; cbn [bind]; try discriminate.
  unfold text_of, lower_of.
  destruct (truthy (or_else le (VStr []))) eqn:T.
  - destruct (or_else le (VStr [])) as [| | |d| |]; cbn [bind]; try discriminate.
    intros H. exists st, d. split; [reflexivity | split; [reflexivity|]].
    destruct (existsb (eq_str st) TrackingService.customs_status); [now left|].
    destruct (existsb (fun keyword => contains (lower keyword) (lower d))
                TrackingService.customs_keywords) eqn:Ek; [| discriminate].
    right. apply existsb_exists in Ek as [kw [Hin Hc]]. eauto.
  - cbn [bind]. intros H.
    assert (Hd : or_else le (VStr []) = VStr []).
    { unfold or_else in *. destruct (truthy le) eqn:Tl; [congruence | reflexivity]. }
    rewrite Hd. exists st, []. split; [reflexivity | split; [reflexivity|]].
    rewrite lower_nil.
    destruct (existsb (eq_str st) TrackingService.customs_status); [now left|].
    destruct (existsb (fun keyword => contains (lower keyword) [])
                TrackingService.customs_keywords) eqn:Ek; [| discriminate].
    right. apply existsb_exists in Ek as [kw [Hin Hc]]. eauto.
Qed.

End MoreClassifier.

Lemma check_taxation_true_has_reason_witness :
  exists s d,
    CustomsSummary.status_of (Samples.detailed "LB1" "Expired" "No news") = Ok s
    /\ CustomsSummary.description_of (Samples.detailed "LB1" "Expired" "No news") = Ok d
    /\ (In (lower (Builtins := Latin1) s) CustomsSummary.problem_status
        \/ exists kw, In kw CustomsSummary.customs_keywords
                      /\ contains kw (lower (Builtins := Latin1) d) = true).
Proof.
  apply (@check_taxation_true_has_reason Latin1).
  vm_compute. reflexivity.
Defined.

Lemma _check_taxation_true_has_reason_witness :
  exists st d,
    get (Samples.listed "LB1" "InTransit" "Import TAX due") "package_status" (VStr []) = Ok st
    /\ TrackingService.event_info_of (Samples.listed "LB1" "InTransit" "Import TAX due") = Ok d
    /\ (existsb (eq_str st) TrackingService.customs_status = true
        \/ exists kw, In kw TrackingService.customs_keywords
                      /\ contains (lower (Builtins := Latin1) kw)
                                  (lower (Builtins := Latin1) d) = true).
Proof.
  apply (@_check_taxation_true_has_reason Latin1).
  vm_compute. reflexivity.
Defined.

(* ================================================================== *)
(** * More on the translation and the formatter *)
(* ================================================================== *)

Section MoreFormatter.
Context {B : Builtins}.

Lemma replace_absent old new s :
  old <> [] -> contains old s = false -> replace old new s = s.
Proof.
  intros Hne. destruct old as [|o old]; [congruence|]. cbn [replace].
  induction s as [|c s IH]; [reflexivity|].
  cbn [contains replace_from]. intros H.
  apply orb_false_iff in H as [Hs Hc]. rewrite Hs. f_equal. now apply IH.
Qed.

Lemma translate_absent table : forall s,
  forallb (fun p => negb (str_eqb (fst p) [])) table = true ->
  forallb (fun p => negb (contains (fst p) s)) table = true ->
  fold_left (fun translated p => replace (fst p) (snd p) translated) table s = s.
Proof.
  induction table as [|[eng pt] table IH]; intros s Hne Habs; [reflexivity|].
  cbn [forallb fst snd fold_left] in *.
  apply andb_true_iff in Hne as [Hne1 Hne2]. apply andb_true_iff in Habs as [Ha1 Ha2].
  rewrite replace_absent.
  - now apply IH.
  - intros ->. discriminate.
  - now apply negb_true_iff.
Qed.

(** X13. [translate_event] leaves alone a text in which none of the ten
    English phrases of its table occurs. *)
Theorem translate_event_unchanged s :
  forallb (fun p => negb (contains (fst p) s)) CustomsSummary.translations = true ->
  CustomsSummary.translate_event (VStr s) = Ok s.
Proof.
  intros H. unfold CustomsSummary.translate_event. f_equal.
  apply translate_absent; [vm_compute; reflexivity | exact H].
Qed.

(** The loop body, with its result made explicit: the package is skipped,
    or it adds one line to one list. *)
Lemma add_package_cases g pkg g' :
  CustomsSummary.add_package g pkg = Ok g' ->
  g' = g
  \/ (exists line event,
        g' = {| CustomsSummary.taxas_pendentes := CustomsSummary.taxas_pendentes g ++ [line];
                CustomsSummary.em_alerta := CustomsSummary.em_alerta g;
                CustomsSummary.com_problemas := CustomsSummary.com_problemas g;
                CustomsSummary.mensagem_taxa :=
                  if CustomsSummary.no_message (CustomsSummary.mensagem_taxa g)
                  then Some event else CustomsSummary.mensagem_taxa g |})
  \/ (exists line,
        g' = {| CustomsSummary.taxas_pendentes := CustomsSummary.taxas_pendentes g;
                CustomsSummary.em_alerta := CustomsSummary.em_alerta g ++ [line];
                CustomsSummary.com_problemas := CustomsSummary.com_problemas g;
                CustomsSummary.mensagem_taxa := CustomsSummary.mensagem_taxa g |})
  \/ (exists line,
        g' = {| CustomsSummary.taxas_pendentes := CustomsSummary.taxas_pendentes g;
                CustomsSummary.em_alerta := CustomsSummary.em_alerta g;
                CustomsSummary.com_problemas := CustomsSummary.com_problemas g ++ [line];
                CustomsSummary.mensagem_taxa := CustomsSummary.mensagem_taxa g |}).
Proof.
  unfold CustomsSummary.add_package.
  destruct (truthy pkg); cbn [negb]; [| intros H; injection H as <-; auto].
  destruct (get pkg "track_info" VNone) as [ti| |]; cbn [bind]; try discriminate.
  destruct (truthy ti); cbn [negb]; [| intros H; injection H as <-; auto].
  destruct (subscript pkg "track_info") as [track_info| |]; cbn [bind]; try discriminate.
  destruct (get track_info "latest_event" (VDict [])) as [le| |]; cbn [bind]; try discriminate.
  destruct (get track_info "latest_status" (VDict [])) as [ls| |]; cbn [bind];
    try discriminate.
  destruct (get pkg "number" (VStr (u "N/A"))) as [number| |]; cbn [bind]; try discriminate.
  destruct (get (or_else ls (VDict [])) "status" VNone) as [st| |]; cbn [bind];
    try discriminate.
  destruct (lower_of (or_else st (VStr []))) as [status| |]; cbn [bind]; try discriminate.
  destruct (get (or_else le (VDict [])) "description" (VStr [])) as [description| |];
    cbn [bind]; try discriminate.
  destruct (CustomsSummary.translate_event description) as [event| |]; cbn [bind];
    try discriminate.
  destruct (contains (u "retornando ao remetente") (lower event)).
  { intros H; injection H as <-. right. right. right. eauto. }
  destruct (existsb _ CustomsSummary.customs_keywords).
  { intros H; injection H as <-. right. left. eauto. }
  destruct (str_eqb status (u "alert")).
  { intros H; injection H as <-. right. right. left. eauto. }
  destruct (existsb _ _); intros H; injection H as <-; auto.
  right. right. right. eauto.
Qed.

(** Once a message is remembered, no later package changes it. *)
Lemma remembered_message_is_kept packages : forall g g',
  CustomsSummary.no_message (CustomsSummary.mensagem_taxa g) = false ->
  CustomsSummary.add_packages g packages = Ok g' ->
  CustomsSummary.mensagem_taxa g' = CustomsSummary.mensagem_taxa g.
Proof.
  induction packages as [|pkg packages IH]; intros g g' Hm H;
    cbn [CustomsSummary.add_packages] in H.
  - now injection H as <-.
  - destruct (CustomsSummary.add_package g pkg) as [g1| |] eqn:E; cbn [bind] in H;
      try discriminate.
    assert (H1 : CustomsSummary.mensagem_taxa g1 = CustomsSummary.mensagem_taxa g).
    { destruct (add_package_cases g pkg g1 E)
        as [-> | [(line & event & ->) | [(line & ->) | (line & ->)]]];
        cbn [CustomsSummary.mensagem_taxa]; try reflexivity.
      now rewrite Hm. }
    rewrite <- H1. apply IH; [now rewrite H1 | exact H].
Qed.

(** The customs block only grows. *)
Lemma customs_block_grows packages : forall g g',
  CustomsSummary.add_packages g packages = Ok g' ->
  exists added,
    CustomsSummary.taxas_pendentes g' = CustomsSummary.taxas_pendentes g ++ added.
Proof.
  induction packages as [|pkg packages IH]; intros g g' H;
    cbn [CustomsSummary.add_packages] in H.
  - injection H as <-. exists []. now rewrite app_nil_r.
  - destruct (CustomsSummary.add_package g pkg) as [g1| |] eqn:E; cbn [bind] in H;
      try discriminate.
    destruct (IH g1 g' H) as (added & ->).
    destruct (add_package_cases g pkg g1 E)
      as [-> | [(line & event & ->) | [(line & ->) | (line & ->)]]];
      cbn [CustomsSummary.taxas_pendentes]; eauto.
    rewrite <- app_assoc. eauto.
Qed.

(** While the customs block is as it was, no message has been
    remembered. *)
Lemma no_customs_no_message packages : forall g g',
  CustomsSummary.mensagem_taxa g = None ->
  CustomsSummary.add_packages g packages = Ok g' ->
  CustomsSummary.taxas_pendentes g' = CustomsSummary.taxas_pendentes g ->
  CustomsSummary.mensagem_taxa g' = None.
Proof.
  induction packages as [|pkg packages IH]; intros g g' Hm H Ht;
    cbn [CustomsSummary.add_packages] in H.
  - now injection H as <-.
  - destruct (CustomsSummary.add_package g pkg) as [g1| |] eqn:E; cbn [bind] in H;
      try discriminate.
    destruct (customs_block_grows packages g1 g' H) as (added & Ha).
    destruct (add_package_cases g pkg g1 E)
      as [-> | [(line & event & ->) | [(line & ->) | (line & ->)]]];
      cbn [CustomsSummary.taxas_pendentes CustomsSummary.mensagem_taxa] in *;
      try (eapply IH; [ | exact H | exact Ht]; exact Hm).
    exfalso. rewrite Ha, <- app_assoc in Ht.
    apply (f_equal (@List.length str)) in Ht. rewrite !length_app in Ht.
    cbn [List.length] in Ht. lia.
Qed.

Lemma get_dict kv (k : string) d :
  get (VDict kv) k d = Ok (match assoc (u k) kv with Some v => v | None => d end).
Proof. reflexivity. Qed.

Lemma subscript_dict kv (k : string) :
  subscript (VDict kv) k
    = match assoc (u k) kv with Some v => Ok v | None => Raise (KeyError k) end.
Proof. reflexivity. Qed.

(** The loop body when it adds to the customs block: the line is the number
    of the package, and the event offered as the message is the package's
    translated event, which is not empty. *)
Lemma add_package_customs g pkg g' :
  CustomsSummary.add_package g pkg = Ok g' ->
  CustomsSummary.taxas_pendentes g' <> CustomsSummary.taxas_pendentes g ->
  exists number event,
    CustomsSummary.event_of pkg = Ok event
    /\ event <> []
    /\ g' = {| CustomsSummary.taxas_pendentes := CustomsSummary.taxas_pendentes g ++
                 [u "*" ++ to_str number ++ u "*"];
               CustomsSummary.em_alerta := CustomsSummary.em_alerta g;
               CustomsSummary.com_problemas := CustomsSummary.com_problemas g;
               CustomsSummary.mensagem_taxa :=
                 if CustomsSummary.no_message (CustomsSummary.mensagem_taxa g)
                 then Some event else CustomsSummary.mensagem_taxa g |}.
Proof.
  unfold CustomsSummary.add_package, CustomsSummary.event_of.
  destruct pkg as [| |z|s|l|kv].
  1-5: (destruct (truthy _); cbn [negb get bind]; intros H Hne;
        [discriminate H | injection H as <-; contradiction]).
  destruct (truthy (VDict kv)); cbn [negb];
    [| intros H Hne; injection H as <-; contradiction].
  rewrite !get_dict, subscript_dict.
  destruct (assoc (u "track_info") kv) as [ti|]; cbn [bind truthy negb];
    [| intros H Hne; injection H as <-; contradiction].
  destruct (truthy ti); cbn [negb bind];
    [| intros H Hne; injection H as <-; contradiction].
  destruct (get ti "latest_event" (VDict [])) as [le| |]; cbn [bind]; try discriminate.
  destruct (get ti "latest_status" (VDict [])) as [ls| |]; cbn [bind];
    try discriminate.
  destruct (get (or_else ls (VDict [])) "status" VNone) as [st| |]; cbn [bind];
    try discriminate.
  destruct (lower_of (or_else st (VStr []))) as [status| |]; cbn [bind]; try discriminate.
  destruct (get (or_else le (VDict [])) "description" (VStr [])) as [description| |];
    cbn [bind]; try discriminate.
  destruct (CustomsSummary.translate_event description) as [event| |]; cbn [bind];
    try discriminate.
  destruct (contains (u "retornando ao remetente") (lower event)).
  { intros H Hne; injection H as <-; contradiction. }
  destruct (existsb (fun keyword => contains keyword (lower event))
              CustomsSummary.customs_keywords) eqn:Ek.
  { intros H _. injection H as <-. eexists _, event. split; [reflexivity|].
    split; [| reflexivity].
    apply existsb_exists in Ek as (kw & Hin & Hkw).
    destruct (lower_keyword kw (or_introl Hin)) as [_ Hne].
    exact (contains_lower_nonempty _ _ Hne Hkw). }
  destruct (str_eqb status (u "alert")).
  { intros H Hne; injection H as <-; contradiction. }
  destruct (existsb (str_eqb status) [u "expired"; u "undelivered"]);
    intros H Hne; injection H as <-; contradiction.
Qed.

Lemma add_packages_app l1 l2 : forall g,
  CustomsSummary.add_packages g (l1 ++ l2)
    = (g1 <- CustomsSummary.add_packages g l1 ;; CustomsSummary.add_packages g1 l2).
Proof.
  induction l1 as [|pkg l1 IH]; intros g; cbn [app CustomsSummary.add_packages bind];
    [reflexivity|].
  destruct (CustomsSummary.add_package g pkg); cbn [bind]; auto.
Qed.

(** The message for groups with a customs block and a remembered message:
    the block, then the status line with the message. *)
Lemma compose_status_line g event :
  CustomsSummary.taxas_pendentes g <> [] ->
  CustomsSummary.mensagem_taxa g = Some event ->
  event <> [] ->
  exists tail,
    CustomsSummary.compose g
      = CustomsSummary.header ++ nl ++ u "💰 *Taxas Pendentes:*" ++ nl ++
        join nl (CustomsSummary.taxas_pendentes g) ++ nl ++ nl ++
        u "_Status: " ++ event ++ u "_" ++ tail.
Proof.
  intros Ht Hm He. unfold CustomsSummary.compose. rewrite Hm.
  destruct (CustomsSummary.taxas_pendentes g) as [|t ts]; [congruence|].
  destruct event as [|c event]; [congruence|]. cbn [CustomsSummary.no_message].
  destruct (CustomsSummary.em_alerta g) as [|a als];
    destruct (CustomsSummary.com_problemas g) as [|p ps];
    cbv zeta; rewrite <- ?app_assoc.
  - exists []. now rewrite app_nil_r.
  - eexists. reflexivity.
  - eexists. reflexivity.
  - eexists. reflexivity.
Qed.

(** X14. The status line of the customs block shows the event of the first
    package put in that block.  For a list that consists of packages that
    leave the customs block empty, then a package that is put in it, then
    any packages: the message remembered at the end is the translated event
    of that package, whatever comes after it, and the message returned has
    the customs block followed by the status line with that event. *)
Theorem customs_status_line_is_first_event before pkg rest g1 g2 g' :
  CustomsSummary.add_packages CustomsSummary.no_groups before = Ok g1 ->
  CustomsSummary.taxas_pendentes g1 = [] ->
  CustomsSummary.add_package g1 pkg = Ok g2 ->
  CustomsSummary.taxas_pendentes g2 <> [] ->
  CustomsSummary.add_packages g2 rest = Ok g' ->
  exists event tail,
    CustomsSummary.event_of pkg = Ok event
    /\ CustomsSummary.mensagem_taxa g' = Some event
    /\ CustomsSummary.format_summary_message (before ++ pkg :: rest)
       = Ok (CustomsSummary.header ++ nl ++ u "💰 *Taxas Pendentes:*" ++ nl ++
             join nl (CustomsSummary.taxas_pendentes g') ++ nl ++ nl ++
             u "_Status: " ++ event ++ u "_" ++ tail).
Proof.
  intros Hb Hempty Hp Hin Hr.
  assert (Hnone : CustomsSummary.mensagem_taxa g1 = None).
  { apply (no_customs_no_message before CustomsSummary.no_groups g1);
      [reflexivity | exact Hb | now rewrite Hempty]. }
  destruct (add_package_customs g1 pkg g2 Hp) as (number & event & He & Hne & Hg2).
  { now rewrite Hempty. }
  assert (Hm2 : CustomsSummary.mensagem_taxa g2 = Some event).
  { rewrite Hg2. cbn [CustomsSummary.mensagem_taxa]. now rewrite Hnone. }
  assert (Hm : CustomsSummary.mensagem_taxa g' = Some event).
  { rewrite <- Hm2. apply (remembered_message_is_kept rest); [| exact Hr].
    rewrite Hm2. destruct event; [congruence | reflexivity]. }
  assert (Ht : CustomsSummary.taxas_pendentes g' <> []).
  { destruct (customs_block_grows rest g2 g' Hr) as (added & ->).
    destruct (CustomsSummary.taxas_pendentes g2); [congruence | discriminate]. }
  destruct (compose_status_line g' event Ht Hm Hne) as (tail & Hc).
  exists event, tail. split; [exact He|]. split; [exact Hm|].
  rewrite <- Hc. unfold CustomsSummary.format_summary_message.
  destruct (before ++ pkg :: rest) as [|p l] eqn:El.
  { destruct before; discriminate El. }
  rewrite <- El, add_packages_app, Hb. cbn [bind CustomsSummary.add_packages].
  rewrite Hp. cbn [bind]. now rewrite Hr.
Qed.


(** X15. The lists only grow, at their end: what was in a block before a
    run of the loop is there after it, at the same place. *)
Theorem add_packages_extends packages : forall g g',
  CustomsSummary.add_packages g packages = Ok g' ->
  exists customs alert problems,
    CustomsSummary.taxas_pendentes g' = CustomsSummary.taxas_pendentes g ++ customs
    /\ CustomsSummary.em_alerta g' = CustomsSummary.em_alerta g ++ alert
    /\ CustomsSummary.com_problemas g' = CustomsSummary.com_problemas g ++ problems
    /\ (List.length customs + List.length alert + List.length problems
        <= List.length packages)%nat.
Proof.
  induction packages as [|pkg packages IH]; intros g g' H;
    cbn [CustomsSummary.add_packages] in H.
  - injection H as <-. exists [], [], []. rewrite !app_nil_r. cbn. auto.
  - destruct (CustomsSummary.add_package g pkg) as [g1| |] eqn:E; cbn [bind] in H;
      try discriminate.
    destruct (IH g1 g' H) as (c & a & p & Hc & Ha & Hp & Hlen).
    rewrite Hc, Ha, Hp.
    destruct (add_package_cases g pkg g1 E)
      as [-> | [(line & event & ->) | [(line & ->) | (line & ->)]]];
      cbn [CustomsSummary.taxas_pendentes CustomsSummary.em_alerta
           CustomsSummary.com_problemas].
    + exists c, a, p. cbn [List.length]. repeat split; auto.
    + exists (line :: c), a, p. rewrite <- app_assoc. cbn [List.length app].
      repeat split; auto. lia.
    + exists c, (line :: a), p. rewrite <- app_assoc. cbn [List.length app].
      repeat split; auto. lia.
    + exists c, a, (line :: p). rewrite <- app_assoc. cbn [List.length app].
      repeat split; auto. lia.
Qed.

Lemma compose_starts_with_header g :
  exists rest, CustomsSummary.compose g = CustomsSummary.header ++ rest.
Proof.
  unfold CustomsSummary.compose.
  destruct (CustomsSummary.taxas_pendentes g) as [|t ts];
    destruct (CustomsSummary.em_alerta g) as [|a als];
    destruct (CustomsSummary.com_problemas g) as [|p ps];
    destruct (CustomsSummary.no_message (CustomsSummary.mensagem_taxa g));
    cbv zeta; rewrite <- ?app_assoc; eauto using app_nil_r.
  all: try (exists []; now rewrite app_nil_r).
Qed.

(** X16. The no-pending message is the answer to the empty list only: the
    message for a non-empty list starts with the header, whatever its
    packages. *)
Theorem no_pending_only_for_empty packages message :
  CustomsSummary.format_summary_message packages = Ok message ->
  (packages = [] /\ message = CustomsSummary.no_pending)
  \/ (packages <> [] /\ startswith CustomsSummary.header message = true
      /\ str_eqb message CustomsSummary.no_pending = false).
Proof.
  unfold CustomsSummary.format_summary_message.
  destruct packages as [|pkg packages].
  - intros H. injection H as <-. now left.
  - destruct (CustomsSummary.add_packages _ _) as [g| |]; cbn [bind]; try discriminate.
    intros H. injection H as <-. right.
    destruct (compose_starts_with_header g) as [rest ->].
    split; [discriminate | split; reflexivity].
Qed.


(** The loop body on a package whose status reads and is not empty, and
    whose event reads. *)
Lemma add_package_with_status g pkg s event :
  CustomsSummary.status_of pkg = Ok s ->
  s <> [] ->
  CustomsSummary.event_of pkg = Ok event ->
  exists number,
    CustomsSummary.add_package g pkg =
      if contains (u "retornando ao remetente") (lower event) then
        Ok {| CustomsSummary.taxas_pendentes := CustomsSummary.taxas_pendentes g;
              CustomsSummary.em_alerta := CustomsSummary.em_alerta g;
              CustomsSummary.com_problemas := CustomsSummary.com_problemas g ++
                [u "*" ++ to_str number ++ u "*: " ++ event];
              CustomsSummary.mensagem_taxa := CustomsSummary.mensagem_taxa g |}
      else if existsb (fun keyword => contains keyword (lower event))
                CustomsSummary.customs_keywords then
        Ok {| CustomsSummary.taxas_pendentes := CustomsSummary.taxas_pendentes g ++
                [u "*" ++ to_str number ++ u "*"];
              CustomsSummary.em_alerta := CustomsSummary.em_alerta g;
              CustomsSummary.com_problemas := CustomsSummary.com_problemas g;
              CustomsSummary.mensagem_taxa :=
                if CustomsSummary.no_message (CustomsSummary.mensagem_taxa g)
                then Some event else CustomsSummary.mensagem_taxa g |}
      else if str_eqb (lower s) (u "alert") then
        Ok {| CustomsSummary.taxas_pendentes := CustomsSummary.taxas_pendentes g;
              CustomsSummary.em_alerta := CustomsSummary.em_alerta g ++
                [u "*" ++ to_str number ++ u "*: " ++ event];
              CustomsSummary.com_problemas := CustomsSummary.com_problemas g;
              CustomsSummary.mensagem_taxa := CustomsSummary.mensagem_taxa g |}
      else if existsb (str_eqb (lower s)) [u "expired"; u "undelivered"] then
        Ok {| CustomsSummary.taxas_pendentes := CustomsSummary.taxas_pendentes g;
              CustomsSummary.em_alerta := CustomsSummary.em_alerta g;
              CustomsSummary.com_problemas := CustomsSummary.com_problemas g ++
                [u "*" ++ to_str number ++ u "*: " ++ event];
              CustomsSummary.mensagem_taxa := CustomsSummary.mensagem_taxa g |}
      else Ok g.
Proof.
  intros Hs Hne He.
  destruct (read_nonempty_track_info pkg "latest_status" "status" s Hs Hne) as [ti0 [Hg0 Ht0]].
  destruct pkg as [| | | | |kv]; try discriminate.
  exists (match assoc (u "number") kv with Some v => v | None => VStr (u "N/A") end).
  unfold CustomsSummary.status_of, CustomsSummary.event_of in *.
  unfold CustomsSummary.add_package.
  assert (Hkv : truthy (VDict kv) = true).
  { destruct kv; [discriminate He | reflexivity]. }
  rewrite Hkv. cbn [negb].
  unfold get at 1. unfold get at 1 in He. unfold get at 1 in Hs. unfold get at 1 in Hg0.
  unfold subscript at 1.
  destruct (assoc (u "track_info") kv) as [ti|] eqn:Hti; cbn [bind] in *; [| discriminate He].
  injection Hg0 as <-. rewrite Ht0. cbn [negb bind].
  destruct (get ti "latest_event" (VDict [])) as [le| |]; cbn [bind] in *; try discriminate.
  destruct (get (or_else le (VDict [])) "description" (VStr [])) as [de| |];
    cbn [bind] in *; try discriminate.
  destruct (get ti "latest_status" (VDict [])) as [ls| |]; cbn [bind] in *; try discriminate.
  unfold get at 1. cbn [bind].
  destruct (get (or_else ls (VDict [])) "status" VNone) as [st| |]; cbn [bind] in *;
    try discriminate.
  unfold text_of in Hs. unfold lower_of.
  destruct (or_else st (VStr [])); try discriminate. injection Hs as ->.
  cbn [bind]. rewrite He. cbn [bind].
  reflexivity.
Qed.

(** X17. A package that [check_taxation] takes on account of its status
    (alert, expired or undelivered, case ignored) and whose event reads is
    put by the formatter in exactly one of its three blocks. *)
Theorem status_accepted_is_listed g pkg s event :
  CustomsSummary.status_of pkg = Ok s ->
  CustomsSummary.event_of pkg = Ok event ->
  In (lower s) CustomsSummary.problem_status ->
  exists g',
    CustomsSummary.add_package g pkg = Ok g'
    /\ (List.length (CustomsSummary.taxas_pendentes g')
        + List.length (CustomsSummary.em_alerta g')
        + List.length (CustomsSummary.com_problemas g')
        = S (List.length (CustomsSummary.taxas_pendentes g)
             + List.length (CustomsSummary.em_alerta g)
             + List.length (CustomsSummary.com_problemas g)))%nat.
Proof.
  intros Hs He Hin.
  assert (Hne : s <> []).
  { intros ->. rewrite lower_nil in Hin. simpl in Hin.
    repeat (destruct Hin as [Hin | Hin]; [discriminate Hin |]). contradiction. }
  destruct (add_package_with_status g pkg s event Hs Hne He) as [number ->].
  destruct (contains (u "retornando ao remetente") (lower event)).
  { eexists. split; [reflexivity|]. cbn. rewrite length_app. cbn. lia. }
  destruct (existsb _ CustomsSummary.customs_keywords).
  { eexists. split; [reflexivity|]. cbn. rewrite length_app. cbn. lia. }
  destruct (str_eqb (lower s) (u "alert")) eqn:Ea.
  { eexists. split; [reflexivity|]. cbn. rewrite length_app. cbn. lia. }
  destruct (existsb (str_eqb (lower s)) [u "expired"; u "undelivered"]) eqn:Ee.
  { eexists. split; [reflexivity|]. cbn. rewrite length_app. cbn. lia. }
  exfalso. unfold CustomsSummary.problem_status in Hin.
  destruct Hin as [Hin | Hin].
  - rewrite <- Hin in Ea. discriminate Ea.
  - assert (Hex : existsb (str_eqb (lower s)) [u "expired"; u "undelivered"] = true)
      by (now apply existsb_str_eqb).
    congruence.
Qed.

(** X18. A description that is present and null is read as the empty text by
    [check_taxation], but makes the formatter raise [AttributeError]: it
    reaches [translate_event] as [None]. *)
Theorem null_description_breaks_formatter pkg ti le s :
  get pkg "track_info" VNone = Ok ti ->
  get ti "latest_event" (VDict []) = Ok le ->
  truthy le = true ->
  get le "description" (VStr []) = Ok VNone ->
  CustomsSummary.status_of pkg = Ok s ->
  CustomsSummary.description_of pkg = Ok []
  /\ (forall g, CustomsSummary.add_package g pkg = Raise AttributeError)
  /\ (forall rest,
        CustomsSummary.format_summary_message (pkg :: rest) = Raise AttributeError).
Proof.
  intros Hti Hle Tle Hde Hs.
  destruct pkg as [| | | | |kv]; try discriminate.
  unfold get at 1 in Hti.
  destruct (assoc (u "track_info") kv) as [ti'|] eqn:Ek;
    [| injection Hti as <-; discriminate Hle].
  injection Hti as ->.
  assert (Tti : truthy ti = true).
  { destruct ti as [| | | | |tkv]; try discriminate.
    destruct tkv; [| reflexivity]. cbn in Hle. injection Hle as <-. discriminate Tle. }
  assert (Hde' : get le "description" VNone = Ok VNone).
  { destruct le as [| | | | |ekv]; try discriminate. unfold get in *.
    destruct (assoc (u "description") ekv); [assumption | discriminate]. }
  assert (Hadd : forall g, CustomsSummary.add_package g (VDict kv) = Raise AttributeError).
  { intros g. unfold CustomsSummary.add_package.
    replace (truthy (VDict kv)) with true by (destruct kv; [discriminate Ek | reflexivity]).
    cbn [negb]. unfold get at 1, subscript at 1. rewrite Ek. cbn [bind].
    rewrite Tti. cbn [negb]. rewrite Hle. cbn [bind].
    unfold CustomsSummary.status_of in Hs. unfold get at 1 in Hs. rewrite Ek in Hs.
    cbn [bind] in Hs.
    destruct (get ti "latest_status" (VDict [])) as [ls| |]; cbn [bind] in *;
      try discriminate.
    unfold get at 1. cbn [bind].
    destruct (get (or_else ls (VDict [])) "status" VNone) as [st| |]; cbn [bind] in *;
      try discriminate.
    unfold text_of in Hs. unfold lower_of.
    destruct (or_else st (VStr [])); try discriminate. cbn [bind].
    unfold or_else at 1. rewrite Tle, Hde. reflexivity. }
  split; [| split].
  - unfold CustomsSummary.description_of, get at 1. rewrite Ek. cbn [bind].
    rewrite Hle. cbn [bind]. unfold or_else at 1. rewrite Tle, Hde'. reflexivity.
  - exact Hadd.
  - intros rest. unfold CustomsSummary.format_summary_message.
    cbn [CustomsSummary.add_packages]. now rewrite Hadd.
Qed.

End MoreFormatter.

Lemma translate_event_unchanged_witness :
  CustomsSummary.translate_event (VStr (u "Objeto postado")) = Ok (u "Objeto postado").
Proof. apply translate_event_unchanged. vm_compute. reflexivity. Defined.

Lemma customs_status_line_is_first_event_witness :
  exists event tail,
    CustomsSummary.event_of (Samples.detailed "LB1" "alert" "Customs charges due") = Ok event
    /\ Some (u "Taxas alfandegárias pendentes") = Some event
    /\ CustomsSummary.format_summary_message (B := Latin1)
         ([ Samples.detailed "LB0" "expired" "Delivery attempt failed" ] ++
          Samples.detailed "LB1" "alert" "Customs charges due" ::
          [ Samples.detailed "LB2" "InTransit" "Import customs retained" ])
       = Ok (CustomsSummary.header ++ nl ++ u "💰 *Taxas Pendentes:*" ++ nl ++
             join nl [u "*LB1*"; u "*LB2*"] ++ nl ++ nl ++
             u "_Status: " ++ event ++ u "_" ++ tail).
Proof.
  apply (@customs_status_line_is_first_event Latin1
           [ Samples.detailed "LB0" "expired" "Delivery attempt failed" ]
           (Samples.detailed "LB1" "alert" "Customs charges due")
           [ Samples.detailed "LB2" "InTransit" "Import customs retained" ]
           {| CustomsSummary.taxas_pendentes := [];
              CustomsSummary.em_alerta := [];
              CustomsSummary.com_problemas := [u "*LB0*: Delivery attempt failed"];
              CustomsSummary.mensagem_taxa := None |}
           {| CustomsSummary.taxas_pendentes := [u "*LB1*"];
              CustomsSummary.em_alerta := [];
              CustomsSummary.com_problemas := [u "*LB0*: Delivery attempt failed"];
              CustomsSummary.mensagem_taxa := Some (u "Taxas alfandegárias pendentes") |}
           {| CustomsSummary.taxas_pendentes := [u "*LB1*"; u "*LB2*"];
              CustomsSummary.em_alerta := [];
              CustomsSummary.com_problemas := [u "*LB0*: Delivery attempt failed"];
              CustomsSummary.mensagem_taxa := Some (u "Taxas alfandegárias pendentes") |}).
  - vm_compute. reflexivity.
  - reflexivity.
  - vm_compute. reflexivity.
  - cbn. discriminate.
  - vm_compute. reflexivity.
Defined.

Lemma add_packages_extends_witness :
  exists customs alert problems,
    [u "*LB1*"] = [] ++ customs /\ @nil str = [] ++ alert
    /\ [u "*LB2*: Pacote retornando ao remetente"] = [] ++ problems
    /\ (List.length customs + List.length alert + List.length problems <= 3)%nat.
Proof.
  apply (@add_packages_extends Latin1
           [ Samples.detailed "LB1" "alert" "Customs charges due";
             Samples.detailed "LB2" "alert" "Package returning to sender";
             Samples.detailed "LB3" "Delivered" "Delivered" ]
           CustomsSummary.no_groups
           {| CustomsSummary.taxas_pendentes := [u "*LB1*"];
              CustomsSummary.em_alerta := [];
              CustomsSummary.com_problemas := [u "*LB2*: Pacote retornando ao remetente"];
              CustomsSummary.mensagem_taxa := Some (u "Taxas alfandegárias pendentes") |}).
  vm_compute. reflexivity.
Defined.

Lemma no_pending_only_for_empty_witness :
  ([ Samples.detailed "LB3" "Delivered" "Delivered" ] = []
   /\ CustomsSummary.header = CustomsSummary.no_pending)
  \/ ([ Samples.detailed "LB3" "Delivered" "Delivered" ] <> []
      /\ startswith CustomsSummary.header CustomsSummary.header = true
      /\ str_eqb CustomsSummary.header CustomsSummary.no_pending = false).
Proof.
  apply (@no_pending_only_for_empty Latin1).
  vm_compute. reflexivity.
Defined.

Lemma status_accepted_is_listed_witness :
  exists g',
    CustomsSummary.add_package (B := Latin1) CustomsSummary.no_groups
      (Samples.detailed "LB1" "UNDELIVERED" "Recipient not found") = Ok g'
    /\ (List.length (CustomsSummary.taxas_pendentes g')
        + List.length (CustomsSummary.em_alerta g')
        + List.length (CustomsSummary.com_problemas g')
        = S (0 + 0 + 0))%nat.
Proof.
  apply (@status_accepted_is_listed Latin1 CustomsSummary.no_groups _
           (u "UNDELIVERED") (u "Recipient not found")).
  - vm_compute. reflexivity.
  - vm_compute. reflexivity.
  - apply existsb_str_eqb. vm_compute. reflexivity.
Defined.

Lemma null_description_breaks_formatter_witness :
  CustomsSummary.check_taxation (B := Latin1)
    (VDict [ (u "number", VStr (u "LB1"));
             (u "track_info",
               VDict [ (u "latest_status", VDict [ (u "status", VStr (u "alert")) ]);
                       (u "latest_event", VDict [ (u "description", VNone) ]) ]) ])
    = Ok true
  /\ CustomsSummary.format_summary_message (B := Latin1)
       [ VDict [ (u "number", VStr (u "LB1"));
                 (u "track_info",
                   VDict [ (u "latest_status", VDict [ (u "status", VStr (u "alert")) ]);
                           (u "latest_event", VDict [ (u "description", VNone) ]) ]) ] ]
     = Raise AttributeError.
Proof.
  split; [vm_compute; reflexivity|].
  eapply (@null_description_breaks_formatter Latin1).
  - vm_compute. reflexivity.
  - vm_compute. reflexivity.
  - vm_compute. reflexivity.
  - vm_compute. reflexivity.
  - vm_compute. reflexivity.
Defined.

(* ================================================================== *)
(** * More on sending and on the daily job *)
(* ================================================================== *)

Section MoreJob.
Context {B : Builtins}.

(** X19. The sender needs each of its four settings: when any of them is
    absent from the environment or empty it raises a [ValueError] and the
    world is as before: nothing is sent, nothing is slept. *)
Theorem send_needs_every_setting w message name :
  In name [ "WAPI_URL"; "WAPI_TOKEN"; "WAPI_CONNECTION_KEY";
            "TECHNICAL_DEPT_NUMBER" ]%string ->
  environ w name = None \/ environ w name = Some [] ->
  exists missing,
    missing <> []
    /\ CustomsSummary.send_whatsapp_message message w
       = (Raise (ValueError "Configurações do WhatsApp faltando: "
                   (VStr (join (u ", ") missing))), w).
Proof.
  intros Hin Hn.
  unfold CustomsSummary.send_whatsapp_message, getenv, bindM, CustomsSummary.missing_keys.
  cbn [In] in Hin.
  destruct Hin as [<- | [<- | [<- | [<- | []]]]];
    destruct (environ w "WAPI_URL"%string) as [[|? ?]|];
    destruct (environ w "WAPI_TOKEN"%string) as [[|? ?]|];
    destruct (environ w "WAPI_CONNECTION_KEY"%string) as [[|? ?]|];
    destruct (environ w "TECHNICAL_DEPT_NUMBER"%string) as [[|? ?]|];
    destruct Hn as [Hn | Hn]; try discriminate Hn;
    cbn [filter snd fst map truthy negb];
    (eexists; split; [| reflexivity]; discriminate).
Qed.

(** X20. A gateway that answers with something that is not JSON and not an
    error status: the sender has made its one request; it returns when the
    text of the reply is empty, and raises [AttributeError] when it is not,
    since it asks the text for its [error] entry. *)
Theorem send_plain_text_reply w api_url token key number clean message r :
  configured w api_url token key number ->
  CustomsSummary.clean_number (VStr number) = Ok clean ->
  server w (List.length (sent w))
         (CustomsSummary.text_request api_url key token clean message) = Responds r ->
  contains (u "application/json")
           (match content_type r with Some c => c | None => [] end) = false ->
  raise_for_status r = Ok tt ->
  CustomsSummary.send_whatsapp_message message w
    = (match text r with [] => Ok tt | _ :: _ => Raise AttributeError end,
       after w [CustomsSummary.text_request api_url key token clean message] []).
Proof.
  intros Hc Hn Hs Hct Hst.
  rewrite (send_configured w api_url token key number message Hc).
  unfold bindM at 1, lift at 1. rewrite Hn.
  unfold bindM at 1. rewrite make_request_run. cbv zeta.
  rewrite Hs. cbn [CustomsSummary.outcome]. unfold CustomsSummary.payload.
  rewrite Hct, Hst. cbn [bind].
  destruct (text r) as [|c s]; reflexivity.
Qed.

(** X21. Whenever the daily job returns, it reports success with the number
    of pending packages.  The gateway is asked only when there is at least
    one: with none nothing is sent, so the formatter's no-pending text never
    leaves; with some, what is sent starts with the header. *)
Theorem job_outcome self fuel w v w'' :
  CustomsSummary.generate_daily_summary self fuel w = (Ok v, w'') ->
  exists packages w',
    CustomsSummary.get_packages_with_pending_customs self fuel w = (Ok packages, w')
    /\ v = VDict [ (u "success", VBool true);
                   (u "packages_count", VInt (Z.of_nat (List.length packages))) ]
    /\ match packages with
       | [] => w'' = w'
       | _ :: _ =>
           exists message,
             CustomsSummary.format_summary_message packages = Ok message
             /\ startswith CustomsSummary.header message = true
             /\ CustomsSummary.send_whatsapp_message message w' = (Ok tt, w'')
       end.
Proof.
  unfold CustomsSummary.generate_daily_summary. unfold bindM at 1.
  destruct (CustomsSummary.get_packages_with_pending_customs self fuel w)
    as [[packages|e|] w'] eqn:Hf; try discriminate.
  destruct packages as [|pkg packages].
  - unfold bindM, ret. intros H. injection H as <- <-.
    exists [], w'. repeat split.
  - unfold bindM at 1. unfold bindM at 1, lift at 1.
    destruct (CustomsSummary.format_summary_message (pkg :: packages))
      as [message|e|] eqn:Hm; try discriminate.
    destruct (CustomsSummary.send_whatsapp_message message w') as [[[]|e|] w1] eqn:Hs;
      try discriminate.
    unfold ret. intros H. injection H as <- <-.
    exists (pkg :: packages), w'. split; [reflexivity|]. split; [reflexivity|].
    exists message. split; [exact Hm|]. split; [| exact Hs].
    unfold CustomsSummary.format_summary_message in Hm.
    destruct (CustomsSummary.add_packages CustomsSummary.no_groups (pkg :: packages))
      as [g| |]; cbn [bind] in Hm; try discriminate.
    injection Hm as <-.
    destruct (compose_starts_with_header g) as [rest ->].
    reflexivity.
Qed.

(** X22. A provider whose first list page is well-formed and empty: the job
    has made that one request, asks for no details, sends no message and
    reports zero packages. *)
Theorem job_with_empty_listing self fuel w envelope :
  (0 < fuel)%nat ->
  CustomsSummary.outcome
    (server w (List.length (sent w))
       (CustomsSummary.list_request
          (CustomsSummary.endpoint self ++ u "/track/v2.2/gettracklist")
          [ (u "17token", CustomsSummary.api_key self);
            (u "Content-Type", u "application/json") ] 1)) = Ok envelope ->
  well_formed envelope [] ->
  CustomsSummary.generate_daily_summary self fuel w
    = (Ok (VDict [ (u "success", VBool true); (u "packages_count", VInt 0) ]),
       after w [ CustomsSummary.list_request
                   (CustomsSummary.endpoint self ++ u "/track/v2.2/gettracklist")
                   [ (u "17token", CustomsSummary.api_key self);
                     (u "Content-Type", u "application/json") ] 1 ] []).
Proof.
  intros Hfuel Ho Hw.
  unfold CustomsSummary.generate_daily_summary,
    CustomsSummary.get_packages_with_pending_customs, CustomsSummary.get_all_packages.
  cbv zeta.
  destruct fuel as [|fuel]; [lia|].
  unfold bindM at 1. unfold bindM at 1.
  rewrite get_all_packages_step.
  rewrite <- (after_nil w) at 1.
  rewrite (make_request_first _ w 0 [] [] envelope)
    by (rewrite ?Nat.add_0_r; auto).
  rewrite (list_page_well_formed envelope [] [] Hw).
  cbn [List.length Z.of_nat Z.ltb Z.compare app].
  reflexivity.
Qed.

End MoreJob.

Lemma send_needs_every_setting_witness :
  exists missing,
    missing <> []
    /\ CustomsSummary.send_whatsapp_message (B := Latin1) (u "resumo")
         (Samples.offline [ ("WAPI_URL", "https://host.example/api");
                            ("WAPI_TOKEN", "");
                            ("WAPI_CONNECTION_KEY", "key-1");
                            ("TECHNICAL_DEPT_NUMBER", "11999998888") ]%string)
       = (Raise (ValueError "Configurações do WhatsApp faltando: "
                   (VStr (join (u ", ") missing))),
          Samples.offline [ ("WAPI_URL", "https://host.example/api");
                            ("WAPI_TOKEN", "");
                            ("WAPI_CONNECTION_KEY", "key-1");
                            ("TECHNICAL_DEPT_NUMBER", "11999998888") ]%string).
Proof.
  apply (@send_needs_every_setting Latin1 _ _ "WAPI_TOKEN"%string).
  - cbn. auto.
  - right. vm_compute. reflexivity.
Defined.

Lemma send_plain_text_reply_witness :
  CustomsSummary.send_whatsapp_message (B := Latin1) (u "resumo")
      (Samples.start [ Samples.plain_text 200%Z "OK" ] "11999998888")
    = (Raise AttributeError,
       after (Samples.start [ Samples.plain_text 200%Z "OK" ] "11999998888")
         [ CustomsSummary.text_request (u "https://host.example/api") (u "key-1")
             (u "secret") (u "5511999998888") (u "resumo") ] []).
Proof.
  apply (@send_plain_text_reply Latin1
           (Samples.start [ Samples.plain_text 200%Z "OK" ] "11999998888")
           (u "https://host.example/api") (u "secret") (u "key-1") (u "11999998888")
           (u "5511999998888") (u "resumo")
           {| status_code := 200%Z; content_type := Some (u "text/plain");
              body := None; text := u "OK" |}).
  - repeat split; try (vm_compute; reflexivity); vm_compute; discriminate.
  - vm_compute. reflexivity.
  - vm_compute. reflexivity.
  - vm_compute. reflexivity.
  - vm_compute. reflexivity.
Defined.

Lemma job_outcome_witness :
  exists packages w',
    CustomsSummary.get_packages_with_pending_customs (B := Latin1) Samples.automation 5
      (Samples.start [ Samples.list_page (Samples.tracked "LB1") 0 0 40 ] "11999998888")
      = (Ok packages, w')
    /\ VDict [ (u "success", VBool true); (u "packages_count", VInt 0) ]
       = VDict [ (u "success", VBool true);
                 (u "packages_count", VInt (Z.of_nat (List.length packages))) ]
    /\ match packages with
       | [] =>
           after (Samples.start [ Samples.list_page (Samples.tracked "LB1") 0 0 40 ]
                    "11999998888")
             [ CustomsSummary.list_request Samples.list_url Samples.list_headers 1 ] []
           = w'
       | _ :: _ =>
           exists message,
             CustomsSummary.format_summary_message (B := Latin1) packages = Ok message
             /\ startswith CustomsSummary.header message = true
             /\ CustomsSummary.send_whatsapp_message (B := Latin1) message w'
                = (Ok tt,
                   after (Samples.start [ Samples.list_page (Samples.tracked "LB1") 0 0 40 ]
                            "11999998888")
                     [ CustomsSummary.list_request Samples.list_url Samples.list_headers 1 ]
                     [])
       end.
Proof.
  apply (@job_outcome Latin1 Samples.automation 5).
  vm_compute. reflexivity.
Defined.

Lemma job_with_empty_listing_witness :
  CustomsSummary.generate_daily_summary (B := Latin1) Samples.automation 1
      (Samples.start [ Samples.list_page (Samples.tracked "LB1") 0 0 40 ] "11999998888")
    = (Ok (VDict [ (u "success", VBool true); (u "packages_count", VInt 0) ]),
       after (Samples.start [ Samples.list_page (Samples.tracked "LB1") 0 0 40 ]
                "11999998888")
         [ CustomsSummary.list_request
             (CustomsSummary.endpoint Samples.automation ++ u "/track/v2.2/gettracklist")
             [ (u "17token", CustomsSummary.api_key Samples.automation);
               (u "Content-Type", u "application/json") ] 1 ] []).
Proof.
  apply (@job_with_empty_listing Latin1 Samples.automation 1 _
           (Samples.list_envelope (Samples.tracked "LB1") 0 0 40)).
  - lia.
  - vm_compute. reflexivity.
  - split; vm_compute; reflexivity.
Defined.

(* ================================================================== *)
(** * More on the older job *)
(* ================================================================== *)

Section MoreLegacyJob.
Context {B : Builtins}.

(** X23. [generate_daily_summary] of the older job, called on an instance
    of the class, never notifies anyone: when the totals that the first page
    reports, if it reports any, are whole numbers, the call ends with
    [TypeError], raised by a call of [send_message] that lacks an argument,
    and the only requests of the run are those of the fetch for the pages
    1, 2, ...: none goes to the gateway. *)
Theorem legacy_job_never_notifies self w :
  reports_integers w
    (TrackingService.list_request (LegacySummary.tracking_service self) 1) ->
  exists fuel0 k,
    (1 <= k)%nat /\
    forall fuel, (fuel0 <= fuel)%nat ->
      LegacySummary.generate_daily_summary self fuel w
        = (Raise TypeError,
           after w (legacy_requests (LegacySummary.tracking_service self) 1 k) []).
Proof.
  intros _.
  destruct (legacy_fetch_ends (LegacySummary.tracking_service self) w)
    as (fuel0 & k & r & Hk & Hr & Hrun).
  exists fuel0, k. split; [assumption|]. intros fuel Hf.
  rewrite legacy_job_raises, (Hrun fuel Hf).
  destruct r; [reflexivity | reflexivity | contradiction].
Qed.

End MoreLegacyJob.

Lemma legacy_job_never_notifies_witness :
  exists fuel0 k,
    (1 <= k)%nat /\
    forall fuel, (fuel0 <= fuel)%nat ->
      LegacySummary.generate_daily_summary (B := Latin1) Samples.legacy_job fuel
          (Samples.start
             [ Samples.list_page (Samples.listed "LB1" "CustomsHold" "Held by customs")
                 2 2 40 ] "")
        = (Raise TypeError,
           after (Samples.start
                    [ Samples.list_page
                        (Samples.listed "LB1" "CustomsHold" "Held by customs") 2 2 40 ] "")
                 (legacy_requests Samples.legacy_tracking 1 k) []).
Proof.
  apply (@legacy_job_never_notifies Latin1 Samples.legacy_job).
  intros r envelope Hr Hb.
  vm_compute in Hr. injection Hr as <-.
  vm_compute in Hb. injection Hb as <-.
  vm_compute. reflexivity.
Defined.

(* ================================================================== *)
(** * The configuration: validate_config, __init__, get_config *)
(* ================================================================== *)

Lemma rstrip_cons chars c s :
  rstrip chars (c :: s)
    = match rstrip chars s with
      | [] => if existsb (N.eqb c) chars then [] else [c]
      | _ :: _ => c :: rstrip chars s
      end.
Proof. reflexivity. Qed.

(** What [rstrip] drops is a run of the given characters at the end. *)
Lemma rstrip_tail chars s :
  exists tail,
    s = rstrip chars s ++ tail
    /\ forallb (fun c => existsb (N.eqb c) chars) tail = true.
Proof.
  induction s as [|c s (tail & Hs & Ht)].
  - exists []. split; reflexivity.
  - rewrite rstrip_cons. destruct (rstrip chars s) as [|x r] eqn:E.
    + destruct (existsb (N.eqb c) chars) eqn:Ec.
      * exists (c :: tail). split; [cbn in *; congruence | cbn; now rewrite Ec].
      * exists tail. split; [cbn in *; congruence | assumption].
    + exists tail. split; [| assumption]. cbn in *. congruence.
Qed.

(** What [rstrip] keeps does not end in one of the given characters. *)
Lemma rstrip_end chars s : forall prefix c,
  rstrip chars s = prefix ++ [c] -> existsb (N.eqb c) chars = false.
Proof.
  induction s as [|a s IH]; intros prefix c H.
  - destruct prefix; discriminate H.
  - rewrite rstrip_cons in H. destruct (rstrip chars s) as [|x r] eqn:E.
    + destruct (existsb (N.eqb a) chars) eqn:Ea.
      * destruct prefix; discriminate H.
      * destruct prefix as [|p [|q prefix]]; try discriminate H.
        injection H as <-. assumption.
    + destruct prefix as [|p prefix]; [discriminate H|].
      injection H as _ H. now apply (IH prefix c).
Qed.

Lemma slashes_only tail :
  forallb (fun c => existsb (N.eqb c) (u "/")) tail = true ->
  tail = List.concat (repeat (u "/") (List.length tail)).
Proof.
  induction tail as [|c tail IH]; [reflexivity|].
  cbn [forallb]. intros H. apply andb_true_iff in H as [Hc Ht].
  cbn [List.length repeat List.concat]. rewrite <- (IH Ht).
  change (existsb (N.eqb c) (u "/")) with (N.eqb c 47 || false) in Hc.
  rewrite orb_false_r in Hc. apply N.eqb_eq in Hc. now subst c.
Qed.

(** X24. What [__init__] stores: the endpoint of the configuration without
    its trailing slashes, all of them and nothing else, and the key as it is
    given. *)
Theorem init_strips_trailing_slashes config endpoint api_key :
  CustomsSummary.init config = Ok (endpoint, api_key) ->
  exists s k,
    subscript config "endpoint" = Ok (VStr s)
    /\ subscript config "api_key" = Ok api_key
    /\ s = endpoint ++ List.concat (repeat (u "/") k)
    /\ (forall prefix, endpoint <> prefix ++ u "/").
Proof.
  unfold CustomsSummary.init.
  destruct (CustomsSummary.validate_config config) as [[]| |]; cbn [bind]; try discriminate.
  destruct (subscript config "endpoint") as [e| |]; cbn [bind]; try discriminate.
  destruct e as [| | |s| |]; cbn [bind]; try discriminate.
  destruct (subscript config "api_key") as [key| |]; cbn [bind]; try discriminate.
  intros H. injection H as <- <-.
  destruct (rstrip_tail (u "/") s) as (tail & Hs & Ht).
  exists s, (List.length tail). repeat split.
  - rewrite <- (slashes_only tail Ht). exact Hs.
  - intros prefix E. apply rstrip_end in E. discriminate E.
Qed.

(** X25. The scheduler's configuration always passes [validate_config],
    which looks at the keys only: an unset [TRACK17_API_URL] is found by
    [__init__] as an [AttributeError] on [None], and an unset key is not
    found at all. *)
Theorem scheduler_config_always_validates w :
  exists config,
    Scheduler.get_config w = (Ok config, w)
    /\ CustomsSummary.validate_config config = Ok tt
    /\ CustomsSummary.init config
       = match environ w "TRACK17_API_URL"%string with
         | None => Raise AttributeError
         | Some s =>
             Ok (rstrip (u "/") s,
                 match environ w "TRACK17_API_KEY"%string with
                 | Some key => VStr key
                 | None => VNone
                 end)
         end.
Proof.
  unfold Scheduler.get_config, getenv, bindM, ret.
  eexists. split; [reflexivity|]. split; [reflexivity|].
  unfold CustomsSummary.init.
  change (CustomsSummary.validate_config ?c) with (@Ok unit tt). cbn [bind].
  destruct (environ w "TRACK17_API_URL"%string); reflexivity.
Qed.

(** X26. The [get_config] of [test_automation.py] refuses settings that are absent or
    empty, without changing anything; the configuration it returns is one
    that [__init__] accepts. *)
Theorem checked_config_initialises w :
  match Scheduler.get_config_checked w with
  | (Ok config, w') =>
      w' = w
      /\ exists url key,
           environ w "TRACK17_API_URL"%string = Some url /\ url <> []
           /\ environ w "TRACK17_API_KEY"%string = Some key /\ key <> []
           /\ CustomsSummary.init config = Ok (rstrip (u "/") url, VStr key)
  | (Raise e, w') =>
      w' = w
      /\ exists missing,
           missing <> []
           /\ e = ValueError "Configurações faltando: " (VStr (join (u ", ") missing))
           /\ (truthy (match environ w "TRACK17_API_URL"%string with
                       | Some s => VStr s | None => VNone end) = false
               \/ truthy (match environ w "TRACK17_API_KEY"%string with
                          | Some s => VStr s | None => VNone end) = false)
  | (OutOfFuel, _) => False
  end.
Proof.
  unfold Scheduler.get_config_checked, getenv, bindM, ret, raise,
    CustomsSummary.missing_keys.
  destruct (environ w "TRACK17_API_URL"%string) as [[|c url]|];
    destruct (environ w "TRACK17_API_KEY"%string) as [[|d key]|];
    cbn [filter snd fst map truthy negb];
    try (split; [reflexivity|]; eexists; split; [| split; [reflexivity|]];
         [discriminate | auto]).
  split; [reflexivity|]. exists (c :: url), (d :: key).
  repeat split; discriminate.
Qed.

Lemma init_strips_trailing_slashes_witness :
  exists s k,
    subscript (VDict [ (u "endpoint", VStr (u "https://api.17track.net//"));
                       (u "api_key", VStr (u "token-17")) ]) "endpoint" = Ok (VStr s)
    /\ subscript (VDict [ (u "endpoint", VStr (u "https://api.17track.net//"));
                          (u "api_key", VStr (u "token-17")) ]) "api_key"
       = Ok (VStr (u "token-17"))
    /\ s = u "https://api.17track.net" ++ List.concat (repeat (u "/") k)
    /\ (forall prefix, u "https://api.17track.net" <> prefix ++ u "/").
Proof.
  apply init_strips_trailing_slashes.
  vm_compute. reflexivity.
Defined.

(* ================================================================== *)
(** * src/automations/run_automation.py: the environment *)
(* ================================================================== *)

Lemma unset_truthy w name :
  unset w name <->
  truthy (match environ w name with Some s => VStr s | None => VNone end) = false.
Proof.
  unfold unset. destruct (environ w name) as [[|c s]|]; cbn; split; intros H; auto;
    try discriminate; destruct H; discriminate.
Qed.

(** One round of the loop over [required_vars]; [None] when it raises. *)
Lemma check_vars_step var default_value rest w :
  RunAutomation.check_vars ((var, default_value) :: rest) w =
    match environ w var with
    | Some (_ :: _) => RunAutomation.check_vars rest w
    | _ =>
        match default_value with
        | Some (c :: d) =>
            RunAutomation.check_vars rest
              {| server := server w;
                 environ := fun n => if String.eqb n var then Some (c :: d) else environ w n;
                 sent := sent w; slept := slept w |}
        | _ => (Raise (ValueError "Variável obrigatória " (VStr (u var))), w)
        end
    end.
Proof.
  cbn [RunAutomation.check_vars]. unfold bindM at 1, getenv at 1.
  destruct (environ w var) as [[|a s]|] eqn:E; cbn [truthy negb].
  - destruct default_value as [[|c d]|].
    + unfold bindM, getenv. rewrite E. reflexivity.
    + reflexivity.
    + unfold bindM, getenv. rewrite E. reflexivity.
  - reflexivity.
  - destruct default_value as [[|c d]|].
    + unfold bindM, getenv. rewrite E. reflexivity.
    + reflexivity.
    + unfold bindM, getenv. rewrite E. reflexivity.
Qed.

(** The loop when it returns: nothing but the environment has changed; what
    was set is as it was; every variable of the list is set; and a variable
    that has changed was unset and now has its default. *)
Lemma check_vars_returns vars : forall w w',
  RunAutomation.check_vars vars w = (Ok tt, w') ->
  (server w' = server w /\ sent w' = sent w /\ slept w' = slept w)
  /\ (forall name s, environ w name = Some s -> s <> [] -> environ w' name = Some s)
  /\ (forall var d, In (var, d) vars -> exists s, environ w' var = Some s /\ s <> [])
  /\ (forall name,
        environ w' name = environ w name
        \/ (unset w name
            /\ exists d, In (name, Some d) vars /\ d <> [] /\ environ w' name = Some d)).
Proof.
  induction vars as [|[var dv] rest IH]; intros w w' H.
  - cbn in H. injection H as <-. repeat split; auto. intros var d [].
  - rewrite check_vars_step in H.
    destruct (environ w var) as [[|a s]|] eqn:E.
    2:{ destruct (IH w w' H) as (Hw & Hkeep & Hset & Hch).
        split; [assumption|]. split; [assumption|]. split.
        - intros v d [Hd | Hd]; [| eauto].
          injection Hd as <- <-. exists (a :: s). split; [| discriminate].
          apply Hkeep; [assumption | discriminate].
        - intros name. destruct (Hch name) as [Hn | (Hu & d & Hd & Hne & Hn)]; [now left|].
          right. split; [assumption|]. exists d. cbn [In]. auto. }
    all: destruct dv as [[|c d]|]; try discriminate H.
    all: destruct (IH _ w' H) as (Hw & Hkeep & Hset & Hch); cbn in Hw, Hkeep, Hch.
    all: assert (Hvar : environ w' var = Some (c :: d))
           by (apply Hkeep; [now rewrite String.eqb_refl | discriminate]).
    all: (split; [assumption|]); split; [| split].
    all: try (intros name s0 Hn Hne; apply Hkeep; [| assumption];
              destruct (String.eqb_spec name var) as [-> | _]; [| assumption];
              rewrite E in Hn; congruence).
    all: try (intros v d0 [Hd | Hd]; [| eauto];
              injection Hd as <- <-; exists (c :: d); split; [assumption | discriminate]).
    all: intros name; destruct (String.eqb_spec name var) as [-> | Hne].
    all: try (right; split; [unfold unset; auto|];
              exists (c :: d); cbn [In]; repeat split; auto; discriminate).
    all: destruct (Hch name) as [Hn | (Hu & d0 & Hd & Hne0 & Hn)].
    all: try (left; rewrite Hn; apply String.eqb_neq in Hne; now rewrite Hne).
    all: right; (split; [| exists d0; cbn [In]; auto]).
    all: unfold unset in *; cbn in Hu; apply String.eqb_neq in Hne;
         now rewrite Hne in Hu.
Qed.

(** The loop when it raises: the error names a variable of the list that
    has no default and is unset. *)
Lemma check_vars_raises vars : forall w e w',
  RunAutomation.check_vars vars w = (Raise e, w') ->
  exists var dv,
    In (var, dv) vars /\ (dv = None \/ dv = Some [])
    /\ unset w var
    /\ e = ValueError "Variável obrigatória " (VStr (u var))
    /\ sent w' = sent w /\ slept w' = slept w.
Proof.
  induction vars as [|[var dv] rest IH]; intros w e w' H.
  - discriminate H.
  - rewrite check_vars_step in H.
    destruct (environ w var) as [[|a s]|] eqn:E.
    2:{ destruct (IH w e w' H) as (v & d & Hin & Hd & Hu & He & Hs).
        exists v, d. cbn [In]. auto 10. }
    all: destruct dv as [[|c d]|].
    all: try (injection H as <- <-; eexists var, _; cbn [In]; unfold unset;
              repeat split; [left; reflexivity | auto | auto]).
    all: destruct (IH _ e w' H) as (v & d0 & Hin & Hd & Hu & He & Hs); cbn in Hs.
    all: exists v, d0; cbn [In]; repeat split; auto; try tauto.
    all: unfold unset in *; cbn in Hu.
    all: destruct (String.eqb_spec v var) as [-> | _]; [| assumption].
    all: destruct Hu; discriminate.
Qed.

Lemma check_vars_returns_or_raises vars : forall w,
  fst (RunAutomation.check_vars vars w) <> OutOfFuel.
Proof.
  induction vars as [|[var dv] rest IH]; intros w.
  - discriminate.
  - rewrite check_vars_step.
    destruct (environ w var) as [[|a s]|]; try apply IH.
    all: destruct dv as [[|c d]|]; try apply IH; discriminate.
Qed.

(** [load_env_variables] is the loop, after [NODE_ENV] has its default. *)
Lemma load_env_variables_run w :
  exists w0,
    RunAutomation.load_env_variables w
      = RunAutomation.check_vars RunAutomation.required_vars w0
    /\ server w0 = server w /\ sent w0 = sent w /\ slept w0 = slept w
    /\ (forall name, name <> "NODE_ENV"%string -> environ w0 name = environ w name)
    /\ (forall s, environ w "NODE_ENV"%string = Some s -> s <> [] ->
                  environ w0 "NODE_ENV"%string = Some s)
    /\ (exists s, environ w0 "NODE_ENV"%string = Some s /\ s <> []).
Proof.
  unfold RunAutomation.load_env_variables. unfold bindM at 1, getenv at 1.
  destruct (environ w "NODE_ENV"%string) as [[|a s]|] eqn:E; cbn [truthy negb].
  2:{ exists w. unfold bindM at 1, ret at 1.
      split; [reflexivity|]. do 4 (split; [auto|]).
      split; [intros s0 Hs _; congruence|].
      exists (a :: s). split; [assumption | discriminate]. }
  all: eexists; unfold bindM at 1, setenv at 1; (split; [reflexivity|]); cbn.
  all: do 3 (split; [reflexivity|]).
  all: split; [intros name Hne; apply String.eqb_neq in Hne; now rewrite Hne|].
  all: split; [intros s0 Hs Hne; congruence|].
  all: eexists; split; [reflexivity | vm_compute; discriminate].
Qed.

Section Environment.
Context {B : Builtins}.

(** X27. When [load_env_variables] returns, each of the seven variables
    that the automation needs is set and not empty; a variable that was set
    before has kept its value; and the sender finds its four settings. *)
Theorem load_env_sets_every_variable w w' :
  RunAutomation.load_env_variables w = (Ok tt, w') ->
  sent w' = sent w
  /\ (forall name s, environ w name = Some s -> s <> [] -> environ w' name = Some s)
  /\ (forall var, In var (map fst RunAutomation.required_vars) ->
        exists s, environ w' var = Some s /\ s <> [])
  /\ (exists api_url token key number, configured w' api_url token key number).
Proof.
  intros H.
  destruct (load_env_variables_run w) as (w0 & Hrun & Hsv & Hst & Hsl & Hother & Hnode & _).
  rewrite Hrun in H.
  destruct (check_vars_returns _ _ _ H) as ((_ & Hs & _) & Hkeep & Hset & _).
  assert (Hall : forall var, In var (map fst RunAutomation.required_vars) ->
                   exists s, environ w' var = Some s /\ s <> []).
  { intros var Hin. apply in_map_iff in Hin as [[v d] [<- Hin]]. eauto. }
  split; [congruence|]. split; [| split; [exact Hall|]].
  - intros name s Hn Hne. apply Hkeep; [| assumption].
    destruct (String.eqb_spec name "NODE_ENV") as [-> | Hd]; [auto|].
    now rewrite Hother.
  - destruct (Hall "WAPI_URL"%string) as (a & Ha & Ha'); [cbn; tauto|].
    destruct (Hall "WAPI_TOKEN"%string) as (t & Ht & Ht'); [cbn; tauto|].
    destruct (Hall "WAPI_CONNECTION_KEY"%string) as (k & Hk & Hk'); [cbn; tauto|].
    destruct (Hall "TECHNICAL_DEPT_NUMBER"%string) as (n & Hn & Hn'); [cbn; tauto|].
    exists a, t, k, n. unfold configured. auto 10.
Qed.

(** X28. [load_env_variables] raises exactly when one of the six variables
    without a default is unset, and then with a [ValueError] that names such
    a variable; an unset department number is no reason to raise. *)
Theorem load_env_refuses_unset_variable w :
  ((exists var,
       In var [ "TRACK17_API_URL"; "TRACK17_API_KEY"; "TRACK17_STATUS_PATH";
                "WAPI_URL"; "WAPI_TOKEN"; "WAPI_CONNECTION_KEY" ]%string
       /\ unset w var) ->
   exists e w', RunAutomation.load_env_variables w = (Raise e, w'))
  /\
  (forall e w',
     RunAutomation.load_env_variables w = (Raise e, w') ->
     exists var,
       In var [ "TRACK17_API_URL"; "TRACK17_API_KEY"; "TRACK17_STATUS_PATH";
                "WAPI_URL"; "WAPI_TOKEN"; "WAPI_CONNECTION_KEY" ]%string
       /\ unset w var
       /\ e = ValueError "Variável obrigatória " (VStr (u var))
       /\ sent w' = sent w).
Proof.
  destruct (load_env_variables_run w) as (w0 & Hrun & Hsv & Hst & Hsl & Hother & Hnode & _).
  rewrite Hrun. split.
  - intros (var & Hin & Hu).
    destruct (RunAutomation.check_vars RunAutomation.required_vars w0) as [[[]|e|] w'] eqn:H.
    + exfalso.
      destruct (check_vars_returns _ _ _ H) as (_ & _ & Hset & Hch).
      assert (Hne : var <> "NODE_ENV"%string)
        by (intros ->; cbn in Hin;
            repeat (destruct Hin as [Hin | Hin]; [discriminate Hin|]); contradiction).
      destruct (Hset var None) as (s & Hs & Hs').
      { cbn in Hin |- *.
        repeat (destruct Hin as [<- | Hin]; [tauto|]). contradiction. }
      destruct (Hch var) as [Hsame | (_ & d & Hd & _)].
      * rewrite Hother in Hsame by assumption. unfold unset in Hu.
        rewrite <- Hsame, Hs in Hu. destruct Hu as [Hu | Hu]; [discriminate|].
        injection Hu as ->. contradiction.
      * cbn in Hd, Hin.
        repeat (destruct Hd as [Hd | Hd]; [try discriminate Hd|]); [| contradiction].
        injection Hd as <- _.
        repeat (destruct Hin as [Hin | Hin]; [discriminate Hin|]). contradiction.
    + eauto.
    + exfalso.
      pose proof (check_vars_returns_or_raises RunAutomation.required_vars w0) as N.
      rewrite H in N. now apply N.
  - intros e w' H.
    destruct (check_vars_raises _ _ _ _ H) as (v & dv & Hv & Hdv & Huv & -> & Hs & _).
    exists v.
    assert (Hsix : In v [ "TRACK17_API_URL"; "TRACK17_API_KEY"; "TRACK17_STATUS_PATH";
                          "WAPI_URL"; "WAPI_TOKEN"; "WAPI_CONNECTION_KEY" ]%string).
    { cbn in Hv |- *.
      repeat (destruct Hv as [Hv | Hv];
              [injection Hv as <- <-; try tauto; destruct Hdv; discriminate|]).
      contradiction. }
    repeat split; [assumption | | congruence].
    unfold unset in *. rewrite <- Hother; [assumption|].
    intros ->. cbn in Hsix.
    repeat (destruct Hsix as [Hsix | Hsix]; [discriminate Hsix|]). contradiction.
Qed.

(** X29. An unset department number gets the default of the source, which
    the sender then takes as it is: all digits, and already starting with
    55. *)
Theorem load_env_default_number w w' :
  RunAutomation.load_env_variables w = (Ok tt, w') ->
  unset w "TECHNICAL_DEPT_NUMBER" ->
  environ w' "TECHNICAL_DEPT_NUMBER"%string = Some (u "5594991307744")
  /\ CustomsSummary.clean_number (VStr (u "5594991307744")) = Ok (u "5594991307744").
Proof.
  intros H Hu.
  destruct (load_env_variables_run w) as (w0 & Hrun & Hsv & Hst & Hsl & Hother & Hnode & _).
  rewrite Hrun in H.
  destruct (check_vars_returns _ _ _ H) as (_ & _ & Hset & Hch).
  split.
  - destruct (Hset "TECHNICAL_DEPT_NUMBER"%string (Some (u "5594991307744")))
      as (s & Hs & Hs'); [cbn; tauto|].
    destruct (Hch "TECHNICAL_DEPT_NUMBER"%string) as [Hsame | (_ & d & Hd & _ & Hn)].
    + rewrite Hother in Hsame by discriminate. unfold unset in Hu.
      rewrite <- Hsame, Hs in Hu. destruct Hu as [Hu | Hu]; [discriminate|].
      injection Hu as ->. contradiction.
    + cbn in Hd.
      repeat (destruct Hd as [Hd | Hd]; [try discriminate Hd|]); [| contradiction].
      injection Hd as <-. exact Hn.
  - unfold CustomsSummary.clean_number. cbn [bind].
    rewrite filter_isdigit_ascii by (vm_compute; reflexivity).
    vm_compute. reflexivity.
Qed.

End Environment.

Lemma load_env_sets_every_variable_witness :
  sent (snd (RunAutomation.load_env_variables (Samples.offline Samples.settings)))
    = sent (Samples.offline Samples.settings)
  /\ (forall name s,
        environ (Samples.offline Samples.settings) name = Some s -> s <> [] ->
        environ (snd (RunAutomation.load_env_variables (Samples.offline Samples.settings)))
                name = Some s)
  /\ (forall var, In var (map fst RunAutomation.required_vars) ->
        exists s,
          environ (snd (RunAutomation.load_env_variables (Samples.offline Samples.settings)))
                  var = Some s /\ s <> [])
  /\ (exists api_url token key number,
        configured (snd (RunAutomation.load_env_variables (Samples.offline Samples.settings)))
                   api_url token key number).
Proof.
  apply (load_env_sets_every_variable (Samples.offline Samples.settings)).
  vm_compute. reflexivity.
Defined.

Lemma load_env_refuses_unset_variable_witness :
  exists e w',
    RunAutomation.load_env_variables
      (Samples.offline [ ("TRACK17_API_URL", "https://api.17track.net");
                         ("WAPI_TOKEN", "secret") ]%string) = (Raise e, w').
Proof.
  apply (proj1 (load_env_refuses_unset_variable
                  (Samples.offline [ ("TRACK17_API_URL", "https://api.17track.net");
                                     ("WAPI_TOKEN", "secret") ]%string))).
  exists "WAPI_URL"%string. split; [cbn; tauto | left; vm_compute; reflexivity].
Defined.

Lemma load_env_default_number_witness :
  environ (snd (RunAutomation.load_env_variables (Samples.offline Samples.settings)))
          "TECHNICAL_DEPT_NUMBER"%string = Some (u "5594991307744")
  /\ CustomsSummary.clean_number (B := Latin1) (VStr (u "5594991307744"))
     = Ok (u "5594991307744").
Proof.
  apply (@load_env_default_number Latin1 (Samples.offline Samples.settings)).
  - vm_compute. reflexivity.
  - left. vm_compute. reflexivity.
Defined.

(* ================================================================== *)
(** * The listing of python/tracking_service.py *)
(* ================================================================== *)

Section Listing.
Context {B : Builtins}.

Lemma collect_cat l1 l2 : forall acc,
  TrackingService.collect (l1 ++ l2) acc
    = (a <- TrackingService.collect l1 acc ;; TrackingService.collect l2 a).
Proof.
  induction l1 as [|item l1 IH]; intros acc; cbn [app TrackingService.collect bind];
    [reflexivity|].
  destruct (TrackingService._check_taxation item) as [[|]| |]; cbn [bind]; try reflexivity.
  - destruct (TrackingService.package_info item) as [info| |]; cbn [bind]; try reflexivity.
    apply IH.
  - apply IH.
Qed.

Lemma collect_all_cat l1 l2 : forall acc,
  TrackingService.collect_all (l1 ++ l2) acc
    = (a <- TrackingService.collect_all l1 acc ;; TrackingService.collect_all l2 a).
Proof.
  induction l1 as [|item l1 IH]; intros acc; cbn [app TrackingService.collect_all bind];
    [reflexivity|].
  destruct (TrackingService.tracking_info item) as [info| |]; cbn [bind]; try reflexivity.
  apply IH.
Qed.

Lemma collect_all_length items : forall acc r,
  TrackingService.collect_all items acc = Ok r ->
  List.length r = (List.length acc + List.length items)%nat.
Proof.
  induction items as [|item items IH]; intros acc r; cbn [TrackingService.collect_all].
  - intros H. injection H as <-. cbn. lia.
  - destruct (TrackingService.tracking_info item) as [info| |]; cbn [bind]; try discriminate.
    intros H. apply IH in H. rewrite length_app in H. cbn in *. lia.
Qed.

Lemma collect_length items : forall acc r,
  TrackingService.collect items acc = Ok r ->
  (List.length r <= List.length acc + List.length items)%nat.
Proof.
  induction items as [|item items IH]; intros acc r; cbn [TrackingService.collect].
  - intros H. injection H as <-. cbn. lia.
  - destruct (TrackingService._check_taxation item) as [[|]| |]; cbn [bind]; try discriminate.
    + destruct (TrackingService.package_info item) as [info| |]; cbn [bind];
        try discriminate.
      intros H. apply IH in H. rewrite length_app in H. cbn in *. lia.
    + intros H. apply IH in H. cbn. lia.
Qed.

Lemma pages_all_from_step fuel self page total numbers w :
  (page <= total)%Z ->
  TrackingService.pages_all_from (S fuel) self page total numbers w =
    match server w (List.length (sent w)) (TrackingService.list_request self page) with
    | Fails e => (Raise e, after w [TrackingService.list_request self page] [])
    | Responds r =>
        match TrackingService.take_page_all page total numbers r with
        | Ok (total', numbers') =>
            TrackingService.pages_all_from fuel self (page + 1) total' numbers'
              (after w [TrackingService.list_request self page] [])
        | Raise e => (Raise e, after w [TrackingService.list_request self page] [])
        | OutOfFuel => (OutOfFuel, after w [TrackingService.list_request self page] [])
        end
    end.
Proof.
  intros Hle. cbn [TrackingService.pages_all_from].
  apply Z.leb_le in Hle. rewrite Hle.
  unfold bindM at 1, http.
  destruct (server w _ _) as [r|e]; [| reflexivity].
  unfold bindM at 1, lift at 1.
  destruct (TrackingService.take_page_all page total numbers r) as [[t' p']| |]; reflexivity.
Qed.

(** One page taken by both loops: the same number of pages, and the same
    items added to what each has gathered. *)
Lemma take_page_both page total numbers pending r t1 numbers' t2 pending' :
  TrackingService.take_page_all page total numbers r = Ok (t1, numbers') ->
  TrackingService.take_page page total pending r = Ok (t2, pending') ->
  t2 = t1
  /\ exists items,
       TrackingService.collect_all items numbers = Ok numbers'
       /\ TrackingService.collect items pending = Ok pending'.
Proof.
  unfold TrackingService.take_page_all, TrackingService.take_page.
  destruct (json_of r) as [d| |]; cbn [bind]; try discriminate.
  destruct (TrackingService.invalid d) as [[|]| |]; cbn [bind]; try discriminate.
  destruct (TrackingService.update_total_pages page total d) as [t| |]; cbn [bind];
    try discriminate.
  destruct (subscript d "data") as [data| |]; cbn [bind]; try discriminate.
  destruct (subscript data "accepted") as [accepted| |]; cbn [bind]; try discriminate.
  destruct (iter accepted) as [items| |]; cbn [bind]; try discriminate.
  destruct (TrackingService.collect_all items numbers) as [n'| |] eqn:Ea; cbn [bind];
    try discriminate.
  destruct (TrackingService.collect items pending) as [p'| |] eqn:Ep; cbn [bind];
    try discriminate.
  intros H1 H2. injection H1 as <- <-. injection H2 as <- <-.
  split; [reflexivity|]. exists items. auto.
Qed.

Lemma pages_both self fuel : forall page total numbers pending seen w all w1 taxed w2,
  TrackingService.collect_all seen [] = Ok numbers ->
  TrackingService.collect seen [] = Ok pending ->
  TrackingService.pages_all_from fuel self page total numbers w = (Ok all, w1) ->
  TrackingService.pages_from fuel self page total pending w = (Ok taxed, w2) ->
  w2 = w1
  /\ exists items,
       TrackingService.collect_all items [] = Ok all
       /\ TrackingService.collect items [] = Ok taxed.
Proof.
  induction fuel as [|fuel IH]; intros page total numbers pending seen w all w1 taxed w2
    Hn Hp Ha Ht; [discriminate Ha|].
  destruct (Z.leb_spec page total) as [Hle | Hgt].
  2:{ cbn [TrackingService.pages_all_from TrackingService.pages_from] in Ha, Ht.
      replace (page <=? total)%Z with false in Ha, Ht by (symmetry; apply Z.leb_gt; lia).
      unfold ret in Ha, Ht. injection Ha as <- <-. injection Ht as <- <-.
      split; [reflexivity|]. exists seen. auto. }
  rewrite pages_all_from_step in Ha by assumption.
  rewrite pages_from_step in Ht by assumption.
  destruct (server w (List.length (sent w)) (TrackingService.list_request self page))
    as [r|e]; [| discriminate Ha].
  destruct (TrackingService.take_page_all page total numbers r) as [[t1 numbers']| |] eqn:E1;
    try discriminate Ha.
  destruct (TrackingService.take_page page total pending r) as [[t2 pending']| |] eqn:E2;
    try discriminate Ht.
  destruct (take_page_both _ _ _ _ _ _ _ _ _ E1 E2) as (-> & items & Hi1 & Hi2).
  eapply (IH (page + 1)%Z t1 numbers' pending' (seen ++ items)); [ | | exact Ha | exact Ht].
  - rewrite collect_all_cat, Hn. exact Hi1.
  - rewrite collect_cat, Hp. exact Hi2.
Qed.

(** X30. The listing and the pending fetch walk the same pages.  When both
    return they have made the same requests, and over one and the same
    sequence of items the listing holds an entry for each item and the
    fetch one for each item that [_check_taxation] accepts, in order: the
    pending packages are never more than the listed ones. *)
Theorem listing_covers_pending self fuel w all w1 pending w2 :
  TrackingService.list_all_tracking_numbers self fuel w = (Ok all, w1) ->
  TrackingService.get_packages_with_pending_customs self fuel w = (Ok pending, w2) ->
  w2 = w1
  /\ exists items,
       TrackingService.collect_all items [] = Ok all
       /\ TrackingService.collect items [] = Ok pending
       /\ List.length all = List.length items
       /\ (List.length pending <= List.length all)%nat.
Proof.
  intros Ha Hp.
  destruct (pages_both self fuel 1%Z 1%Z [] [] [] w all w1 pending w2 eq_refl eq_refl Ha Hp)
    as (Hw & items & Hi1 & Hi2).
  split; [assumption|]. exists items.
  pose proof (collect_all_length _ _ _ Hi1) as L1.
  pose proof (collect_length _ _ _ Hi2) as L2.
  cbn in L1, L2. repeat split; auto; lia.
Qed.

End Listing.

Lemma listing_covers_pending_witness :
  snd (TrackingService.get_packages_with_pending_customs (B := Latin1)
         Samples.legacy_tracking 3
         (Samples.start
            [ Samples.list_page (Samples.listed "LB1" "Delivered" "Delivered") 2 2 40 ] ""))
  = snd (TrackingService.list_all_tracking_numbers Samples.legacy_tracking 3
           (Samples.start
              [ Samples.list_page (Samples.listed "LB1" "Delivered" "Delivered") 2 2 40 ] ""))
  /\ exists items,
       TrackingService.collect_all items []
         = fst (TrackingService.list_all_tracking_numbers Samples.legacy_tracking 3
                  (Samples.start
                     [ Samples.list_page
                         (Samples.listed "LB1" "Delivered" "Delivered") 2 2 40 ] ""))
       /\ TrackingService.collect (B := Latin1) items [] = Ok []
       /\ 2%nat = List.length items
       /\ (0 <= 2)%nat.
Proof.
  pose proof (@listing_covers_pending Latin1 Samples.legacy_tracking 3
    (Samples.start
       [ Samples.list_page (Samples.listed "LB1" "Delivered" "Delivered") 2 2 40 ] "")
    _ _ _ _ ltac:(vm_compute; reflexivity) ltac:(vm_compute; reflexivity)) as H.
  exact H.
Defined.
